(** * The lessons back end: a model of [server.js] and its REST contract

    [server.js] is an Express application in front of two MongoDB
    collections, [lessons] and [order_placed].  Every route handler is one
    driver call wrapped in [try { ... } catch (err) { ... 500 ... }].

    The development has three layers:
    - the data the handlers pass around: JSON values, BSON documents and
      ObjectIds;
    - the part of the MongoDB driver and server the handlers call
      ([insertOne], [findOne], [find], [updateOne] with [$set], [deleteOne],
      [bulkWrite]), as documented for the Node.js driver with a server that
      speaks the Stable API ([ServerApiVersion.v1], MongoDB 5.0 or later);
    - the handlers of [server.js], written in a state-and-exception monad so
      that each reads like its JavaScript source.

    JSON objects at the top level of a request, a response or a stored
    document are finite maps: the order of their keys is not modelled.
    JSON numbers are carried as integers; no handler computes with them. *)

From Stdlib Require Import Strings.Ascii Strings.String Strings.Byte.
From stdpp Require Import gmap strings list fin_maps pretty.

#[local] Set Warnings "-register-all".
#[local] Open Scope string_scope.

(** ** JSON values *)

Inductive json :=
| JNull
| JBool (b : bool)
| JNum (n : Z)
| JStr (s : string)
| JArr (items : list json)
| JObj (members : list (string * json)).

(** The induction principle that reaches inside arrays and objects. *)
Section json_nested_induction.
Variable P : json → Prop.
Hypothesis Hnull : P JNull.
Hypothesis Hbool : ∀ b, P (JBool b).
Hypothesis Hnum : ∀ n, P (JNum n).
Hypothesis Hstr : ∀ s, P (JStr s).
Hypothesis Harr : ∀ l, Forall P l → P (JArr l).
Hypothesis Hobj : ∀ kvs, Forall (λ kv, P kv.2) kvs → P (JObj kvs).

Fixpoint json_nested_ind (j : json) : P j :=
  match j with
  | JNull => Hnull
  | JBool b => Hbool b
  | JNum n => Hnum n
  | JStr s => Hstr s
  | JArr l =>
      Harr l ((fix go l : Forall P l :=
                 match l with
                 | [] => Forall_nil_2 _
                 | x :: xs => Forall_cons_2 _ _ _ (json_nested_ind x) (go xs)
                 end) l)
  | JObj kvs =>
      Hobj kvs ((fix go l : Forall (λ kv, P kv.2) l :=
                   match l with
                   | [] => Forall_nil_2 _
                   | x :: xs =>
                       Forall_cons_2 (λ kv, P kv.2) _ _
                         (json_nested_ind x.2) (go xs)
                   end) kvs)
  end.
End json_nested_induction.

Fixpoint json_eqb (x y : json) : bool :=
  match x, y with
  | JNull, JNull => true
  | JBool a, JBool b => bool_decide (a = b)
  | JNum a, JNum b => bool_decide (a = b)
  | JStr a, JStr b => bool_decide (a = b)
  | JArr l, JArr l' =>
      (fix go l l' :=
         match l, l' with
         | [], [] => true
         | a :: l, b :: l' => json_eqb a b && go l l'
         | _, _ => false
         end) l l'
  | JObj l, JObj l' =>
      (fix go l l' :=
         match l, l' with
         | [], [] => true
         | a :: l, b :: l' =>
             bool_decide (a.1 = b.1) && json_eqb a.2 b.2 && go l l'
         | _, _ => false
         end) l l'
  | _, _ => false
  end.

#[global] Instance json_eq_dec : EqDecision json.
Proof.
  assert (Heq : ∀ x y, json_eqb x y = true ↔ x = y).
  { abstract (
      intros x;
      induction x as [ | | | |l IH|l IH] using json_nested_ind; intros [];
      simpl;
      try (split; [done|congruence]);
      try (rewrite bool_decide_eq_true; split; congruence);
      [ revert items;
        induction IH as [|a l Ha _ IHl]; intros [|b l'];
        try (split; [done|congruence]); try done;
        rewrite andb_true_iff, Ha; specialize (IHl l'); split;
        [ intros [-> H]; apply IHl in H; congruence
        | intros [= -> ->]; split; [done|]; by apply IHl ]
      | revert members;
        induction IH as [|[k a] l Ha _ IHl]; intros [|[k' b] l'];
        try (split; [done|congruence]); try done;
        simpl in *;
        rewrite !andb_true_iff, bool_decide_eq_true, Ha;
        specialize (IHl l'); split;
        [ intros [[-> ->] H]; apply IHl in H; congruence
        | intros [= -> -> ->]; split; [done|]; by apply IHl ] ]). }
  intros x y. destruct (json_eqb x y) eqn:E.
  - left. by apply Heq.
  - right. intros Hxy. apply Heq in Hxy. congruence.
Defined.

(** Property access [v.name] on a parsed JSON value.  [None] is JavaScript's
    [undefined]; reading a property of [null] throws, which is the caller's
    case to make.  Strings, numbers, booleans and arrays have no own property
    of the names the handlers read ([id], [spaces]). *)
Fixpoint assoc (k : string) (kvs : list (string * json)) : option json :=
  match kvs with
  | [] => None
  | (k', v) :: rest => if decide (k' = k) then Some v else assoc k rest
  end.

Definition get_prop (v : json) (name : string) : option json :=
  match v with
  | JObj kvs => assoc name kvs
  | _ => None
  end.

(** ** Exceptions *)

Inductive error :=
| TypeError (detail : string)
| SyntaxError (detail : string)
| BSONError (detail : string)
| MongoError (detail : string).

Inductive result (A : Type) :=
| Ok (a : A)
| Throw (e : error).
Arguments Ok {A} a.
Arguments Throw {A} e.

#[global] Instance result_ret : MRet result := λ A a, Ok a.
#[global] Instance result_bind : MBind result := λ A B f r,
  match r with
  | Ok a => f a
  | Throw e => Throw e
  end.
#[global] Instance result_fmap : FMap result := λ A B f r,
  match r with
  | Ok a => Ok (f a)
  | Throw e => Throw e
  end.

Definition is_Ok {A} (r : result A) : bool :=
  match r with Ok _ => true | Throw _ => false end.

(** ** ObjectId

    The driver's [ObjectId] is twelve bytes; its JSON form is the lower-case
    hexadecimal string of twenty-four characters ([toHexString]).  The
    constructor, as the handlers call it:
    - on a string of twenty-four hexadecimal digits (either case) it decodes;
    - on any other string it throws;
    - on [undefined], [null] or a number it generates a new identifier;
    - on an object that has an [id] property it proceeds with that property,
      which must be a string;
    - on anything else it throws.
    Releases of the library before the current one also took any string of
    twelve characters; the statements below speak of a valid identifier
    through [ObjectId_of_string] and hold for either rule. *)

Definition ObjectId := list byte.

#[global] Instance byte_eq_dec : EqDecision byte.
Proof.
  intros a b. destruct (Byte.eqb a b) eqn:E.
  - left. by apply Byte.byte_dec_bl.
  - right. by apply Byte.eqb_false.
Defined.

Definition hex_value (c : ascii) : option N :=
  let n := N_of_ascii c in
  if (48 <=? n)%N && (n <=? 57)%N then Some (n - 48)%N
  else if (97 <=? n)%N && (n <=? 102)%N then Some (n - 87)%N
  else if (65 <=? n)%N && (n <=? 70)%N then Some (n - 55)%N
  else None.

Definition hex_char (d : N) : ascii :=
  ascii_of_N (if (d <? 10)%N then 48 + d else 87 + d)%N.

Definition byte_of_N (n : N) : byte :=
  default x00 (Byte.of_N (n mod 256)%N).

Fixpoint fromHex (s : string) : option (list byte) :=
  match s with
  | EmptyString => Some []
  | String hi (String lo rest) =>
      h ← hex_value hi;
      l ← hex_value lo;
      bs ← fromHex rest;
      Some (byte_of_N (16 * h + l)%N :: bs)
  | String _ EmptyString => None
  end.

Fixpoint toHexString (o : ObjectId) : string :=
  match o with
  | [] => EmptyString
  | b :: rest =>
      let n := Byte.to_N b in
      String (hex_char (n / 16)%N)
        (String (hex_char (n mod 16)%N) (toHexString rest))
  end.

Definition invalid_id_message : string :=
  "input must be a 24 character hex string, 12 byte Uint8Array, or an integer".

(** [new ObjectId(s)] for a string [s]. *)
Definition ObjectId_of_string (s : string) : result ObjectId :=
  if decide (String.length s = 24)
  then match fromHex s with
       | Some bytes => Ok bytes
       | None => Throw (BSONError invalid_id_message)
       end
  else Throw (BSONError invalid_id_message).

(** Big-endian bytes of a number, [width] of them. *)
Fixpoint be_bytes (width : nat) (n : N) : list byte :=
  match width with
  | O => []
  | S w => (be_bytes w (n / 256)%N ++ [byte_of_N n])%list
  end.

(** ** Documents and collections *)

(** A stored field is an ObjectId or a JSON value.  Client bodies are JSON;
    ObjectIds enter a document only as a generated [_id]. *)
Inductive bson :=
| BOid (o : ObjectId)
| BJson (v : json).

#[global] Instance bson_eq_dec : EqDecision bson.
Proof. solve_decision. Defined.

Abbreviation object := (gmap string json).
Abbreviation document := (gmap string bson).

(** [res.json] of a stored value: an ObjectId goes out as its hex string. *)
Definition toJSON (v : bson) : json :=
  match v with
  | BOid o => JStr (toHexString o)
  | BJson j => j
  end.

Definition doc_toJSON (d : document) : object := toJSON <$> d.

Record database := {
  lessons : list document;
  order_placed : list document;
}.

Inductive collection := Lessons | Orders.

Definition docs_of (c : collection) (db : database) : list document :=
  match c with
  | Lessons => lessons db
  | Orders => order_placed db
  end.

Definition with_docs (c : collection) (l : list document) (db : database)
  : database :=
  match c with
  | Lessons => {| lessons := l; order_placed := order_placed db |}
  | Orders => {| lessons := lessons db; order_placed := l |}
  end.

Definition has_id (oid : ObjectId) (d : document) : bool :=
  bool_decide (d !! "_id" = Some (BOid oid)).

(** ** The process: state, environment, and the handler monad *)

(** What a request sees of the outside world: the wall clock in seconds
    ([Date.now() / 1000]) and whether the driver call of this request is cut
    short by a failure that does not come from the logic of the call (a lost
    connection, a time-out, a limit of size or depth), with its error
    message. *)
Record env := {
  clock : N;
  outage : option string;
}.

Inductive log_line :=
| LogRequest (time : N) (route : string)
| LogError (label : string) (err : error)
| LogInfo (text : string).

(** Module-level state of [server.js] and of the bson library it loads:
    [db1] is unset until [connectDB] succeeds; [PROCESS_UNIQUE] and [index]
    feed [ObjectId.generate]. *)
Record server := {
  db1 : option database;
  PROCESS_UNIQUE : N;
  index : N;
  console : list log_line;
}.

Definition set_db1 (db : option database) (st : server) : server :=
  {| db1 := db; PROCESS_UNIQUE := PROCESS_UNIQUE st;
     index := index st; console := console st |}.

Definition set_index (i : N) (st : server) : server :=
  {| db1 := db1 st; PROCESS_UNIQUE := PROCESS_UNIQUE st;
     index := i; console := console st |}.

Definition log (l : log_line) (st : server) : server :=
  {| db1 := db1 st; PROCESS_UNIQUE := PROCESS_UNIQUE st;
     index := index st; console := (console st ++ [l])%list |}.

(** [H A]: code that cannot throw; [M A]: code that can.  A state change made
    before a [throw] stays made, as in JavaScript. *)
Definition H (A : Type) : Type := server → A * server.
Definition M (A : Type) : Type := server → result A * server.

Definition ret {A} (a : A) : M A := λ st, (Ok a, st).
Definition throw {A} (e : error) : M A := λ st, (Throw e, st).
Definition bind {A B} (m : M A) (k : A → M B) : M B := λ st,
  match m st with
  | (Ok a, st') => k a st'
  | (Throw e, st') => (Throw e, st')
  end.
Definition lift {A} (r : result A) : M A := λ st, (r, st).
Definition total {A} (h : H A) : M A := λ st,
  let (a, st') := h st in (Ok a, st').
Definition try_catch {A} (m : M A) (handler : error → H A) : H A := λ st,
  match m st with
  | (Ok a, st') => (a, st')
  | (Throw e, st') => handler e st'
  end.

Notation "'let*' x ':=' m 'in' k" := (bind m (λ x, k))
  (at level 10, x name, m at level 100, k at level 200,
   format "'[v' 'let*'  x  ':='  m  'in' '/' k ']'").
Notation "m ';;' k" := (bind m (λ _, k))
  (at level 100, k at level 200, right associativity).

(** *** ObjectId generation *)

(** [ObjectId.getInc]: [index = (index + 1) % 0xffffff]. *)
Definition getInc : H N := λ st,
  let i := ((index st + 1) mod 16777215)%N in (i, set_index i st).

(** [ObjectId.generate(time)]: four bytes of time, five of the process, three
    of the counter. *)
Definition ObjectId_generate (time : N) : H ObjectId := λ st,
  let (inc, st') := getInc st in
  ((be_bytes 4 time ++ be_bytes 5 (PROCESS_UNIQUE st) ++ be_bytes 3 inc)%list,
   st').

(** [new ObjectId(inputId)] for a value read out of a JSON body; [None] is
    [undefined]. *)
Definition ObjectId_new (inputId : option json) (e : env) : M ObjectId :=
  let* workingId :=
    match inputId with
    | Some (JObj kvs) =>
        match assoc "id" kvs with
        | Some (JStr s) => ret (Some (JStr s))
        | Some _ =>
            throw (BSONError
              "Argument passed in must have an id that is of type string or Buffer")
        | None => ret inputId
        end
    | _ => ret inputId
    end in
  match workingId with
  | None | Some JNull => total (ObjectId_generate (clock e))
  | Some (JNum n) => total (ObjectId_generate (Z.to_N (n mod 2 ^ 32)))
  | Some (JStr s) => lift (ObjectId_of_string s)
  | Some _ =>
      throw (BSONError "Argument passed in does not match the accepted types")
  end.

(** ** Request bodies

    [express.json()] in its default strict mode hands a handler an object or
    an array (an absent body is the empty object). *)
Inductive body :=
| Object (fields : object)
| Array (items : list json).

(** ** The database: what the driver and the server do with a call *)

(** BSON keys are NUL-terminated: the driver refuses a key that contains
    a NUL character, at any depth. *)
Fixpoint has_nul (s : string) : bool :=
  match s with
  | EmptyString => false
  | String c rest => bool_decide (c = zero) || has_nul rest
  end.

Fixpoint serializable (v : json) : bool :=
  match v with
  | JArr items => forallb serializable items
  | JObj members =>
      forallb (λ kv, negb (has_nul kv.1) && serializable kv.2) members
  | _ => true
  end.

Definition object_serializable (o : object) : bool :=
  forallb (λ kv, negb (has_nul kv.1) && serializable kv.2) (map_to_list o).

Definition body_serializable (b : body) : bool :=
  match b with
  | Object o => object_serializable o
  | Array items => forallb serializable items
  end.

(** *** Field paths of [$set]

    A key of the [$set] document is a path in dot notation.  The server
    rejects, before it looks for a document, a path with an empty component,
    two paths of which one extends the other, and an update that is not an
    object.  A component that begins with [$] is a positional or array-filter
    operator; the handlers pass neither an array match nor [arrayFilters], and
    the model rejects such a path with the others. *)
Fixpoint split_path (s : string) : list string :=
  match s with
  | EmptyString => [EmptyString]
  | String c rest =>
      if decide (c = "."%char) then EmptyString :: split_path rest
      else match split_path rest with
           | first :: others => String c first :: others
           | [] => [String c EmptyString]
           end
  end.

Definition dollar_prefixed (s : string) : bool :=
  match s with
  | String c _ => bool_decide (c = "$"%char)
  | EmptyString => false
  end.

Definition component_ok (c : string) : bool :=
  negb (bool_decide (c = EmptyString)) && negb (dollar_prefixed c).

Fixpoint is_prefix (p q : list string) : bool :=
  match p, q with
  | [], _ => true
  | a :: p', b :: q' => bool_decide (a = b) && is_prefix p' q'
  | _ :: _, [] => false
  end.

Fixpoint conflict_free (paths : list (list string)) : bool :=
  match paths with
  | [] => true
  | p :: rest =>
      forallb (λ q, negb (is_prefix p q) && negb (is_prefix q p)) rest
      && conflict_free rest
  end.

Definition modifiers : Type := list (list string * json).

Definition parse_set (update : body) : result modifiers :=
  match update with
  | Array _ =>
      Throw (MongoError
        "Modifiers operate on fields but we found type array instead.")
  | Object o =>
      let mods := (λ kv, (split_path kv.1, kv.2)) <$> map_to_list o in
      if negb (forallb (λ m, forallb component_ok m.1) mods)
      then Throw (MongoError "The update path contains an empty field name or an operator that is not allowed.")
      else if negb (conflict_free (fst <$> mods))
      then Throw (MongoError "Updating the path would create a conflict.")
      else Ok mods
  end.

(** *** Writing below a field *)

Fixpoint digits (s : string) (acc : N) : option N :=
  match s with
  | EmptyString => Some acc
  | String c rest => d ← Ascii.is_nat c; digits rest (10 * acc + N.of_nat d)%N
  end.

(** An array position is a decimal numeral without a leading zero. *)
Definition array_index (c : string) : option N :=
  match c with
  | EmptyString => None
  | String "0" (String _ _) => None
  | _ => digits c 0
  end.

Definition max_padding : N := 1500000.

(** The value that a missing path stands for: embedded documents all the
    way down. *)
Fixpoint nest (p : list string) (v : json) : json :=
  match p with
  | [] => v
  | c :: rest => JObj [(c, nest rest v)]
  end.

Fixpoint assoc_set (k : string) (v : json) (kvs : list (string * json))
  : list (string * json) :=
  match kvs with
  | [] => [(k, v)]
  | (k', v') :: rest =>
      if decide (k' = k) then (k, v) :: rest
      else (k', v') :: assoc_set k v rest
  end.

Definition not_viable : error :=
  MongoError "Cannot create field in element".

Fixpoint set_in (p : list string) (v : json) (target : json) : result json :=
  match p with
  | [] => Ok v
  | c :: rest =>
      match target with
      | JObj members =>
          match assoc c members with
          | Some child =>
              child' ← set_in rest v child;
              Ok (JObj (assoc_set c child' members))
          | None => Ok (JObj (members ++ [(c, nest rest v)]))
          end
      | JArr items =>
          match array_index c with
          | Some i =>
              match items !! N.to_nat i with
              | Some child =>
                  child' ← set_in rest v child;
                  Ok (JArr (<[N.to_nat i := child']> items))
              | None =>
                  if (max_padding <? i - N.of_nat (length items))%N
                  then Throw (MongoError "can't backfill more than 1500000 elements")
                  else Ok (JArr (items
                                 ++ replicate (N.to_nat i - length items) JNull
                                 ++ [nest rest v]))
              end
          | None => Throw not_viable
          end
      | _ => Throw not_viable
      end
  end.

(** One [$set] entry applied to a document: only the field that the path
    starts with is rewritten. *)
Definition set_field (d : document) (p : list string) (v : json)
  : result document :=
  match p with
  | [] => Throw (MongoError "An empty update path is not valid.")
  | f :: rest =>
      new ← match rest, d !! f with
            | [], _ => Ok v
            | _ :: _, None => Ok (nest rest v)
            | _ :: _, Some (BJson j) => set_in rest v j
            | _ :: _, Some (BOid _) => Throw not_viable
            end;
      Ok (<[f := BJson new]> d)
  end.

Fixpoint apply_set (mods : modifiers) (d : document) : result document :=
  match mods with
  | [] => Ok d
  | (p, v) :: rest => d' ← set_field d p v; apply_set rest d'
  end.

(** The whole update of one document; [_id] is immutable. *)
Definition update_document (mods : modifiers) (d : document)
  : result document :=
  d' ← apply_set mods d;
  if decide (d' !! "_id" = d !! "_id") then Ok d'
  else Throw (MongoError
    "Performing an update on the path '_id' would modify the immutable field '_id'").

(** The first document that matches [{_id: oid}], rewritten or removed. *)
Fixpoint update_first (oid : ObjectId) (f : document → result document)
  (docs : list document) : result (list document) :=
  match docs with
  | [] => Ok []
  | d :: rest =>
      if has_id oid d then d' ← f d; Ok (d' :: rest)
      else rest' ← update_first oid f rest; Ok (d :: rest')
  end.

Fixpoint remove_first (oid : ObjectId) (docs : list document)
  : list document :=
  match docs with
  | [] => []
  | d :: rest => if has_id oid d then rest else d :: remove_first oid rest
  end.

(** *** Driver calls

    A call first does the driver's own checks, then crosses the network,
    then runs on the server against the named collection. *)

Definition network (e : env) : M unit :=
  match outage e with
  | Some detail => throw (MongoError detail)
  | None => ret ()
  end.

Definition read (c : collection) : M (list document) := λ st,
  match db1 st with
  | Some db => (Ok (docs_of c db), st)
  | None => (Throw (MongoError "Client must be connected"), st)
  end.

Definition store (c : collection) (docs : list document) : M unit := λ st,
  (Ok (), set_db1 (with_docs c docs <$> db1 st) st).

(** [insertOne]: the driver adds an [_id] when the document has none (or
    [null]) and otherwise keeps the one it is given; the server refuses an
    array as [_id], keeps [_id] unique within the collection, and appends
    the document.  A body that is an array is not a document, and the server
    refuses it. *)
Definition insertOne (c : collection) (doc : body) (e : env) : M bson :=
  match doc with
  | Array _ =>
      let* _unused := total (ObjectId_generate (clock e)) in
      network e ;;
      throw (MongoError
        "BSON field 'insert.documents.0' is the wrong type 'array', expected type 'object'")
  | Object o =>
      let* id :=
        match o !! "_id" with
        | None | Some JNull =>
            let* oid := total (ObjectId_generate (clock e)) in ret (BOid oid)
        | Some v => ret (BJson v)
        end in
      if negb (object_serializable o)
      then throw (BSONError "key must not contain null bytes")
      else
        network e ;;
        let* docs := read c in
        match id with
        | BJson (JArr _) =>
            throw (MongoError "The '_id' value cannot be of type array")
        | _ =>
            if existsb (λ d, bool_decide (d !! "_id" = Some id)) docs
            then throw (MongoError "E11000 duplicate key error")
            else
              store c (docs ++ [<["_id" := id]> (BJson <$> o)]) ;;
              ret id
        end
  end.

Definition findOne (c : collection) (oid : ObjectId) (e : env)
  : M (option document) :=
  network e ;;
  let* docs := read c in
  ret (find (has_id oid) docs).

Definition find_toArray (c : collection) (e : env) : M (list document) :=
  network e ;;
  read c.

Definition updateOne (c : collection) (oid : ObjectId) (set : body) (e : env)
  : M unit :=
  if negb (body_serializable set)
  then throw (BSONError "key must not contain null bytes")
  else
    network e ;;
    let* mods := lift (parse_set set) in
    let* docs := read c in
    let* docs' := lift (update_first oid (update_document mods) docs) in
    store c docs'.

Definition deleteOne (c : collection) (oid : ObjectId) (e : env) : M unit :=
  network e ;;
  let* docs := read c in
  store c (remove_first oid docs).

(** One entry of a bulk write: [{updateOne: {filter: {_id}, update: {$set}}}]. *)
Record write_op := {
  filter : ObjectId;
  update : body;
}.

(** Of the driver's result object the model keeps two counters. *)
Record BulkWriteResult := {
  matchedCount : nat;
  modifiedCount : nat;
}.

Definition count (b : bool) : nat := if b then 1 else 0.

(** An ordered batch: the operations run one after the other, and an
    operation that fails stops the batch with the earlier writes in place. *)
Fixpoint run_ops (c : collection) (ops : list write_op)
  (acc : BulkWriteResult) : M BulkWriteResult :=
  match ops with
  | [] => ret acc
  | op :: rest =>
      let* mods := lift (parse_set (update op)) in
      let* docs := read c in
      let* docs' :=
        lift (update_first (filter op) (update_document mods) docs) in
      store c docs' ;;
      run_ops c rest
        {| matchedCount :=
             matchedCount acc + count (existsb (has_id (filter op)) docs);
           modifiedCount :=
             modifiedCount acc + count (negb (bool_decide (docs' = docs))) |}
  end.

Definition bulkWrite (c : collection) (ops : list write_op) (e : env)
  : M BulkWriteResult :=
  match ops with
  | [] => throw (MongoError "Invalid BulkOperation, Batch cannot be empty")
  | _ :: _ =>
      if negb (forallb (λ op, body_serializable (update op)) ops)
      then throw (BSONError "key must not contain null bytes")
      else
        network e ;;
        run_ops c ops {| matchedCount := 0; modifiedCount := 0 |}
  end.

(** ** [server.js] *)

Inductive reply :=
| Json (o : object)
| JsonList (l : list object)
| BulkReply (message : string) (result : BulkWriteResult).

Record response := {
  status : nat;
  payload : reply;
}.

Definition error_body (msg : string) : reply := Json {[ "error" := JStr msg ]}.
Definition message_body (msg : string) : reply :=
  Json {[ "message" := JStr msg ]}.

(** [res.status(code).json(r)] *)
Definition res_json (code : nat) (r : reply) : M response :=
  ret {| status := code; payload := r |}.

(** A [catch (err)] block: [console.error(label, err)] and a fixed 500. *)
Definition catch_500 (label msg : string) (err : error) : H response := λ st,
  ({| status := 500; payload := error_body msg |}, log (LogError label err) st).

(** [connectDB]: the session is kept on success; a failure is logged and
    leaves [db1] unset. *)
Definition connectDB (attempt : result database) : H unit := λ st,
  match attempt with
  | Ok db => ((), set_db1 (Some db) (log (LogInfo "Connected to MongoDB") st))
  | Throw err => ((), log (LogError "MongoDB connection error:" err) st)
  end.

Definition db_collection (name : collection) : M collection := λ st,
  match db1 st with
  | Some _ => (Ok name, st)
  | None =>
      (Throw (TypeError
         "Cannot read properties of undefined (reading 'collection')"), st)
  end.

Definition lessonsCollection : M collection := db_collection Lessons.
Definition ordersCollection : M collection := db_collection Orders.

(** [{...doc}]: the own enumerable properties; an array spreads to its
    positions. *)
Definition spread (b : body) : object :=
  match b with
  | Object o => o
  | Array items => list_to_map (imap (λ i v, (pretty i, v)) items)
  end.

(** [app.get("/lessons")] *)
Definition get_lessons (e : env) : H response :=
  try_catch
    (let* coll := lessonsCollection in
     let* lessons := find_toArray coll e in
     res_json 200 (JsonList (doc_toJSON <$> lessons)))
    (catch_500 "Error fetching lessons:" "Failed to fetch lessons").

(** [app.get("/lessons/:id")] *)
Definition get_lesson (lessonId : string) (e : env) : H response :=
  try_catch
    (let* coll := lessonsCollection in
     let* oid := ObjectId_new (Some (JStr lessonId)) e in
     let* lesson := findOne coll oid e in
     match lesson with
     | Some doc => res_json 200 (Json (doc_toJSON doc))
     | None => res_json 404 (error_body "Lesson not found")
     end)
    (catch_500 "Error fetching lesson by ID:" "Failed to fetch lesson").

(** [app.post("/lessons")] *)
Definition post_lessons (lesson : body) (e : env) : H response :=
  try_catch
    (let* coll := lessonsCollection in
     let* insertedId := insertOne coll lesson e in
     res_json 201 (Json (<["_id" := toJSON insertedId]> (spread lesson))))
    (catch_500 "Error adding lesson:" "Failed to add lesson").

Fixpoint mapM {A B} (f : A → M B) (l : list A) : M (list B) :=
  match l with
  | [] => ret []
  | x :: xs => let* y := f x in let* ys := mapM f xs in ret (y :: ys)
  end.

(** The arrow function of [updates.map]: an [undefined] value of [spaces]
    is written as [null]. *)
Definition bulkOperation (e : env) (update : json) : M write_op :=
  match update with
  | JNull =>
      throw (TypeError "Cannot read properties of null (reading 'id')")
  | _ =>
      let* oid := ObjectId_new (get_prop update "id") e in
      ret {| filter := oid;
             update :=
               Object {[ "spaces" :=
                           default JNull (get_prop update "spaces") ]} |}
  end.

Definition bulkOperations (updates : body) (e : env) : M (list write_op) :=
  match updates with
  | Array items => mapM (bulkOperation e) items
  | Object _ => throw (TypeError "updates.map is not a function")
  end.

(** [app.put("/lessons/updateSpaces")] *)
Definition put_updateSpaces (updates : body) (e : env) : H response :=
  try_catch
    (let* ops := bulkOperations updates e in
     let* coll := lessonsCollection in
     let* result := bulkWrite coll ops e in
     res_json 200 (BulkReply "Spaces updated successfully" result))
    (catch_500 "Error updating spaces:" "Failed to update spaces").

(** [app.put("/lessons/:id")] *)
Definition put_lesson (id : string) (updatedLesson : body) (e : env)
  : H response :=
  try_catch
    (let* coll := lessonsCollection in
     let* oid := ObjectId_new (Some (JStr id)) e in
     updateOne coll oid updatedLesson e ;;
     res_json 200 (message_body "Lesson updated successfully"))
    (catch_500 "Error updating lesson:" "Failed to update lesson").

(** [app.delete("/lessons/:id")] *)
Definition delete_lesson (id : string) (e : env) : H response :=
  try_catch
    (let* coll := lessonsCollection in
     let* oid := ObjectId_new (Some (JStr id)) e in
     deleteOne coll oid e ;;
     res_json 200 (message_body "Lesson deleted successfully"))
    (catch_500 "Error deleting lesson:" "Failed to delete lesson").

(** [app.post("/order_placed")] *)
Definition post_order_placed (order : body) (e : env) : H response :=
  try_catch
    (let* coll := ordersCollection in
     let* _inserted := insertOne coll order e in
     res_json 201 (message_body "Order placed successfully"))
    (catch_500 "Error placing order:" "Failed to place order").

(** [app.get("/order_placed")] *)
Definition get_order_placed (e : env) : H response :=
  try_catch
    (let* coll := ordersCollection in
     let* orders := find_toArray coll e in
     res_json 200 (JsonList (doc_toJSON <$> orders)))
    (catch_500 "Error fetching orders:" "Failed to fetch orders").

(** The global error handler, [app.use((err, req, res, next) => ...)]. *)
Definition global_error_handler (err : error) : H response := λ st,
  ({| status := 500; payload := error_body "An error occurred" |},
   log (LogError "Global error handler:" err) st).

(** *** The application

    A request is taken after routing: [endpoint] names the route Express has
    selected and carries its path parameter.  [express.json()] runs before
    the logger and the routes; when it cannot parse the body it passes its
    error on, and the only error-handling middleware is the global handler. *)
Inductive endpoint :=
| GetLessons
| GetLesson (id : string)
| PostLessons
| PutUpdateSpaces
| PutLesson (id : string)
| DeleteLesson (id : string)
| PostOrderPlaced
| GetOrderPlaced.

Inductive parsed :=
| BodyError (detail : string)
| Body (b : body).

Record request := {
  target : endpoint;
  content : parsed;
}.

Definition route_name (t : endpoint) : string :=
  match t with
  | GetLessons => "GET /lessons"
  | GetLesson id => "GET /lessons/" +:+ id
  | PostLessons => "POST /lessons"
  | PutUpdateSpaces => "PUT /lessons/updateSpaces"
  | PutLesson id => "PUT /lessons/" +:+ id
  | DeleteLesson id => "DELETE /lessons/" +:+ id
  | PostOrderPlaced => "POST /order_placed"
  | GetOrderPlaced => "GET /order_placed"
  end.

Definition logger (e : env) (t : endpoint) : server → server :=
  log (LogRequest (clock e) (route_name t)).

Definition handler (t : endpoint) (b : body) (e : env) : H response :=
  match t with
  | GetLessons => get_lessons e
  | GetLesson id => get_lesson id e
  | PostLessons => post_lessons b e
  | PutUpdateSpaces => put_updateSpaces b e
  | PutLesson id => put_lesson id b e
  | DeleteLesson id => delete_lesson id e
  | PostOrderPlaced => post_order_placed b e
  | GetOrderPlaced => get_order_placed e
  end.

Definition app (req : request) (e : env) : H response := λ st,
  match content req with
  | BodyError detail => global_error_handler (SyntaxError detail) st
  | Body b => handler (target req) b e (logger e (target req) st)
  end.

(** The lessons and orders a state holds ([[]] while [db1] is unset). *)
Definition lessons_of (st : server) : list document :=
  from_option lessons [] (db1 st).
Definition orders_of (st : server) : list document :=
  from_option order_placed [] (db1 st).

(** ** Vocabulary of the statements *)

Definition failure (code : nat) (msg : string) : response :=
  {| status := code; payload := error_body msg |}.

Definition success (code : nat) (msg : string) : response :=
  {| status := code; payload := message_body msg |}.

(** What the [catch] block of a route logs when the path identifier is not
    an ObjectId: the conversion's error, or, while [db1] is unset, the
    [TypeError] of the collection access that comes first. *)
Definition caught (st : server) (conversion : error) : error :=
  match db1 st with
  | Some _ => conversion
  | None =>
      TypeError "Cannot read properties of undefined (reading 'collection')"
  end.

(** Example data. *)
Definition noon : env := {| clock := 1700000000; outage := None |}.

Definition fresh_process : server :=
  {| db1 := Some {| lessons := []; order_placed := [] |};
     PROCESS_UNIQUE := 1234567; index := 41; console := [] |}.

Definition algebra_hex : string := "6553f100000012d68700002a".
Definition algebra_id : ObjectId := be_bytes 12 0x6553f100000012d68700002a.

Definition algebra : document :=
  {[ "_id" := BOid algebra_id;
     "topic" := BJson (JStr "algebra");
     "spaces" := BJson (JNum 5);
     "location" := BJson (JObj [("city", JStr "London"); ("zip", JStr "NW4")]) ]}.

Definition school : server :=
  {| db1 := Some {| lessons := [algebra]; order_placed := [] |};
     PROCESS_UNIQUE := 1234567; index := 42; console := [] |}.

(** The fixed texts of the failure responses. *)
Definition error_messages : list string :=
  [ "Failed to fetch lessons"; "Failed to fetch lesson"; "Lesson not found";
    "Failed to add lesson"; "Failed to update spaces";
    "Failed to update lesson"; "Failed to delete lesson";
    "Failed to place order"; "Failed to fetch orders"; "An error occurred" ].

(** A failure response: 404 or 500 with the single field [error]. *)
Definition is_failure (r : response) : Prop :=
  (status r = 404 ∨ status r = 500)
  ∧ ∃ msg, msg ∈ error_messages ∧ payload r = error_body msg.

Definition is_success (r : response) : Prop :=
  status r = 200 ∨ status r = 201.

Definition with_outage (detail : string) (e : env) : env :=
  {| clock := clock e; outage := Some detail |}.

(** [returns P m]: whatever [m] returns without throwing satisfies [P]. *)
Definition returns {A} (P : A → Prop) (m : M A) : Prop :=
  ∀ st a st', m st = (Ok a, st') → P a.

(** A plain field name: not empty, no dot, no leading [$], no NUL. *)
Fixpoint has_dot (s : string) : bool :=
  match s with
  | EmptyString => false
  | String c rest => bool_decide (c = "."%char) || has_dot rest
  end.

Definition plain_name (k : string) : bool :=
  negb (has_nul k) && negb (has_dot k) && component_ok k.

(** A body of plain fields: an object whose keys are plain names and whose
    values the driver can serialize. *)
Definition plain_fields (b : body) : Prop :=
  match b with
  | Object o =>
      map_Forall (λ k v, plain_name k = true ∧ serializable v = true) o
  | Array _ => False
  end.

(** The driver serializes the [$set] document and the server parses it. *)
Definition accepted_as_set (b : body) : bool :=
  body_serializable b && is_Ok (parse_set b).

Definition other_hex : string := "6553f100000012d68700002b".
Definition other_id : ObjectId := be_bytes 12 0x6553f100000012d68700002b.

(** [throws m]: [m] throws from every state. *)
Definition throws {A} (m : M A) : Prop :=
  ∀ st, ∃ err st', m st = (Throw err, st').

(** The text each route's [catch] block sends. *)
Definition catch_message (t : endpoint) : string :=
  match t with
  | GetLessons => "Failed to fetch lessons"
  | GetLesson _ => "Failed to fetch lesson"
  | PostLessons => "Failed to add lesson"
  | PutUpdateSpaces => "Failed to update spaces"
  | PutLesson _ => "Failed to update lesson"
  | DeleteLesson _ => "Failed to delete lesson"
  | PostOrderPlaced => "Failed to place order"
  | GetOrderPlaced => "Failed to fetch orders"
  end.

(** The round trip of C1 at one lesson [o]: when the insertion succeeds with
    identifier [id], no lesson had that identifier before, the response is
    201 with the submitted fields and [_id], and a later GET, by the text
    the response shows for [_id], returns the same object. *)
Definition created_lesson_is_fetchable (o : object) (e : env) (st : server)
  : Prop :=
  ∀ id st1,
    insertOne Lessons (Object o) e st = (Ok id, st1) →
    (∀ d, d ∈ lessons_of st → d !! "_id" ≠ Some id)
    ∧ post_lessons (Object o) e st
      = ({| status := 201; payload := Json (<["_id" := toJSON id]> o) |}, st1)
    ∧ ∀ text e',
        toJSON id = JStr text →
        outage e' = None →
        (get_lesson text e' st1).1
        = {| status := 200; payload := Json (<["_id" := toJSON id]> o) |}.

Definition geometry : object :=
  {[ "topic" := JStr "geometry"; "spaces" := JNum 5 ]}.

Definition named_lesson : object :=
  {[ "_id" := JStr "abc"; "topic" := JStr "geometry" ]}.

(** The top-level field that a [$set] key addresses: the key up to its
    first dot. *)
Fixpoint first_component (s : string) : string :=
  match s with
  | EmptyString => EmptyString
  | String c rest =>
      if decide (c = "."%char) then EmptyString
      else String c (first_component rest)
  end.

Definition addressed (b : body) (k : string) : Prop :=
  match b with
  | Object o => ∃ key, is_Some (o !! key) ∧ first_component key = k
  | Array _ => False
  end.

Definition absent (b : body) (k : string) : Prop :=
  match b with
  | Object o => o !! k = None
  | Array _ => True
  end.

(** [PUT /lessons/:id] as a merge: lesson by lesson, [_id] stays and so does
    every field that is [untouched] by the body. *)
Definition merge_keeps (untouched : body → string → Prop)
    (id : string) (b : body) (e : env) (st : server) : Prop :=
  Forall2 (λ d d' : document,
             d' !! "_id" = d !! "_id"
             ∧ ∀ k, untouched b k → d' !! k = d !! k)
    (lessons_of st) (lessons_of (put_lesson id b e st).2).

Definition move_to_leeds : body :=
  Object {[ "location.city" := JStr "Leeds" ]}.

(** The identifiers a bulk request lists, as the request itself shows them:
    an element lists the identifier that its [id], a string, spells out in
    24 hexadecimal digits. *)
Definition listed_id (update : json) : option ObjectId :=
  match get_prop update "id" with
  | Some (JStr s) =>
      match ObjectId_of_string s with
      | Ok oid => Some oid
      | Throw _ => None
      end
  | _ => None
  end.

Definition listed_ids (b : body) : list ObjectId :=
  match b with
  | Array items => omap listed_id items
  | Object _ => []
  end.

(** Every element of the list gives its [id] as a string. *)
Definition ids_are_strings (b : body) : Prop :=
  match b with
  | Array items => Forall (λ u, ∃ s, get_prop u "id" = Some (JStr s)) items
  | Object _ => True
  end.

(** The filters of the operations that [updates.map] builds (none when it
    throws). *)
Definition filters_built (b : body) (e : env) (st : server)
  : list ObjectId :=
  match (bulkOperations b e st).1 with
  | Ok ops => filter <$> ops
  | Throw _ => []
  end.

(** A bulk write of [spaces]: nothing but [spaces] changes, and a lesson
    whose identifier is not among [ids] does not change at all. *)
Definition only_spaces_of (ids : list ObjectId) (d d' : document) : Prop :=
  (∀ k, k ≠ "spaces" → d' !! k = d !! k)
  ∧ ((∀ oid, oid ∈ ids → d !! "_id" ≠ Some (BOid oid)) → d' = d).

(** An operation as [bulkOperation] builds it. *)
Definition sets_spaces (op : write_op) : Prop :=
  ∃ v, update op = Object {[ "spaces" := v ]}.

(** A pair [{id, spaces}] of a bulk request. *)
Definition pair_json (p : string * json) : json :=
  JObj [("id", JStr p.1); ("spaces", p.2)].

Definition spaces_op (up : ObjectId * json) : write_op :=
  {| filter := up.1; update := Object {[ "spaces" := up.2 ]} |}.

(** The value that the last pair naming [oid] gives. *)
Fixpoint final_spaces (oid : ObjectId) (ups : list (ObjectId * json))
  : option json :=
  match ups with
  | [] => None
  | (o, v) :: rest =>
      match final_spaces oid rest with
      | Some v' => Some v'
      | None => if decide (o = oid) then Some v else None
      end
  end.

(** [spaces] written in the first document that has the identifier. *)
Fixpoint set_spaces (oid : ObjectId) (v : json) (docs : list document)
  : list document :=
  match docs with
  | [] => []
  | d :: rest =>
      if has_id oid d then <["spaces" := BJson v]> d :: rest
      else d :: set_spaces oid v rest
  end.

(** C2 as it is stated: after the request, every listed pair finds its
    lesson with the [spaces] of that pair. *)
Definition bulk_sets_each (pairs : list (string * json)) (e : env)
    (st : server) : Prop :=
  ∀ s v oid,
    (s, v) ∈ pairs →
    ObjectId_of_string s = Ok oid →
    ∃ lesson,
      find (has_id oid)
        (lessons_of (put_updateSpaces (Array (pair_json <$> pairs)) e st).2)
      = Some lesson
      ∧ lesson !! "spaces" = Some (BJson v).

Definition twice_algebra : list (string * json) :=
  [(algebra_hex, JNum 3); (algebra_hex, JNum 0)].

(** C3 as it is stated, at one identifier: when some lesson shows the
    identifier under [_id], [GET /lessons/:id] answers 200 with a lesson
    that shows it. *)
Definition lesson_is_found_by_its_id (id : string) (e : env) (st : server)
  : Prop :=
  (∃ d, d ∈ lessons_of st ∧ doc_toJSON d !! "_id" = Some (JStr id)) →
  ∃ lesson,
    lesson ∈ lessons_of st
    ∧ doc_toJSON lesson !! "_id" = Some (JStr id)
    ∧ (get_lesson id e st).1
      = {| status := 200; payload := Json (doc_toJSON lesson) |}.

(** A lesson that brings, as its own [_id], a string of 24 hexadecimal
    digits. *)
Definition texted_lesson : object :=
  {[ "_id" := JStr other_hex; "topic" := JStr "geometry" ]}.

(** C4 as it is stated, at one order [o]: when the insertion succeeds, the
    response is 201 with the message, and a following [GET /order_placed]
    lists an object that is [o] plus an identifier the driver has
    assigned: without its [_id] it is [o], and its [_id] is the text of
    that identifier. *)
Definition placed_order_is_listed (o : object) (e : env) (st : server)
  : Prop :=
  ∀ id st1,
    insertOne Orders (Object o) e st = (Ok id, st1) →
    post_order_placed (Object o) e st
    = (success 201 "Order placed successfully", st1)
    ∧ ∀ e',
        outage e' = None →
        ∃ l listed oid,
          (get_order_placed e' st1).1
          = {| status := 200; payload := JsonList l |}
          ∧ listed ∈ l
          ∧ delete "_id" listed = o
          ∧ id = BOid oid
          ∧ listed !! "_id" = Some (JStr (toHexString oid)).

(** An order that gives [null] as its [_id]. *)
Definition unnamed_order : object :=
  {[ "_id" := JNull; "topic" := JStr "algebra" ]}.

(** A process whose counter stands just before the value that the
    identifier of [algebra] holds, and a bulk request whose one element gives
    a number as [id]. *)
Definition school_again : server :=
  {| db1 := Some {| lessons := [algebra]; order_placed := [] |};
     PROCESS_UNIQUE := 1234567; index := 41; console := [] |}.

Definition numbered_update : body :=
  Array [JObj [("id", JNum 1700000000); ("spaces", JNum 0)]].

(** ** What one request may do to the two collections *)

(** The collections as a request finds them (both empty while [db1] is
    unset). *)
Definition snapshot (st : server) : database :=
  {| lessons := lessons_of st; order_placed := orders_of st |}.

Definition same_ids (docs docs' : list document) : Prop :=
  Forall2 (λ d d' : document, d' !! "_id" = d !! "_id") docs docs'.

(** A step of the database, route by route: nothing; one document appended,
    with an [_id] that no document of the collection had; lessons rewritten
    in place with their [_id]s kept; lessons removed. *)
Inductive effect : endpoint → database → database → Prop :=
| effect_none t db : effect t db db
| effect_insert_lesson db d :
    is_Some (d !! "_id") →
    (∀ d0, d0 ∈ lessons db → d0 !! "_id" ≠ d !! "_id") →
    effect PostLessons db
      {| lessons := lessons db ++ [d]; order_placed := order_placed db |}
| effect_insert_order db d :
    is_Some (d !! "_id") →
    (∀ d0, d0 ∈ order_placed db → d0 !! "_id" ≠ d !! "_id") →
    effect PostOrderPlaced db
      {| lessons := lessons db; order_placed := order_placed db ++ [d] |}
| effect_update_many db docs' :
    same_ids (lessons db) docs' →
    effect PutUpdateSpaces db
      {| lessons := docs'; order_placed := order_placed db |}
| effect_update_one id db docs' :
    same_ids (lessons db) docs' →
    effect (PutLesson id) db
      {| lessons := docs'; order_placed := order_placed db |}
| effect_delete id db docs' :
    sublist docs' (lessons db) →
    effect (DeleteLesson id) db
      {| lessons := docs'; order_placed := order_placed db |}.

(** Every document has an [_id], and no two documents share one: what the
    server's unique index on [_id] maintains. *)
Definition well_keyed (docs : list document) : Prop :=
  Forall (λ d : document, is_Some (d !! "_id")) docs
  ∧ NoDup ((λ d : document, d !! "_id") <$> docs).

(** The routes that only read. *)
Definition is_read (t : endpoint) : bool :=
  match t with
  | GetLessons | GetLesson _ | GetOrderPlaced => true
  | _ => false
  end.

(** Requests served one after the other, each with the clock and the
    reachability of the database it meets. *)
Fixpoint serve (reqs : list (request * env)) (st : server) : server :=
  match reqs with
  | [] => st
  | (req, e) :: rest => serve rest (app req e st).2
  end.

(** The label each route's [catch] block logs. *)
Definition catch_label (t : endpoint) : string :=
  match t with
  | GetLessons => "Error fetching lessons:"
  | GetLesson _ => "Error fetching lesson by ID:"
  | PostLessons => "Error adding lesson:"
  | PutUpdateSpaces => "Error updating spaces:"
  | PutLesson _ => "Error updating lesson:"
  | DeleteLesson _ => "Error deleting lesson:"
  | PostOrderPlaced => "Error placing order:"
  | GetOrderPlaced => "Error fetching orders:"
  end.

(** The identifiers of the stored lessons, in the order of the collection. *)
Definition lesson_ids (st : server) : list (option bson) :=
  (λ d : document, d !! "_id") <$> lessons_of st.

(** [quiet m]: [m] writes nothing to the console. *)
Definition quiet {A} (m : M A) : Prop :=
  ∀ st r st', m st = (r, st') → console st' = console st.

(** The statuses a route can answer with. *)
Definition statuses (t : endpoint) : list nat :=
  match t with
  | GetLessons | GetOrderPlaced => [200; 500]
  | GetLesson _ => [200; 404; 500]
  | PostLessons | PostOrderPlaced => [201; 500]
  | PutUpdateSpaces | PutLesson _ | DeleteLesson _ => [200; 500]
  end.

(** * Properties *)

(** ** ObjectIds and their text form *)

Lemma hex_byte_roundtrip (b : byte) :
  let n := Byte.to_N b in
  hex_value (hex_char (n / 16)%N) = Some (n / 16)%N
  ∧ hex_value (hex_char (n mod 16)%N) = Some (n mod 16)%N
  ∧ byte_of_N (16 * (n / 16) + n mod 16)%N = b.
Proof. destruct b; vm_compute; done. Qed.

Lemma fromHex_toHexString (o : ObjectId) : fromHex (toHexString o) = Some o.
Proof.
  induction o as [|b o IH]; [done|].
  destruct (hex_byte_roundtrip b) as (Hhi & Hlo & Hb).
  cbn [toHexString fromHex]. cbv zeta in *.
  rewrite Hhi, Hlo, IH. simpl. by rewrite Hb.
Qed.

Lemma length_toHexString (o : ObjectId) :
  String.length (toHexString o) = 2 * length o.
Proof. induction o as [|b o IH]; simpl; [done|]. rewrite IH. lia. Qed.

Lemma ObjectId_of_string_toHexString (o : ObjectId) :
  length o = 12 → ObjectId_of_string (toHexString o) = Ok o.
Proof.
  intros Hlen. unfold ObjectId_of_string.
  rewrite length_toHexString, Hlen, fromHex_toHexString.
  by rewrite decide_True.
Qed.

Lemma length_be_bytes (w : nat) (n : N) : length (be_bytes w n) = w.
Proof.
  revert n. induction w as [|w IH]; intros n; simpl; [done|].
  rewrite length_app, IH. simpl. lia.
Qed.

Lemma length_ObjectId_generate (time : N) (st : server) :
  length (ObjectId_generate time st).1 = 12.
Proof.
  unfold ObjectId_generate, getInc. cbn [fst].
  by rewrite !length_app, !length_be_bytes.
Qed.

(** On a string the constructor is [ObjectId_of_string] and leaves the
    state alone. *)
Lemma ObjectId_new_string (s : string) (e : env) (st : server) :
  ObjectId_new (Some (JStr s)) e st = (ObjectId_of_string s, st).
Proof. done. Qed.

(** ** Logging does not touch the database *)

Lemma db1_log (l : log_line) (st : server) : db1 (log l st) = db1 st.
Proof. done. Qed.

Lemma lessons_of_log (l : log_line) (st : server) :
  lessons_of (log l st) = lessons_of st.
Proof. done. Qed.

Lemma orders_of_log (l : log_line) (st : server) :
  orders_of (log l st) = orders_of st.
Proof. done. Qed.

(** ** Path identifiers that are not ObjectIds *)

(** C7.  When the path identifier is not a valid ObjectId, the conversion
    throws inside the route's own [try], and the route's [catch] answers 500
    with its fixed message on GET, PUT and DELETE [/lessons/:id]: never 400.
    The database is not touched, and the caught error, which goes to the
    console only, is the conversion's (or the collection access's while
    [db1] is unset). *)
Theorem invalid_identifier_is_500 (id : string) (err : error)
    (b : body) (e : env) (st : server) :
  ObjectId_of_string id = Throw err →
  get_lesson id e st
    = (failure 500 "Failed to fetch lesson",
       log (LogError "Error fetching lesson by ID:" (caught st err)) st)
  ∧ put_lesson id b e st
    = (failure 500 "Failed to update lesson",
       log (LogError "Error updating lesson:" (caught st err)) st)
  ∧ delete_lesson id e st
    = (failure 500 "Failed to delete lesson",
       log (LogError "Error deleting lesson:" (caught st err)) st)
  ∧ (∀ t, t ∈ [GetLesson id; PutLesson id; DeleteLesson id] →
          ∀ c, status (app {| target := t; content := c |} e st).1 = 500).
Proof.
  intros Hid.
  assert (Hget : ∀ st, get_lesson id e st
    = (failure 500 "Failed to fetch lesson",
       log (LogError "Error fetching lesson by ID:" (caught st err)) st)).
  { intros s. unfold get_lesson, try_catch, bind, lessonsCollection,
      db_collection, caught.
    destruct (db1 s); [|done]. by rewrite ObjectId_new_string, Hid. }
  assert (Hput : ∀ st, put_lesson id b e st
    = (failure 500 "Failed to update lesson",
       log (LogError "Error updating lesson:" (caught st err)) st)).
  { intros s. unfold put_lesson, try_catch, bind, lessonsCollection,
      db_collection, caught.
    destruct (db1 s); [|done]. by rewrite ObjectId_new_string, Hid. }
  assert (Hdel : ∀ st, delete_lesson id e st
    = (failure 500 "Failed to delete lesson",
       log (LogError "Error deleting lesson:" (caught st err)) st)).
  { intros s. unfold delete_lesson, try_catch, bind, lessonsCollection,
      db_collection, caught.
    destruct (db1 s); [|done]. by rewrite ObjectId_new_string, Hid. }
  split_and!; [done..|].
  intros t Ht [detail|b']; [done|].
  unfold app; cbn [content target].
  rewrite !elem_of_cons in Ht. destruct Ht as [->|[->|[->|Ht]]];
    cbn [handler].
  - by rewrite Hget.
  - unfold put_lesson, try_catch, bind, lessonsCollection, db_collection.
    destruct (db1 _); [|done]. by rewrite ObjectId_new_string, Hid.
  - by rewrite Hdel.
  - by apply elem_of_nil in Ht.
Qed.

Lemma invalid_identifier_is_500_witness :
  ObjectId_of_string "12"
    = Throw (BSONError invalid_id_message)
  ∧ (get_lesson "12" noon fresh_process).1
    = failure 500 "Failed to fetch lesson".
Proof.
  split; [reflexivity|].
  pose proof (invalid_identifier_is_500 "12" (BSONError invalid_id_message)
                (Object ∅) noon fresh_process eq_refl) as (Hget & _).
  by rewrite Hget.
Defined.

(** ** The empty batch *)

(** C10.  With an empty array as body, [PUT /lessons/updateSpaces] answers
    500 [{error: "Failed to update spaces"}], not 200: [bulkWrite] refuses an
    empty batch before anything reaches the server.  The database is left as
    it was. *)
Theorem empty_batch_is_500 (e : env) (st : server) :
  (put_updateSpaces (Array []) e st).1 = failure 500 "Failed to update spaces"
  ∧ db1 (put_updateSpaces (Array []) e st).2 = db1 st
  ∧ bulkWrite Lessons [] e st
    = (Throw (MongoError "Invalid BulkOperation, Batch cannot be empty"), st).
Proof.
  unfold put_updateSpaces, try_catch, bind, lessonsCollection, db_collection,
    bulkOperations, bulkWrite, throw; simpl.
  unfold ret. destruct (db1 st) eqn:Hdb; simpl; by rewrite ?Hdb.
Qed.

(** ** Fetching one lesson *)

Lemma find_has_id_None (oid : ObjectId) (docs : list document) :
  find (has_id oid) docs = None
  ↔ ∀ d, d ∈ docs → d !! "_id" ≠ Some (BOid oid).
Proof.
  induction docs as [|d docs IH]; simpl.
  - split; [|done]. intros _ d Hd. by apply elem_of_nil in Hd.
  - unfold has_id at 1. case_bool_decide as Hd.
    + split; [done|]. intros Hall. by destruct (Hall d); [left|].
    + rewrite IH. split.
      * intros Hall d' [->|Hd']%elem_of_cons; auto.
      * intros Hall d' Hd'. apply Hall. by right.
Qed.

Lemma find_has_id_Some (oid : ObjectId) (docs : list document) (d : document) :
  find (has_id oid) docs = Some d → d ∈ docs ∧ d !! "_id" = Some (BOid oid).
Proof.
  induction docs as [|d' docs IH]; simpl; [done|].
  unfold has_id at 1. case_bool_decide as Hd.
  - intros [= <-]. split; [by left|done].
  - intros [Hin Hid]%IH. split; [by right|done].
Qed.

(** C3, amended.  With the database reachable and an identifier of 24
    hexadecimal digits, [GET /lessons/:id] answers 404 [{error: "Lesson not
    found"}] when no lesson has, as its [_id], the ObjectId that the digits
    spell out, and 200 with the lesson that has it (the one [findOne]
    returns) when some lesson does. *)
Theorem get_lesson_found_or_404 (id : string) (oid : ObjectId)
    (db : database) (e : env) (st : server) :
  db1 st = Some db →
  outage e = None →
  ObjectId_of_string id = Ok oid →
  ((∀ d, d ∈ lessons db → d !! "_id" ≠ Some (BOid oid)) →
   (get_lesson id e st).1 = failure 404 "Lesson not found")
  ∧ (∀ d, d ∈ lessons db → d !! "_id" = Some (BOid oid) →
     ∃ lesson, find (has_id oid) (lessons db) = Some lesson
               ∧ lesson !! "_id" = Some (BOid oid)
               ∧ (get_lesson id e st).1
                 = {| status := 200; payload := Json (doc_toJSON lesson) |}).
Proof.
  intros Hdb Hnet Hid.
  assert (Hrun : (get_lesson id e st).1
    = match find (has_id oid) (lessons db) with
      | Some lesson => {| status := 200; payload := Json (doc_toJSON lesson) |}
      | None => failure 404 "Lesson not found"
      end).
  { unfold get_lesson, try_catch, bind, lessonsCollection, db_collection,
      findOne, bind, network, read.
    rewrite Hdb, ObjectId_new_string, Hid, Hnet. simpl. rewrite Hdb. simpl.
    by destruct (find _ _). }
  split.
  - intros Hnone. apply (proj2 (find_has_id_None _ _)) in Hnone.
    by rewrite Hrun, Hnone.
  - intros d Hd Hdid.
    destruct (find (has_id oid) (lessons db)) as [lesson|] eqn:Hfind.
    + exists lesson. split; [done|]. split; [|done].
      by apply find_has_id_Some in Hfind as [_ ?].
    + by destruct (proj1 (find_has_id_None _ _) Hfind d Hd).
Qed.

Lemma get_lesson_found_or_404_witness :
  db1 school = Some {| lessons := [algebra]; order_placed := [] |}
  ∧ outage noon = None
  ∧ ObjectId_of_string algebra_hex = Ok algebra_id
  ∧ (get_lesson algebra_hex noon school).1
    = {| status := 200; payload := Json (doc_toJSON algebra) |}.
Proof.
  split_and!; [reflexivity..|].
  destruct (get_lesson_found_or_404 algebra_hex algebra_id
              {| lessons := [algebra]; order_placed := [] |} noon school
              eq_refl eq_refl eq_refl) as [_ Hfound].
  destruct (Hfound algebra) as (lesson & Hfind & _ & ->);
    [by left|reflexivity|].
  assert (Hfirst : find (has_id algebra_id)
                     (lessons {| lessons := [algebra]; order_placed := [] |})
                   = Some algebra) by (vm_compute; reflexivity).
  rewrite Hfirst in Hfind. by injection Hfind as <-.
Defined.

(** C3 as stated fails at a lesson that brings its own [_id]: [POST
    /lessons] stores it with the string it gives, a string of 24 hexadecimal
    digits here, so that a lesson has the identifier; [GET /lessons/:id]
    looks for the ObjectId those digits spell out, finds none and answers
    404. *)
Lemma lesson_with_text_id_is_not_found :
  status (post_lessons (Object texted_lesson) noon school).1 = 201
  ∧ ¬ lesson_is_found_by_its_id other_hex noon
        (post_lessons (Object texted_lesson) noon school).2.
Proof.
  split; [vm_compute; reflexivity|].
  intros Hclaim.
  assert (Hlessons :
            lessons_of (post_lessons (Object texted_lesson) noon school).2
            = [algebra; BJson <$> texted_lesson])
    by (vm_compute; reflexivity).
  assert (Hget : (get_lesson other_hex noon
                    (post_lessons (Object texted_lesson) noon school).2).1
                 = failure 404 "Lesson not found")
    by (vm_compute; reflexivity).
  destruct Hclaim as (lesson & _ & _ & Hfound).
  - exists (BJson <$> texted_lesson). split.
    + rewrite Hlessons. apply list_elem_of_further, list_elem_of_here.
    + vm_compute. reflexivity.
  - rewrite Hget in Hfound. clear Hget Hlessons. discriminate Hfound.
Qed.

(** ** The shape of failures *)

Lemma returns_bind {A B} (P : B → Prop) (m : M A) (k : A → M B) :
  (∀ a, returns P (k a)) → returns P (bind m k).
Proof.
  intros Hk st b st'. unfold bind.
  destruct (m st) as [[a|err] st1]; [|done]. apply Hk.
Qed.

Lemma returns_res_json (P : response → Prop) (code : nat) (r : reply) :
  P {| status := code; payload := r |} → returns P (res_json code r).
Proof. intros HP st a st'. unfold res_json, ret. by intros [= <- _]. Qed.

Lemma try_catch_500 (P : response → Prop) (m : M response)
    (label msg : string) (st : server) :
  returns P m → P (failure 500 msg) →
  P (try_catch m (catch_500 label msg) st).1.
Proof.
  intros Hm Hfail. unfold try_catch.
  destruct (m st) as [[r|err] st1] eqn:Hrun; [|done].
  by apply (Hm st r st1).
Qed.

Lemma failure_is_failure (code : nat) (msg : string) :
  (code = 404 ∨ code = 500) → msg ∈ error_messages →
  is_failure (failure code msg).
Proof. intros Hcode Hmsg. split; [done|]. by exists msg. Qed.

Ltac in_messages :=
  unfold error_messages;
  repeat first [apply list_elem_of_here | apply list_elem_of_further].

Lemma handler_shape (t : endpoint) (b : body) (e : env) (st : server) :
  is_success (handler t b e st).1 ∨ is_failure (handler t b e st).1.
Proof.
  assert (Hfail : ∀ msg, msg ∈ error_messages →
            is_success (failure 500 msg) ∨ is_failure (failure 500 msg)).
  { intros msg Hmsg. right. apply failure_is_failure; auto. }
  destruct t; cbn [handler];
    unfold get_lessons, get_lesson, post_lessons, put_updateSpaces,
      put_lesson, delete_lesson, post_order_placed, get_order_placed;
    apply (try_catch_500 (λ r, is_success r ∨ is_failure r));
    try (apply Hfail; in_messages);
    repeat (apply returns_bind; intros);
    try (apply returns_res_json; left; unfold is_success; simpl; auto).
  destruct a1; apply returns_res_json.
  - left. by left.
  - right. apply failure_is_failure; [auto|in_messages].
Qed.

(** While the connection is down every driver call throws, so every route
    answers with the fixed 500 of its [catch] block. *)
Lemma throws_throw {A} (err : error) : throws (@throw A err).
Proof. intros st. by exists err, st. Qed.

Lemma throws_bind_l {A B} (m : M A) (k : A → M B) :
  throws m → throws (bind m k).
Proof.
  intros Hm st. destruct (Hm st) as (err & st' & Hrun).
  unfold bind. rewrite Hrun. by exists err, st'.
Qed.

Lemma throws_bind_r {A B} (m : M A) (k : A → M B) :
  (∀ a, throws (k a)) → throws (bind m k).
Proof.
  intros Hk st. unfold bind. destruct (m st) as [[a|err] st'].
  - apply Hk.
  - by exists err, st'.
Qed.

Lemma throws_network (e : env) (detail : string) :
  outage e = Some detail → throws (network e).
Proof. intros He. unfold network. rewrite He. apply throws_throw. Qed.

Lemma throws_driver_call (e : env) (detail : string) (c : collection) :
  outage e = Some detail →
  (∀ doc, throws (insertOne c doc e))
  ∧ (∀ oid, throws (findOne c oid e))
  ∧ throws (find_toArray c e)
  ∧ (∀ oid set, throws (updateOne c oid set e))
  ∧ (∀ oid, throws (deleteOne c oid e))
  ∧ (∀ ops, throws (bulkWrite c ops e)).
Proof.
  intros He. pose proof (throws_network e detail He) as Hnet.
  split_and!.
  - intros [o|items]; unfold insertOne.
    + apply throws_bind_r. intros id.
      destruct (negb _); [apply throws_throw|by apply throws_bind_l].
    + apply throws_bind_r. intros _. by apply throws_bind_l.
  - intros oid. by apply throws_bind_l.
  - by apply throws_bind_l.
  - intros oid set. unfold updateOne.
    destruct (negb _); [apply throws_throw|by apply throws_bind_l].
  - intros oid. by apply throws_bind_l.
  - intros [|op ops]; unfold bulkWrite; [apply throws_throw|].
    destruct (negb _); [apply throws_throw|by apply throws_bind_l].
Qed.

Lemma try_catch_throws (m : M response) (label msg : string) (st : server) :
  throws m → (try_catch m (catch_500 label msg) st).1 = failure 500 msg.
Proof.
  intros Hm. unfold try_catch. by destruct (Hm st) as (err & st' & ->).
Qed.

Lemma handler_outage (t : endpoint) (b : body) (e : env) (st : server)
    (detail : string) :
  outage e = Some detail →
  (handler t b e st).1 = failure 500 (catch_message t).
Proof.
  intros He.
  destruct t; cbn [handler catch_message];
    unfold get_lessons, get_lesson, post_lessons, put_updateSpaces,
      put_lesson, delete_lesson, post_order_placed, get_order_placed;
    apply try_catch_throws;
    repeat first
      [ apply throws_bind_l; by eapply throws_driver_call
      | apply throws_bind_r; intros ].
Qed.

(** C6.  Whatever the request, the response of an endpoint is a success (200
    or 201) or a failure of one shape: status 404 or 500 and a JSON object
    whose single field [error] holds one of ten fixed texts.  No response has
    status 400: a body that [express.json()] cannot parse ends in the global
    handler's 500.  The detail of the error, be it the parser's or the
    driver's, has no influence on the response. *)
Theorem failures_are_fixed_json_errors (req : request) (e : env)
    (st : server) :
  (is_success (app req e st).1 ∨ is_failure (app req e st).1)
  ∧ status (app req e st).1 ≠ 400
  ∧ (∀ d1 d2,
       (app req (with_outage d1 e) st).1 = (app req (with_outage d2 e) st).1)
  ∧ (∀ d1 d2,
       (app {| target := target req; content := BodyError d1 |} e st).1
       = (app {| target := target req; content := BodyError d2 |} e st).1).
Proof.
  assert (Hshape : is_success (app req e st).1 ∨ is_failure (app req e st).1).
  { destruct req as [t [detail|b]]; unfold app; cbn [content target].
    - right. apply failure_is_failure; [auto|in_messages].
    - apply handler_shape. }
  split_and!; [done| | |done].
  - destruct Hshape as [[H1|H1]|[[H1|H1] _]]; rewrite H1; lia.
  - intros d1 d2. destruct req as [t [detail|b]]; unfold app;
      cbn [content target]; [done|].
    by rewrite !(handler_outage t b (with_outage _ e) _ _ eq_refl).
Qed.

(** ** Updating and deleting what is not there *)

Lemma update_first_absent (oid : ObjectId) (f : document → result document)
    (docs : list document) :
  (∀ d, d ∈ docs → d !! "_id" ≠ Some (BOid oid)) →
  update_first oid f docs = Ok docs.
Proof.
  induction docs as [|d docs IH]; intros Hnone; simpl; [done|].
  unfold has_id. rewrite bool_decide_eq_false_2 by (apply Hnone; by left).
  rewrite IH; [done|]. intros d' Hd'. apply Hnone. by right.
Qed.

Lemma remove_first_absent (oid : ObjectId) (docs : list document) :
  (∀ d, d ∈ docs → d !! "_id" ≠ Some (BOid oid)) →
  remove_first oid docs = docs.
Proof.
  induction docs as [|d docs IH]; intros Hnone; simpl; [done|].
  unfold has_id. rewrite bool_decide_eq_false_2 by (apply Hnone; by left).
  rewrite IH; [done|]. intros d' Hd'. apply Hnone. by right.
Qed.

Lemma split_path_plain (k : string) : has_dot k = false → split_path k = [k].
Proof.
  induction k as [|c k IH]; simpl; [done|].
  intros [Hc Hk]%orb_false_elim. apply bool_decide_eq_false in Hc.
  rewrite decide_False by done. by rewrite IH.
Qed.

Lemma conflict_free_plain (l : list (string * json)) :
  NoDup l.*1 →
  Forall (λ kv, has_dot kv.1 = false) l →
  conflict_free (((λ kv, (split_path kv.1, kv.2)) <$> l).*1) = true.
Proof.
  induction l as [|[k v] l IH]; [done|].
  rewrite !fmap_cons. cbn [fst snd conflict_free].
  intros [Hk Hnd]%NoDup_cons [Hdot Hall]%Forall_cons.
  rewrite IH by done. rewrite andb_true_r.
  apply forallb_forall. intros q Hq. apply list_elem_of_In in Hq.
  apply list_elem_of_fmap in Hq as ([p v'] & -> & Hp).
  apply list_elem_of_fmap in Hp as ([k' v''] & [= -> ->] & Hk').
  simpl in *. rewrite Forall_forall in Hall.
  rewrite (split_path_plain k), (split_path_plain k')
    by (done || apply (Hall _ Hk')).
  simpl. assert (k ≠ k').
  { intros ->. apply Hk. apply list_elem_of_fmap. by exists (k', v''). }
  rewrite !andb_true_r. by rewrite !bool_decide_eq_false_2 by congruence.
Qed.

Lemma plain_fields_accepted (b : body) :
  plain_fields b → accepted_as_set b = true.
Proof.
  destruct b as [o|items]; [|done]. intros Hplain.
  assert (Hall : Forall (λ kv, plain_name kv.1 = true
                              ∧ serializable kv.2 = true) (map_to_list o)).
  { apply Forall_forall. intros [k v] Hkv%elem_of_map_to_list.
    apply (Hplain k v Hkv). }
  unfold accepted_as_set, body_serializable, object_serializable, parse_set.
  assert (Hser : forallb (λ kv, negb (has_nul kv.1) && serializable kv.2)
                   (map_to_list o) = true).
  { apply forallb_forall. intros kv Hkv%list_elem_of_In.
    rewrite Forall_forall in Hall. destruct (Hall kv Hkv) as [Hname ->].
    unfold plain_name in Hname. by destruct (has_nul kv.1). }
  assert (Hcomp : forallb (λ m : list string * json, forallb component_ok m.1)
            ((λ kv, (split_path kv.1, kv.2)) <$> map_to_list o) = true).
  { apply forallb_forall. intros m Hm%list_elem_of_In.
    apply list_elem_of_fmap in Hm as ([k v] & -> & Hkv).
    rewrite Forall_forall in Hall. destruct (Hall _ Hkv) as [Hname _].
    unfold plain_name in Hname; simpl in *.
    apply andb_true_iff in Hname as [[_ Hdot]%andb_true_iff Hok].
    rewrite split_path_plain by by destruct (has_dot k).
    simpl. by rewrite Hok. }
  rewrite Hser, Hcomp. simpl.
  rewrite conflict_free_plain; [done|apply NoDup_fst_map_to_list|].
  eapply Forall_impl; [exact Hall|]. intros [k v] [Hname _]; simpl in *.
  unfold plain_name in Hname. by destruct (has_dot k), (has_nul k).
Qed.

(** C5, amended.  For a well-formed identifier that matches no lesson, with
    the database reachable: [DELETE /lessons/:id] answers 200 "Lesson
    deleted successfully"; [PUT /lessons/:id] answers 200 "Lesson updated
    successfully" when the body is an object of plain fields (every key is
    not empty, holds no dot and no NUL character and does not begin with
    [$], and no key inside a value holds a NUL character), and for other
    bodies either that or 500 "Failed to update lesson"; neither route
    answers 404, and the database is left as it was. *)
Theorem absent_identifier_is_not_404 (id : string) (oid : ObjectId)
    (db : database) (e : env) (st : server) :
  db1 st = Some db →
  outage e = None →
  ObjectId_of_string id = Ok oid →
  (∀ d, d ∈ lessons db → d !! "_id" ≠ Some (BOid oid)) →
  (delete_lesson id e st).1 = success 200 "Lesson deleted successfully"
  ∧ db1 (delete_lesson id e st).2 = Some db
  ∧ ∀ b,
      db1 (put_lesson id b e st).2 = Some db
      ∧ ((put_lesson id b e st).1 = success 200 "Lesson updated successfully"
         ∨ (put_lesson id b e st).1 = failure 500 "Failed to update lesson")
      ∧ (plain_fields b →
         (put_lesson id b e st).1
         = success 200 "Lesson updated successfully").
Proof.
  intros Hdb Hnet Hid Hnone. split_and!.
  - unfold delete_lesson, try_catch, bind, lessonsCollection, db_collection,
      deleteOne, bind, network, read, store.
    rewrite Hdb, ObjectId_new_string, Hid, Hnet. simpl. by rewrite Hdb.
  - unfold delete_lesson, try_catch, bind, lessonsCollection, db_collection,
      deleteOne, bind, network, read, store.
    rewrite Hdb, ObjectId_new_string, Hid, Hnet. simpl. rewrite Hdb. simpl.
    rewrite Hdb. simpl. rewrite remove_first_absent by done.
    by destruct db.
  - intros b.
    assert (Hrun : (put_lesson id b e st).1
        = (if accepted_as_set b
           then success 200 "Lesson updated successfully"
           else failure 500 "Failed to update lesson")
      ∧ db1 (put_lesson id b e st).2 = Some db).
    { unfold accepted_as_set, put_lesson, try_catch, bind, lessonsCollection,
        db_collection, updateOne, bind, network, read, store, lift.
      rewrite Hdb, ObjectId_new_string, Hid, Hnet. simpl.
      destruct (body_serializable b); simpl; [|done].
      destruct (parse_set b) as [mods|err]; simpl; [|done].
      rewrite Hdb. simpl. rewrite update_first_absent by done. simpl.
      rewrite Hdb. simpl. split; [done|].
      by destruct db. }
    destruct Hrun as [Hrun Hdb'].
    split_and!; [done| |].
    + rewrite Hrun. destruct (accepted_as_set b); auto.
    + intros Hplain. by rewrite Hrun, plain_fields_accepted.
Qed.

Lemma algebra_is_not_other (d : document) :
  d ∈ [algebra] → d !! "_id" ≠ Some (BOid other_id).
Proof. intros ->%list_elem_of_singleton. vm_compute. discriminate. Qed.

Lemma other_hex_is_other_id : ObjectId_of_string other_hex = Ok other_id.
Proof. vm_compute. reflexivity. Qed.

Lemma absent_identifier_is_not_404_witness :
  db1 school = Some {| lessons := [algebra]; order_placed := [] |}
  ∧ outage noon = None
  ∧ ObjectId_of_string other_hex = Ok other_id
  ∧ (∀ d, d ∈ [algebra] → d !! "_id" ≠ Some (BOid other_id))
  ∧ (delete_lesson other_hex noon school).1
    = success 200 "Lesson deleted successfully"
  ∧ (put_lesson other_hex (Object {[ "topic" := JStr "geometry" ]})
       noon school).1
    = success 200 "Lesson updated successfully".
Proof.
  pose proof (absent_identifier_is_not_404 other_hex other_id
                {| lessons := [algebra]; order_placed := [] |} noon school
                eq_refl eq_refl other_hex_is_other_id algebra_is_not_other)
    as (Hdel & _ & Hput).
  destruct (Hput (Object {[ "topic" := JStr "geometry" ]}))
    as (_ & _ & Hplain).
  split_and!;
    [reflexivity|reflexivity|exact other_hex_is_other_id
    |exact algebra_is_not_other|exact Hdel|].
  apply Hplain.
  apply map_Forall_singleton. split; vm_compute; reflexivity.
Defined.

(** C5 as stated fails: the identifier is well formed and matches no lesson,
    yet PUT answers 500, because the server refuses the empty field name
    before it looks for the lesson. *)
Lemma absent_identifier_put_rejected :
  ObjectId_of_string other_hex = Ok other_id
  ∧ (∀ d, d ∈ lessons_of school → d !! "_id" ≠ Some (BOid other_id))
  ∧ (put_lesson other_hex (Object {[ "" := JNum 1 ]}) noon school).1
    = failure 500 "Failed to update lesson"
  ∧ (put_lesson other_hex (Object {[ "" := JNum 1 ]}) noon school).1
    ≠ success 200 "Lesson updated successfully".
Proof.
  split_and!.
  - exact other_hex_is_other_id.
  - exact algebra_is_not_other.
  - vm_compute. reflexivity.
  - vm_compute. discriminate.
Qed.

(** ** Inserting *)

Lemma doc_toJSON_inserted (id : bson) (o : object) :
  doc_toJSON (<["_id" := id]> (BJson <$> o)) = <["_id" := toJSON id]> o.
Proof.
  unfold doc_toJSON. rewrite fmap_insert. f_equal.
  apply map_eq. intros k. rewrite !lookup_fmap. by destruct (o !! k).
Qed.

Lemma existsb_id_false (id : bson) (docs : list document) :
  existsb (λ d, bool_decide (d !! "_id" = Some id)) docs = false →
  ∀ d, d ∈ docs → d !! "_id" ≠ Some id.
Proof.
  induction docs as [|d' docs IH]; simpl.
  - intros _ d Hd. by apply elem_of_nil in Hd.
  - intros [Hd' Hrest]%orb_false_elim d [->|Hd]%elem_of_cons.
    + by apply bool_decide_eq_false in Hd'.
    + by apply IH.
Qed.

Lemma find_has_id_snoc (oid : ObjectId) (docs : list document) (d : document) :
  (∀ d', d' ∈ docs → d' !! "_id" ≠ Some (BOid oid)) →
  d !! "_id" = Some (BOid oid) →
  find (has_id oid) (docs ++ [d]) = Some d.
Proof.
  intros Hnone Hd. induction docs as [|d' docs IH]; simpl.
  - unfold has_id. by rewrite bool_decide_eq_true_2.
  - unfold has_id at 1.
    rewrite bool_decide_eq_false_2 by (apply Hnone; by left).
    apply IH. intros d'' Hd''. apply Hnone. by right.
Qed.

(** What a successful [insertOne] of an object has done. *)
Lemma insertOne_Ok (c : collection) (o : object) (e : env)
    (st st1 : server) (id : bson) :
  insertOne c (Object o) e st = (Ok id, st1) →
  ∃ db st0,
    db1 st = Some db
    ∧ db1 st0 = Some db
    ∧ outage e = None
    ∧ (∀ d, d ∈ docs_of c db → d !! "_id" ≠ Some id)
    ∧ st1 = set_db1
              (Some (with_docs c
                       (docs_of c db ++ [<["_id" := id]> (BJson <$> o)]) db))
              st0
    ∧ match o !! "_id" with
      | None | Some JNull => id = BOid (ObjectId_generate (clock e) st).1
      | Some v => id = BJson v
      end.
Proof.
  unfold insertOne, bind.
  set (assigned := match o !! "_id" with
                   | None | Some JNull => _
                   | Some _ => _
                   end).
  destruct (assigned st) as [[id0|err] st0] eqn:Hassigned; [|done].
  assert (Hid0 : db1 st0 = db1 st
            ∧ match o !! "_id" with
              | None | Some JNull =>
                  id0 = BOid (ObjectId_generate (clock e) st).1
              | Some v => id0 = BJson v
              end).
  { subst assigned. unfold bind, total, ret, ObjectId_generate, getInc in *.
    destruct (o !! "_id") as [[]|]; simplify_eq/=; done. }
  destruct Hid0 as [Hdb0 Hid0]. clear Hassigned assigned.
  destruct (negb (object_serializable o)); [done|].
  unfold network, throw, ret, read, store.
  destruct (outage e) as [detail|] eqn:Hnet; [done|].
  destruct (db1 st0) as [db|] eqn:Hdb; [|done].
  intros Hrun. exists db, st0.
  assert (Hrest : (∀ d, d ∈ docs_of c db → d !! "_id" ≠ Some id0)
                  ∧ id = id0
                  ∧ st1 = set_db1
                            (Some (with_docs c
                               (docs_of c db
                                ++ [<["_id" := id0]> (BJson <$> o)]) db)) st0).
  { destruct (existsb _ (docs_of c db)) eqn:Hdup.
    - by repeat case_match.
    - split; [by apply existsb_id_false|].
      assert (Hfin : (Ok id0,
                set_db1
                  (with_docs c
                     (docs_of c db ++ [<["_id" := id0]> (BJson <$> o)])
                   <$> db1 st0) st0) = (Ok id, st1))
        by (by repeat case_match).
      rewrite Hdb in Hfin. by simplify_eq/=. }
  destruct Hrest as (Hfresh & -> & ->).
  rewrite <- Hdb0. split_and!; try done.
Qed.

(** When the document has no [_id], the identifier is the one the driver
    generates, and the counter has moved on. *)
Lemma insertOne_generated (c : collection) (o : object) (e : env)
    (st st1 : server) (id : bson) :
  o !! "_id" = None →
  insertOne c (Object o) e st = (Ok id, st1) →
  id = BOid (be_bytes 4 (clock e) ++ be_bytes 5 (PROCESS_UNIQUE st)
             ++ be_bytes 3 ((index st + 1) mod 16777215))%list
  ∧ index st1 = ((index st + 1) mod 16777215)%N.
Proof.
  intros Hno. unfold insertOne, bind. rewrite Hno.
  unfold total, ObjectId_generate, getInc, ret.
  destruct (negb (object_serializable o)); [done|].
  unfold network, throw, ret, read, store.
  destruct (outage e); [done|]. cbn [db1 set_index].
  destruct (db1 st) as [db|]; [|done].
  destruct (existsb _ (docs_of c db)); [done|].
  by intros [= <- <-].
Qed.

(** C4, amended.  For every object sent to [POST /order_placed] that has no
    [_id] of its own and that [insertOne] accepts: the response is 201
    [{message: "Order placed successfully"}]; the driver assigns a new
    ObjectId, made of the time, the process and the next value of the
    counter, that no order had; and a following [GET /order_placed] lists
    that exact object plus the identifier, in text, under [_id]. *)
Theorem order_placed_then_listed (o : object) (e : env) (st : server) :
  o !! "_id" = None →
  placed_order_is_listed o e st
  ∧ ∀ id st1,
      insertOne Orders (Object o) e st = (Ok id, st1) →
      id = BOid (be_bytes 4 (clock e) ++ be_bytes 5 (PROCESS_UNIQUE st)
                 ++ be_bytes 3 ((index st + 1) mod 16777215))%list
      ∧ (∀ d, d ∈ orders_of st → d !! "_id" ≠ Some id)
      ∧ index st1 = ((index st + 1) mod 16777215)%N.
Proof.
  intros Hno. split.
  - intros id st1 Hins.
    destruct (insertOne_generated _ _ _ _ _ _ Hno Hins) as [Hid _].
    destruct (insertOne_Ok _ _ _ _ _ _ Hins)
      as (db & st0 & Hdb & Hdb0 & Hnet & Hfresh & -> & _).
    split.
    + unfold post_order_placed, try_catch, bind, ordersCollection,
        db_collection. by rewrite Hdb, Hins.
    + intros e' Hnet'.
      eexists (doc_toJSON
                <$> (order_placed db ++ [<["_id" := id]> (BJson <$> o)])%list),
        (<["_id" := toJSON id]> o), _.
      split_and!.
      * unfold get_order_placed, try_catch, bind, ordersCollection,
          db_collection, find_toArray, bind, network, read.
        simpl. by rewrite Hnet'.
      * rewrite fmap_app, elem_of_app. right. simpl.
        rewrite doc_toJSON_inserted. by left.
      * rewrite delete_insert_eq. by apply delete_id.
      * exact Hid.
      * rewrite Hid. cbn [toJSON]. by rewrite lookup_insert_eq.
  - intros id st1 Hins.
    destruct (insertOne_generated _ _ _ _ _ _ Hno Hins) as [Hid Hindex].
    destruct (insertOne_Ok _ _ _ _ _ _ Hins)
      as (db & st0 & Hdb & Hdb0 & Hnet & Hfresh & _ & _).
    split_and!; [done| |done].
    unfold orders_of. by rewrite Hdb.
Qed.

Lemma order_placed_then_listed_witness :
  geometry !! "_id" = None
  ∧ placed_order_is_listed geometry noon fresh_process
  ∧ insertOne Orders (Object geometry) noon fresh_process
    = (Ok (BOid algebra_id),
       (insertOne Orders (Object geometry) noon fresh_process).2).
Proof.
  assert (Hno : geometry !! "_id" = None) by (vm_compute; reflexivity).
  split_and!; [exact Hno| |vm_compute; reflexivity].
  exact (proj1 (order_placed_then_listed geometry noon fresh_process Hno)).
Defined.

(** C4 as stated fails at an order that gives [null] as its [_id]: the
    insertion succeeds, the driver replaces the [null] by a new ObjectId,
    and no object of the list is the submitted object plus an identifier. *)
Lemma order_with_null_id_is_not_listed :
  ¬ placed_order_is_listed unnamed_order noon fresh_process.
Proof.
  intros Hclaim.
  pose (st1 := (insertOne Orders (Object unnamed_order) noon fresh_process).2).
  assert (Hins : insertOne Orders (Object unnamed_order) noon fresh_process
                 = (Ok (BOid algebra_id), st1))
    by (vm_compute; reflexivity).
  destruct (Hclaim _ _ Hins) as [_ Hget].
  destruct (Hget noon eq_refl) as (l & listed & oid & Hl & Hin & Hdel & _).
  assert (Hlist : (get_order_placed noon st1).1
                  = {| status := 200;
                       payload :=
                         JsonList [<["_id" := JStr algebra_hex]> unnamed_order]
                    |})
    by (vm_compute; reflexivity).
  rewrite Hlist in Hl. clear Hlist Hins Hget Hclaim.
  injection Hl as <-.
  apply list_elem_of_singleton in Hin as ->.
  apply (f_equal (λ m : object, m !! "_id")) in Hdel.
  rewrite lookup_delete_eq in Hdel.
  revert Hdel. vm_compute. discriminate.
Qed.

(** C1, amended.  For every lesson document that carries no [_id] of its own
    and is inserted successfully, the identifier is a newly generated
    ObjectId that no lesson had, the 201 response is the submitted fields
    plus that identifier under [_id], and a following [GET /lessons/:id] with
    that identifier returns the same fields. *)
Theorem created_lesson_round_trip (o : object) (e : env) (st : server) :
  o !! "_id" = None →
  created_lesson_is_fetchable o e st
  ∧ ∀ id st1,
      insertOne Lessons (Object o) e st = (Ok id, st1) →
      id = BOid (ObjectId_generate (clock e) st).1.
Proof.
  intros Hno.
  assert (Hgen : ∀ id st1,
            insertOne Lessons (Object o) e st = (Ok id, st1) →
            id = BOid (ObjectId_generate (clock e) st).1).
  { intros id st1 Hins.
    destruct (insertOne_Ok _ _ _ _ _ _ Hins) as (? & ? & _ & _ & _ & _ & _ & Hid).
    by rewrite Hno in Hid. }
  split; [|done].
  intros id st1 Hins. pose proof (Hgen id st1 Hins) as Hid.
  destruct (insertOne_Ok _ _ _ _ _ _ Hins)
    as (db & st0 & Hdb & Hdb0 & Hnet & Hfresh & Hst1 & _).
  set (oid := (ObjectId_generate (clock e) st).1) in *.
  assert (Hlen : length oid = 12) by apply length_ObjectId_generate.
  clearbody oid.
  split_and!.
  - unfold lessons_of. by rewrite Hdb.
  - unfold post_lessons, try_catch, bind, lessonsCollection, db_collection.
    by rewrite Hdb, Hins.
  - intros text e' Htext Hnet'. subst id st1. injection Htext as <-.
    unfold get_lesson, try_catch, bind, lessonsCollection, db_collection,
      findOne, bind, network, read.
    cbn [db1 set_db1]. rewrite ObjectId_new_string.
    rewrite ObjectId_of_string_toHexString by done.
    rewrite Hnet'. cbn [db1 set_db1 ret docs_of with_docs lessons].
    rewrite find_has_id_snoc; [| done | by rewrite lookup_insert_eq].
    simpl. by rewrite doc_toJSON_inserted.
Qed.

Lemma created_lesson_round_trip_witness :
  let id := BOid (ObjectId_generate (clock noon) fresh_process).1 in
  let st1 := (insertOne Lessons (Object geometry) noon fresh_process).2 in
  geometry !! "_id" = None
  ∧ insertOne Lessons (Object geometry) noon fresh_process = (Ok id, st1)
  ∧ post_lessons (Object geometry) noon fresh_process
    = ({| status := 201; payload := Json (<["_id" := toJSON id]> geometry) |},
       st1).
Proof.
  intros id st1.
  assert (Hno : geometry !! "_id" = None) by (vm_compute; reflexivity).
  assert (Hins : insertOne Lessons (Object geometry) noon fresh_process
                 = (Ok id, st1)) by (vm_compute; reflexivity).
  split_and!; [exact Hno|exact Hins|].
  destruct (created_lesson_round_trip geometry noon fresh_process Hno)
    as [Hfetch _].
  apply (Hfetch id st1 Hins).
Defined.

(** C1 as stated fails at a lesson that brings its own [_id]: the insertion
    succeeds and the response shows [_id: "abc"], but [GET /lessons/abc]
    answers 500, because ["abc"] is not an ObjectId. *)
Lemma named_lesson_is_not_fetchable :
  ¬ created_lesson_is_fetchable named_lesson noon fresh_process.
Proof.
  intros Hclaim.
  pose (st1 := (insertOne Lessons (Object named_lesson) noon fresh_process).2).
  assert (Hins : insertOne Lessons (Object named_lesson) noon fresh_process
                 = (Ok (BJson (JStr "abc")), st1))
    by (vm_compute; reflexivity).
  destruct (Hclaim _ _ Hins) as (_ & _ & Hget).
  specialize (Hget "abc" noon eq_refl eq_refl).
  revert Hget. vm_compute. discriminate.
Qed.

(** ** Updating one lesson *)

Lemma split_path_first (key : string) :
  head (split_path key) = Some (first_component key).
Proof.
  induction key as [|c key IH]; simpl; [done|].
  destruct (decide (c = "."%char)); [done|].
  destruct (split_path key); simpl in *; by simplify_eq.
Qed.

Lemma set_field_frame (d d' : document) (p : list string) (v : json)
    (k : string) :
  set_field d p v = Ok d' → head p ≠ Some k → d' !! k = d !! k.
Proof.
  destruct p as [|f rest]; simpl; [done|].
  intros Hset Hk.
  destruct (match rest with [] => _ | _ => _ end) as [new|err];
    simplify_eq/=.
  apply lookup_insert_ne. congruence.
Qed.

Lemma apply_set_frame (mods : modifiers) (d d' : document) (k : string) :
  apply_set mods d = Ok d' →
  (∀ p v, (p, v) ∈ mods → head p ≠ Some k) →
  d' !! k = d !! k.
Proof.
  revert d. induction mods as [|[p v] mods IH]; simpl; intros d Hrun Hk.
  - by simplify_eq.
  - destruct (set_field d p v) as [d1|err] eqn:Hset; simplify_eq/=.
    rewrite (IH d1 Hrun) by (intros p' v' Hp'; eapply Hk; by right).
    eapply set_field_frame; [done|]. eapply Hk. by left.
Qed.

Lemma update_document_id (mods : modifiers) (d d' : document) :
  update_document mods d = Ok d' → d' !! "_id" = d !! "_id".
Proof.
  unfold update_document. destruct (apply_set mods d) as [d1|err]; simpl;
    [|done].
  by destruct (decide _); intros [= <-].
Qed.

Lemma update_document_frame (mods : modifiers) (d d' : document)
    (k : string) :
  update_document mods d = Ok d' →
  (∀ p v, (p, v) ∈ mods → head p ≠ Some k) →
  d' !! k = d !! k.
Proof.
  unfold update_document.
  destruct (apply_set mods d) as [d1|err] eqn:Hrun; simpl; [|done].
  destruct (decide _); intros [= <-] Hk. by eapply apply_set_frame.
Qed.

Lemma update_first_Forall2 (R : document → document → Prop)
    (oid : ObjectId) (f : document → result document)
    (docs docs' : list document) :
  (∀ d, R d d) →
  (∀ d d', has_id oid d = true → f d = Ok d' → R d d') →
  update_first oid f docs = Ok docs' →
  Forall2 R docs docs'.
Proof.
  intros Hrefl Hf. revert docs'.
  induction docs as [|d docs IH]; simpl; intros docs' Hrun.
  - simplify_eq. constructor.
  - destruct (has_id oid d) eqn:Hd.
    + destruct (f d) as [d'|err] eqn:Hfd; simplify_eq/=.
      constructor; [by apply Hf|]. by apply Forall_Forall2_diag, Forall_true.
    + destruct (update_first oid f docs) as [rest'|err]; simplify_eq/=.
      constructor; [done|]. by apply IH.
Qed.

Lemma parse_set_addressed (o : object) (mods : modifiers) (k : string) :
  parse_set (Object o) = Ok mods →
  ¬ addressed (Object o) k →
  ∀ p v, (p, v) ∈ mods → head p ≠ Some k.
Proof.
  unfold parse_set. intros Hparse Hk p v Hp.
  repeat case_match; simplify_eq.
  apply list_elem_of_fmap in Hp as ([key v'] & [= -> ->] & Hkey).
  apply elem_of_map_to_list in Hkey. simpl.
  rewrite split_path_first. intros [= <-]. apply Hk.
  exists key. by rewrite Hkey.
Qed.

(** [updateOne] either leaves the state alone or stores the collection with
    its first matching document rewritten. *)
Lemma updateOne_run (c : collection) (oid : ObjectId) (b : body) (e : env)
    (st st' : server) (r : result ()) :
  updateOne c oid b e st = (r, st') →
  st' = st
  ∨ ∃ db mods docs',
      db1 st = Some db
      ∧ parse_set b = Ok mods
      ∧ update_first oid (update_document mods) (docs_of c db) = Ok docs'
      ∧ st' = set_db1 (Some (with_docs c docs' db)) st.
Proof.
  unfold updateOne, bind, network, lift, read, store, throw, ret.
  destruct (negb _); [intros [= _ <-]; by left|].
  destruct (outage e); [intros [= _ <-]; by left|].
  destruct (parse_set b) as [mods|err]; [|intros [= _ <-]; by left].
  destruct (db1 st) as [db|] eqn:Hdb; [|intros [= _ <-]; by left].
  destruct (update_first _ _ _) as [docs'|err] eqn:Hupd;
    [|intros [= _ <-]; by left].
  intros [= _ <-]. right. exists db, mods, docs'. by rewrite Hdb.
Qed.

(** C9, amended.  [PUT /lessons/:id] merges: whatever the identifier and the
    body, every stored lesson keeps its [_id] and keeps every field that no
    key of the body addresses (a key addresses the field named by its text
    up to the first dot); the orders are not touched. *)
Theorem put_lesson_merges (id : string) (b : body) (e : env) (st : server) :
  merge_keeps (λ b k, ¬ addressed b k) id b e st
  ∧ orders_of (put_lesson id b e st).2 = orders_of st.
Proof.
  unfold merge_keeps.
  set (R := λ d d' : document,
              d' !! "_id" = d !! "_id"
              ∧ ∀ k, ¬ addressed b k → d' !! k = d !! k).
  assert (Hrefl : ∀ d, R d d) by done.
  assert (Hsame : ∀ l, Forall2 R l l)
    by (intros l; by apply Forall_Forall2_diag, Forall_true).
  unfold put_lesson, try_catch, bind, lessonsCollection, db_collection.
  destruct (db1 st) as [db|] eqn:Hdb; [|done].
  rewrite ObjectId_new_string.
  destruct (ObjectId_of_string id) as [oid|err]; [|done].
  destruct (updateOne Lessons oid b e st) as [r st'] eqn:Hupd.
  apply updateOne_run in Hupd
    as [->|(db' & mods & docs' & Hdb' & Hparse & Hfirst & ->)].
  { by destruct r. }
  assert (db' = db) as -> by congruence.
  assert (Hdocs : Forall2 R (lessons db) docs').
  { apply (update_first_Forall2 R oid (update_document mods)); [done| |done].
    intros d d' _ Hdoc. split; [by eapply update_document_id|].
    intros k Hk. eapply update_document_frame; [done|].
    destruct b as [o|items]; [|done].
    by eapply parse_set_addressed. }
  unfold lessons_of, orders_of. rewrite Hdb.
  by destruct r.
Qed.

(** C9 as stated fails: [location] is absent from the body, whose only key
    is [location.city], and yet the stored [location] is rewritten. *)
Lemma dotted_key_rewrites_absent_field :
  ¬ merge_keeps absent algebra_hex move_to_leeds noon school.
Proof.
  unfold merge_keeps.
  assert (Hafter : lessons_of (put_lesson algebra_hex move_to_leeds noon school).2
            = [ <["location" :=
                    BJson (JObj [("city", JStr "Leeds"); ("zip", JStr "NW4")])]>
                  algebra ])
    by (vm_compute; reflexivity).
  rewrite Hafter.
  change (lessons_of school) with [algebra].
  intros [[_ Hkeep] _]%Forall2_cons.
  specialize (Hkeep "location").
  revert Hkeep. vm_compute. intros Hkeep.
  specialize (Hkeep eq_refl). discriminate.
Qed.

(** ** The bulk update of [spaces] *)

Lemma parse_set_spaces (v : json) :
  parse_set (Object {[ "spaces" := v ]}) = Ok [(["spaces"], v)].
Proof. unfold parse_set. by rewrite map_to_list_singleton. Qed.

Lemma update_document_spaces (v : json) (d : document) :
  update_document [(["spaces"], v)] d = Ok (<["spaces" := BJson v]> d).
Proof.
  unfold update_document. simpl.
  by rewrite decide_True by by apply lookup_insert_ne.
Qed.

Lemma ObjectId_new_db1 (x : option json) (e : env) (st st' : server)
    (r : result ObjectId) :
  ObjectId_new x e st = (r, st') → db1 st' = db1 st.
Proof.
  unfold ObjectId_new, bind, ret, throw, total, lift, ObjectId_generate,
    getInc.
  intros Hrun. repeat case_match; by simplify_eq/=.
Qed.

Lemma bulkOperation_run (e : env) (u : json) (st st' : server)
    (r : result write_op) :
  bulkOperation e u st = (r, st') →
  db1 st' = db1 st ∧ ∀ op, r = Ok op → sets_spaces op.
Proof.
  unfold bulkOperation.
  assert (Hgen : bind (ObjectId_new (get_prop u "id") e)
            (λ oid, ret {| filter := oid;
                           update := Object {[ "spaces" :=
                             default JNull (get_prop u "spaces") ]} |}) st
            = (r, st') →
          db1 st' = db1 st ∧ ∀ op, r = Ok op → sets_spaces op).
  { unfold bind, ret.
    destruct (ObjectId_new _ e st) as [[oid|err] st1] eqn:Hnew;
      intros [= <- <-]; (split; [by eapply ObjectId_new_db1|]);
      intros op [= <-]. by eexists. }
  destruct u; try exact Hgen. intros [= <- <-]. by split.
Qed.

Lemma mapM_bulkOperation_run (e : env) (items : list json)
    (st st' : server) (r : result (list write_op)) :
  mapM (bulkOperation e) items st = (r, st') →
  db1 st' = db1 st ∧ ∀ ops, r = Ok ops → Forall sets_spaces ops.
Proof.
  revert st st' r.
  induction items as [|u items IH]; simpl; intros st st' r.
  - intros [= <- <-]. split; [done|]. by intros ops [= <-].
  - unfold bind at 1.
    destruct (bulkOperation e u st) as [[op|err] st1] eqn:Hop.
    + apply bulkOperation_run in Hop as [Hdb Hop]. unfold bind at 1.
      destruct (mapM _ items st1) as [[ops|err] st2] eqn:Hrest.
      * apply IH in Hrest as [Hdb' Hops]. intros [= <- <-].
        split; [congruence|]. intros ? [= <-]. constructor; auto.
      * apply IH in Hrest as [Hdb' _]. intros [= <- <-].
        split; [congruence|done].
    + apply bulkOperation_run in Hop as [Hdb _]. intros [= <- <-].
      by split.
Qed.

Lemma only_spaces_of_refl (ids : list ObjectId) (docs : list document) :
  Forall2 (only_spaces_of ids) docs docs.
Proof. by apply Forall_Forall2_diag, Forall_true. Qed.

Lemma update_first_spaces (oid : ObjectId) (v : json) (docs : list document) :
  ∃ docs',
    update_first oid (update_document [(["spaces"], v)]) docs = Ok docs'
    ∧ Forall2 (only_spaces_of [oid]) docs docs'.
Proof.
  induction docs as [|d docs (docs' & Hrun & Hrel)]; simpl.
  - eexists. split; [done|constructor].
  - destruct (has_id oid d) eqn:Hd.
    + rewrite update_document_spaces. simpl. eexists. split; [done|].
      constructor; [|apply only_spaces_of_refl].
      split; [intros k Hk; by apply lookup_insert_ne|].
      intros Hnot. apply bool_decide_eq_true in Hd.
      destruct (Hnot oid); [by left|done].
    + rewrite Hrun. simpl. eexists. split; [done|]. by constructor.
Qed.

Lemma only_spaces_of_step (oid : ObjectId) (ids : list ObjectId)
    (d d1 d' : document) :
  only_spaces_of [oid] d d1 → only_spaces_of ids d1 d' →
  only_spaces_of (oid :: ids) d d'.
Proof.
  intros [Hframe1 Hsame1] [Hframe Hsame]. split.
  - intros k Hk. by rewrite Hframe, Hframe1.
  - intros Hnot. rewrite Hsame.
    + apply Hsame1. intros o ->%list_elem_of_singleton. apply Hnot. by left.
    + intros o Ho. rewrite Hframe1 by done. apply Hnot. by right.
Qed.

(** An ordered batch of [spaces] updates, from any state and whether it
    runs to its end or not. *)
Lemma run_ops_only_spaces (ops : list write_op) (acc : BulkWriteResult)
    (st st' : server) (r : result BulkWriteResult) :
  Forall sets_spaces ops →
  run_ops Lessons ops acc st = (r, st') →
  Forall2 (only_spaces_of (filter <$> ops)) (lessons_of st) (lessons_of st')
  ∧ orders_of st' = orders_of st.
Proof.
  intros Hops. revert acc st.
  induction Hops as [|op ops [v Hop] _ IH]; intros acc st; simpl.
  - intros [= _ <-]. split; [apply only_spaces_of_refl|done].
  - rewrite Hop, parse_set_spaces. unfold bind at 1, lift at 1.
    unfold bind at 1, read at 1.
    destruct (db1 st) as [db|] eqn:Hdb;
      [|intros [= _ <-]; split; [apply only_spaces_of_refl|done]].
    destruct (update_first_spaces (filter op) v (docs_of Lessons db))
      as (docs1 & Hrun & Hrel).
    unfold bind at 1, lift at 1. rewrite Hrun.
    unfold bind at 1, store at 1. rewrite Hdb. simpl.
    set (st1 := set_db1 _ st). intros Hrest.
    apply IH in Hrest as [Hrel' Horders].
    replace (lessons_of st) with (lessons db)
      by (unfold lessons_of; by rewrite Hdb).
    split.
    + eapply Forall2_trans; [|exact Hrel|exact Hrel'].
      apply only_spaces_of_step.
    + rewrite Horders. unfold orders_of. by rewrite Hdb.
Qed.

Ltac unchanged Hl Ho :=
  cbn [fst snd catch_500 throw];
  rewrite ?lessons_of_log, ?orders_of_log, ?Hl, ?Ho;
  split; [apply only_spaces_of_refl|done].

(** Whatever the body, nothing but [spaces] changes, and only in lessons
    that a filter of the batch selects. *)
Lemma put_updateSpaces_frame (b : body) (e : env) (st : server) :
  Forall2 (only_spaces_of (filters_built b e st))
    (lessons_of st) (lessons_of (put_updateSpaces b e st).2)
  ∧ orders_of (put_updateSpaces b e st).2 = orders_of st.
Proof.
  unfold filters_built, put_updateSpaces, try_catch, bind.
  destruct (bulkOperations b e st) as [[ops|err] st0] eqn:Hops.
  - assert (Hst0 : db1 st0 = db1 st ∧ Forall sets_spaces ops).
    { destruct b as [o|items]; [done|].
      apply mapM_bulkOperation_run in Hops as [? Hall]. auto. }
    destruct Hst0 as [Hdb0 Hall]. cbn [fst].
    assert (Hl : lessons_of st0 = lessons_of st)
      by (unfold lessons_of; by rewrite Hdb0).
    assert (Ho : orders_of st0 = orders_of st)
      by (unfold orders_of; by rewrite Hdb0).
    unfold lessonsCollection, db_collection.
    destruct (db1 st0) as [db|] eqn:Hdb; [|unchanged Hl Ho].
    unfold bulkWrite.
    destruct ops as [|op ops]; [unchanged Hl Ho|].
    destruct (negb _); [unchanged Hl Ho|].
    unfold bind, network.
    destruct (outage e); [unchanged Hl Ho|].
    cbn [ret].
    destruct (run_ops Lessons (op :: ops) _ st0) as [r st'] eqn:Hrun.
    apply run_ops_only_spaces in Hrun as [Hrel Horders]; [|done].
    rewrite Hl in Hrel. rewrite Ho in Horders.
    destruct r; cbn [fst snd res_json ret catch_500];
      by rewrite ?lessons_of_log, ?orders_of_log.
  - assert (Hdb0 : db1 st0 = db1 st).
    { destruct b as [o|items];
        [unfold bulkOperations, throw in Hops; by simplify_eq|].
      by apply mapM_bulkOperation_run in Hops as [? _]. }
    assert (Hl : lessons_of st0 = lessons_of st)
      by (unfold lessons_of; by rewrite Hdb0).
    assert (Ho : orders_of st0 = orders_of st)
      by (unfold orders_of; by rewrite Hdb0).
    unchanged Hl Ho.
Qed.

Lemma only_spaces_of_mono (ids ids' : list ObjectId) (d d' : document) :
  (∀ oid, oid ∈ ids → oid ∈ ids') →
  only_spaces_of ids d d' → only_spaces_of ids' d d'.
Proof.
  intros Hsub [Hframe Hsame]. split; [done|].
  intros Hnot. apply Hsame. intros oid Hoid. by apply Hnot, Hsub.
Qed.

(** When every [id] is a string, the filters are the listed identifiers. *)
Lemma mapM_bulkOperation_listed (e : env) (items : list json)
    (ops : list write_op) (st st' : server) :
  Forall (λ u, ∃ s, get_prop u "id" = Some (JStr s)) items →
  mapM (bulkOperation e) items st = (Ok ops, st') →
  filter <$> ops = omap listed_id items.
Proof.
  intros Hitems. revert ops st.
  induction Hitems as [|u items [s Hs] _ IH]; intros ops st; cbn [mapM].
  - by intros [= <- _].
  - unfold bind at 1.
    assert (Hop : bulkOperation e u st
                  = (match ObjectId_of_string s with
                     | Ok oid =>
                         Ok {| filter := oid;
                               update :=
                                 Object {[ "spaces" :=
                                   default JNull (get_prop u "spaces") ]} |}
                     | Throw err => Throw err
                     end, st)).
    { unfold bulkOperation, bind. destruct u as [| | | | |kvs]; try done.
      rewrite Hs, ObjectId_new_string. by destruct (ObjectId_of_string s). }
    rewrite Hop. cbn [omap list_omap]. unfold listed_id at 1. rewrite Hs.
    destruct (ObjectId_of_string s) as [oid|err]; [|done].
    unfold bind at 1.
    destruct (mapM (bulkOperation e) items st) as [[ops'|err] st1] eqn:Hrest;
      [|done].
    unfold ret. intros [= <- <-]. rewrite fmap_cons. cbn [filter].
    f_equal. by eapply IH.
Qed.

(** C8, amended.  Whatever the body of [PUT /lessons/updateSpaces], and
    whether the request succeeds or fails, every lesson keeps all its fields
    other than [spaces] and the orders are not touched; and when every
    element of the list gives its [id] as a string, a lesson whose
    identifier is not among those the list spells out is not changed at
    all. *)
Theorem bulk_update_touches_only_spaces (b : body) (e : env) (st : server) :
  Forall2 (λ d d' : document, ∀ k, k ≠ "spaces" → d' !! k = d !! k)
    (lessons_of st) (lessons_of (put_updateSpaces b e st).2)
  ∧ orders_of (put_updateSpaces b e st).2 = orders_of st
  ∧ (ids_are_strings b →
     Forall2 (only_spaces_of (listed_ids b))
       (lessons_of st) (lessons_of (put_updateSpaces b e st).2)).
Proof.
  destruct (put_updateSpaces_frame b e st) as [Hrel Horders].
  split_and!; [|done|].
  - eapply Forall2_impl; [exact Hrel|]. by intros d d' [Hframe _].
  - intros Hstrings. eapply Forall2_impl; [exact Hrel|].
    intros d d'. apply only_spaces_of_mono.
    unfold filters_built, listed_ids.
    destruct b as [o|items]; [by intros oid Hoid%elem_of_nil|].
    cbn [bulkOperations].
    destruct (mapM (bulkOperation e) items st) as [[ops|err] st'] eqn:Hops;
      cbn [fst]; [|by intros oid Hoid%elem_of_nil].
    by rewrite (mapM_bulkOperation_listed e items ops st st' Hstrings Hops).
Qed.

Lemma bulk_update_touches_only_spaces_witness :
  ids_are_strings (Array (pair_json <$> twice_algebra))
  ∧ Forall2 (only_spaces_of (listed_ids (Array (pair_json <$> twice_algebra))))
      (lessons_of school)
      (lessons_of
         (put_updateSpaces (Array (pair_json <$> twice_algebra)) noon
            school).2).
Proof.
  assert (Hstrings : ids_are_strings (Array (pair_json <$> twice_algebra))).
  { repeat constructor; exists algebra_hex; vm_compute; reflexivity. }
  split; [exact Hstrings|].
  exact (proj2 (proj2 (bulk_update_touches_only_spaces
                         (Array (pair_json <$> twice_algebra)) noon school))
           Hstrings).
Defined.

(** C8 as stated fails at an element that gives a number as [id]: the
    request lists no identifier, the driver makes an ObjectId out of the
    number and the counter, and the lesson that has this ObjectId gets the
    new [spaces]. *)
Lemma numeric_id_rewrites_unlisted_lesson :
  listed_ids numbered_update = []
  ∧ status (put_updateSpaces numbered_update noon school_again).1 = 200
  ∧ ¬ Forall2 (only_spaces_of (listed_ids numbered_update))
        (lessons_of school_again)
        (lessons_of (put_updateSpaces numbered_update noon school_again).2).
Proof.
  assert (Hlisted : listed_ids numbered_update = [])
    by (vm_compute; reflexivity).
  split_and!; [exact Hlisted|vm_compute; reflexivity|].
  rewrite Hlisted.
  assert (Hafter :
            lessons_of (put_updateSpaces numbered_update noon school_again).2
            = [<["spaces" := BJson (JNum 0)]> algebra])
    by (vm_compute; reflexivity).
  rewrite Hafter. clear Hafter Hlisted.
  change (lessons_of school_again) with [algebra].
  intros Hrel. apply Forall2_cons_1 in Hrel as [[_ Hsame] _].
  assert (Heq : <["spaces" := BJson (JNum 0)]> algebra = algebra).
  { apply Hsame. intros oid Hoid. by apply elem_of_nil in Hoid. }
  apply (f_equal (λ m : document, m !! "spaces")) in Heq.
  revert Heq. vm_compute. discriminate.
Qed.

(** *** What the listed lessons hold afterwards *)

Lemma bulkOperation_pair (e : env) (p : string * json) (oid : ObjectId)
    (st : server) :
  ObjectId_of_string p.1 = Ok oid →
  bulkOperation e (pair_json p) st = (Ok (spaces_op (oid, p.2)), st).
Proof.
  intros Hid. unfold bulkOperation, pair_json, bind. cbn [get_prop assoc].
  rewrite decide_True by done. rewrite ObjectId_new_string, Hid.
  rewrite decide_False by done. by rewrite decide_True by done.
Qed.

Lemma mapM_pairs (e : env) (pairs : list (string * json))
    (oids : list ObjectId) (st : server) :
  Forall2 (λ p oid, ObjectId_of_string p.1 = Ok oid) pairs oids →
  mapM (bulkOperation e) (pair_json <$> pairs) st
  = (Ok (spaces_op <$> zip oids pairs.*2), st).
Proof.
  induction 1 as [|p oid pairs oids Hid _ IH]; [done|].
  rewrite !fmap_cons. cbn [mapM zip zip_with]. unfold bind at 1.
  rewrite (bulkOperation_pair e p oid st Hid). unfold bind at 1.
  by rewrite IH.
Qed.

Lemma update_first_set_spaces (oid : ObjectId) (v : json)
    (docs : list document) :
  update_first oid (update_document [(["spaces"], v)]) docs
  = Ok (set_spaces oid v docs).
Proof.
  induction docs as [|d docs IH]; simpl; [done|].
  destruct (has_id oid d).
  - by rewrite update_document_spaces.
  - by rewrite IH.
Qed.

Lemma run_ops_spaces (ups : list (ObjectId * json)) (acc : BulkWriteResult)
    (st : server) (db : database) :
  db1 st = Some db →
  ∃ acc' st',
    run_ops Lessons (spaces_op <$> ups) acc st = (Ok acc', st')
    ∧ lessons_of st'
      = foldl (λ docs up, set_spaces up.1 up.2 docs) (lessons db) ups.
Proof.
  revert acc st db.
  induction ups as [|[oid v] ups IH]; intros acc st db Hdb.
  - exists acc, st. split; [done|]. unfold lessons_of. by rewrite Hdb.
  - rewrite fmap_cons. cbn [run_ops spaces_op filter update fst snd].
    rewrite parse_set_spaces. unfold bind at 1, lift at 1.
    unfold bind at 1, read at 1. rewrite Hdb.
    unfold bind at 1, lift at 1. cbn [docs_of].
    rewrite update_first_set_spaces.
    unfold bind at 1, store at 1. rewrite Hdb. cbn [fmap option_fmap option_map].
    set (st1 := set_db1 _ st). set (acc1 := Build_BulkWriteResult _ _).
    destruct (IH acc1 st1
                (with_docs Lessons (set_spaces oid v (lessons db)) db)
                eq_refl) as (acc' & st' & Hrun & Hlessons).
    exists acc', st'. split; [exact Hrun|]. by rewrite Hlessons.
Qed.

Lemma has_id_set_spaces (oid : ObjectId) (v : json) (d : document) :
  has_id oid (<["spaces" := BJson v]> d) = has_id oid d.
Proof. unfold has_id. by rewrite lookup_insert_ne. Qed.

Lemma find_set_spaces (oid o : ObjectId) (v : json) (docs : list document) :
  find (has_id oid) (set_spaces o v docs)
  = (λ d, if decide (o = oid) then <["spaces" := BJson v]> d else d)
      <$> find (has_id oid) docs.
Proof.
  induction docs as [|d docs IH]; simpl; [done|].
  destruct (has_id o d) eqn:Ho; simpl.
  - rewrite has_id_set_spaces.
    destruct (has_id oid d) eqn:Hoid; simpl.
    + apply bool_decide_eq_true in Ho, Hoid.
      rewrite decide_True by congruence. done.
    + destruct (decide (o = oid)) as [->|]; [congruence|].
      by destruct (find _ docs).
  - destruct (has_id oid d) eqn:Hoid; simpl; [|exact IH].
    rewrite decide_False; [done|]. intros ->. congruence.
Qed.

Lemma find_after_updates (oid : ObjectId) (ups : list (ObjectId * json))
    (docs : list document) :
  find (has_id oid) (foldl (λ docs up, set_spaces up.1 up.2 docs) docs ups)
  = (λ d, match final_spaces oid ups with
          | Some v => <["spaces" := BJson v]> d
          | None => d
          end) <$> find (has_id oid) docs.
Proof.
  revert docs. induction ups as [|[o v] ups IH]; intros docs; simpl.
  - by destruct (find _ docs).
  - rewrite IH, find_set_spaces.
    destruct (find (has_id oid) docs) as [d|]; simpl; [|done].
    f_equal. destruct (final_spaces oid ups), (decide (o = oid)); try done.
    by rewrite insert_insert_eq.
Qed.

Lemma final_spaces_listed (oid : ObjectId) (ups : list (ObjectId * json)) :
  oid ∈ ups.*1 → is_Some (final_spaces oid ups).
Proof.
  induction ups as [|[o v] ups IH]; simpl.
  - by intros ?%elem_of_nil.
  - intros [->|Hin]%elem_of_cons.
    + destruct (final_spaces _ ups); [done|]. by rewrite decide_True.
    + destruct (IH Hin) as [v' ->]. done.
Qed.

(** C2, amended.  When every pair of the body names, by a valid identifier,
    a lesson that exists, and the request succeeds, then each listed lesson
    is found afterwards with [spaces] equal to the value of the last pair
    that names it, whatever its [spaces] was before. *)
Theorem bulk_update_sets_last_value (pairs : list (string * json))
    (oids : list ObjectId) (e : env) (st : server) :
  Forall2 (λ p oid,
             ObjectId_of_string p.1 = Ok oid
             ∧ ∃ d, d ∈ lessons_of st ∧ d !! "_id" = Some (BOid oid))
    pairs oids →
  status (put_updateSpaces (Array (pair_json <$> pairs)) e st).1 = 200 →
  ∀ oid, oid ∈ oids →
    ∃ v lesson,
      final_spaces oid (zip oids pairs.*2) = Some v
      ∧ find (has_id oid)
          (lessons_of (put_updateSpaces (Array (pair_json <$> pairs)) e st).2)
        = Some lesson
      ∧ lesson !! "spaces" = Some (BJson v).
Proof.
  intros Hpairs Hok oid Hoid.
  assert (Hids : Forall2 (λ p oid, ObjectId_of_string p.1 = Ok oid)
                   pairs oids).
  { eapply Forall2_impl; [exact Hpairs|]. by intros ?? [? _]. }
  assert (Hex : Forall (λ oid, ∃ d, d ∈ lessons_of st
                                    ∧ d !! "_id" = Some (BOid oid)) oids).
  { clear -Hpairs. induction Hpairs as [|???? [_ ?]]; constructor; auto. }
  set (ups := zip oids pairs.*2).
  assert (Hfst : ups.*1 = oids).
  { apply fst_zip. rewrite length_fmap.
    by rewrite (Forall2_length _ _ _ Hpairs). }
  assert (Hafter :
    lessons_of (put_updateSpaces (Array (pair_json <$> pairs)) e st).2
    = foldl (λ docs up, set_spaces up.1 up.2 docs) (lessons_of st) ups).
  { revert Hok.
    unfold put_updateSpaces, try_catch, bind, bulkOperations.
    rewrite (mapM_pairs e pairs oids st Hids). fold ups.
    unfold lessonsCollection, db_collection.
    destruct (db1 st) as [db|] eqn:Hdb; [|cbn; discriminate].
    unfold bulkWrite.
    destruct (spaces_op <$> ups) as [|op ops] eqn:Hops; [cbn; discriminate|].
    destruct (negb _); [cbn; discriminate|].
    unfold bind, network.
    destruct (outage e); [cbn; discriminate|].
    rewrite <- Hops. cbn [ret].
    destruct (run_ops_spaces ups {| matchedCount := 0; modifiedCount := 0 |}
                st db Hdb) as (acc' & st' & -> & Hlessons).
    intros _. cbn [res_json ret snd]. rewrite Hlessons.
    unfold lessons_of. by rewrite Hdb. }
  rewrite Hafter, find_after_updates.
  destruct (final_spaces_listed oid ups) as [v Hv]; [by rewrite Hfst|].
  rewrite Forall_forall in Hex. destruct (Hex oid Hoid) as (d & Hd & Hdid).
  destruct (find (has_id oid) (lessons_of st)) as [d0|] eqn:Hfind.
  - exists v, (<["spaces" := BJson v]> d0). rewrite Hv.
    split_and!; [done|done|by rewrite lookup_insert_eq].
  - by destruct (proj1 (find_has_id_None _ _) Hfind d Hd).
Qed.

Lemma algebra_has_algebra_id : algebra !! "_id" = Some (BOid algebra_id).
Proof. vm_compute. reflexivity. Qed.

Lemma algebra_hex_is_algebra_id : ObjectId_of_string algebra_hex = Ok algebra_id.
Proof. vm_compute. reflexivity. Qed.

Lemma twice_algebra_listed :
  Forall2 (λ p oid,
             ObjectId_of_string p.1 = Ok oid
             ∧ ∃ d, d ∈ lessons_of school ∧ d !! "_id" = Some (BOid oid))
    twice_algebra [algebra_id; algebra_id].
Proof.
  repeat constructor; try exact algebra_hex_is_algebra_id;
    exists algebra; (split; [apply list_elem_of_here|]);
    exact algebra_has_algebra_id.
Qed.

Lemma twice_algebra_succeeds :
  status (put_updateSpaces (Array (pair_json <$> twice_algebra))
            noon school).1 = 200.
Proof. vm_compute. reflexivity. Qed.

Lemma bulk_update_sets_last_value_witness :
  Forall2 (λ p oid,
             ObjectId_of_string p.1 = Ok oid
             ∧ ∃ d, d ∈ lessons_of school ∧ d !! "_id" = Some (BOid oid))
    twice_algebra [algebra_id; algebra_id]
  ∧ status (put_updateSpaces (Array (pair_json <$> twice_algebra))
              noon school).1 = 200
  ∧ ∃ lesson,
      find (has_id algebra_id)
        (lessons_of (put_updateSpaces (Array (pair_json <$> twice_algebra))
                       noon school).2)
      = Some lesson
      ∧ lesson !! "spaces" = Some (BJson (JNum 0)).
Proof.
  split; [exact twice_algebra_listed|].
  split; [exact twice_algebra_succeeds|].
  destruct (bulk_update_sets_last_value twice_algebra
              [algebra_id; algebra_id] noon school
              twice_algebra_listed twice_algebra_succeeds
              algebra_id (list_elem_of_here _ _))
    as (v & lesson & Hv & Hfind & Hspaces).
  exists lesson. split; [exact Hfind|].
  assert (Hlast : final_spaces algebra_id
                    (zip [algebra_id; algebra_id] twice_algebra.*2)
                  = Some (JNum 0)) by (vm_compute; reflexivity).
  rewrite Hlast in Hv. injection Hv as <-. exact Hspaces.
Defined.

(** C2 as stated fails when a lesson is listed twice: both pairs are valid
    and the request succeeds, but the lesson ends with the [spaces] of the
    second pair, not with the 3 that the first pair gives. *)
Lemma repeated_pair_keeps_last :
  status (put_updateSpaces (Array (pair_json <$> twice_algebra))
            noon school).1 = 200
  ∧ Forall2 (λ p oid,
               ObjectId_of_string p.1 = Ok oid
               ∧ ∃ d, d ∈ lessons_of school ∧ d !! "_id" = Some (BOid oid))
      twice_algebra [algebra_id; algebra_id]
  ∧ ¬ bulk_sets_each twice_algebra noon school.
Proof.
  split; [exact twice_algebra_succeeds|].
  split; [exact twice_algebra_listed|].
  intros Hclaim.
  destruct (Hclaim algebra_hex (JNum 3) algebra_id)
    as (lesson & Hfind & Hspaces);
    [apply list_elem_of_here|exact algebra_hex_is_algebra_id|].
  assert (Hafter :
    find (has_id algebra_id)
      (lessons_of (put_updateSpaces (Array (pair_json <$> twice_algebra))
                     noon school).2)
    = Some (<["spaces" := BJson (JNum 0)]> algebra))
    by (vm_compute; reflexivity).
  rewrite Hafter in Hfind. injection Hfind as <-.
  revert Hspaces. vm_compute. discriminate.
Qed.

(** * Further properties of the routes *)

(** ** The effect of a request on the database *)

Lemma snapshot_db1 (st st' : server) :
  db1 st' = db1 st → snapshot st' = snapshot st.
Proof. unfold snapshot, lessons_of, orders_of. by intros ->. Qed.

Lemma snapshot_log (l : log_line) (st : server) :
  snapshot (log l st) = snapshot st.
Proof. done. Qed.

Lemma snapshot_connected (st : server) (db : database) :
  db1 st = Some db → snapshot st = db.
Proof.
  unfold snapshot, lessons_of, orders_of. intros ->. by destruct db.
Qed.

Lemma insertOne_Throw (c : collection) (doc : body) (e : env)
    (st st' : server) (err : error) :
  insertOne c doc e st = (Throw err, st') → db1 st' = db1 st.
Proof.
  destruct doc as [o|items]; unfold insertOne, bind.
  - set (assigned := match o !! "_id" with
                     | None | Some JNull => _
                     | Some _ => _
                     end).
    destruct (assigned st) as [[id0|err0] st0] eqn:Hassigned.
    + assert (Hdb0 : db1 st0 = db1 st).
      { subst assigned.
        unfold bind, total, ret, ObjectId_generate, getInc in *.
        destruct (o !! "_id") as [[]|]; by simplify_eq/=. }
      clear Hassigned assigned.
      destruct (negb _); [by intros [= _ <-]|].
      unfold network, throw, ret, read, store.
      destruct (outage e); [by intros [= _ <-]|].
      destruct (db1 st0) as [db|] eqn:Hdb;
        [|intros Hrun; simplify_eq/=; congruence].
      destruct (existsb _ (docs_of c db));
        destruct id0 as [|[]]; intros Hrun; simplify_eq/=; congruence.
    + subst assigned.
      unfold bind, total, ret, ObjectId_generate, getInc in *.
      destruct (o !! "_id") as [[]|]; by simplify_eq/=.
  - unfold total, ObjectId_generate, getInc, network, throw, ret.
    destruct (outage e); by intros [= _ <-].
Qed.

Lemma deleteOne_run (c : collection) (oid : ObjectId) (e : env)
    (st st' : server) (r : result ()) :
  deleteOne c oid e st = (r, st') →
  db1 st' = db1 st
  ∨ ∃ db, db1 st = Some db
          ∧ db1 st' = Some (with_docs c (remove_first oid (docs_of c db)) db).
Proof.
  unfold deleteOne, bind, network, read, store, throw, ret.
  destruct (outage e); [intros [= _ <-]; by left|].
  destruct (db1 st) as [db|] eqn:Hdb; [|intros [= _ <-]; by left].
  intros [= _ <-]. right. exists db. simpl. by rewrite Hdb.
Qed.

Lemma remove_first_sublist (oid : ObjectId) (docs : list document) :
  sublist (remove_first oid docs) docs.
Proof.
  induction docs as [|d docs IH]; simpl; [done|].
  destruct (has_id oid d); [by apply sublist_cons|by apply sublist_skip].
Qed.

Lemma same_ids_refl (docs : list document) : same_ids docs docs.
Proof. by apply Forall_Forall2_diag, Forall_true. Qed.

Lemma snapshot_stored (c : collection) (docs : list document)
    (db : database) (st : server) :
  snapshot (set_db1 (Some (with_docs c docs db)) st) = with_docs c docs db.
Proof. by destruct c. Qed.

Lemma put_lesson_snapshot (id : string) (b : body) (e : env) (st : server) :
  ∃ docs',
    snapshot (put_lesson id b e st).2
    = {| lessons := docs'; order_placed := orders_of st |}
    ∧ same_ids (lessons_of st) docs'.
Proof.
  assert (Hsame : ∀ st', db1 st' = db1 st →
            ∃ docs', snapshot st'
                     = {| lessons := docs'; order_placed := orders_of st |}
                     ∧ same_ids (lessons_of st) docs').
  { intros st' Hdb'. exists (lessons_of st).
    split; [by rewrite (snapshot_db1 _ _ Hdb')|apply same_ids_refl]. }
  unfold put_lesson, try_catch, bind, lessonsCollection, db_collection.
  destruct (db1 st) as [db|] eqn:Hdb; [|by apply Hsame].
  rewrite ObjectId_new_string.
  destruct (ObjectId_of_string id) as [oid|err]; [|by apply Hsame].
  destruct (updateOne Lessons oid b e st) as [r st'] eqn:Hupd.
  apply updateOne_run in Hupd
    as [->|(db' & mods & docs' & Hdb' & Hparse & Hfirst & ->)].
  { by destruct r; apply Hsame. }
  assert (db' = db) as -> by congruence.
  exists docs'. split.
  - unfold orders_of. rewrite Hdb.
    by destruct r; cbn [snd res_json ret catch_500];
      rewrite ?snapshot_log, snapshot_stored.
  - unfold lessons_of. rewrite Hdb. cbn [from_option].
    apply (update_first_Forall2 _ oid (update_document mods)); [done| |done].
    intros d d' _ Hdoc. by eapply update_document_id.
Qed.

Lemma put_updateSpaces_snapshot (b : body) (e : env) (st : server) :
  ∃ docs',
    snapshot (put_updateSpaces b e st).2
    = {| lessons := docs'; order_placed := orders_of st |}
    ∧ same_ids (lessons_of st) docs'.
Proof.
  assert (Hsame : ∀ st', db1 st' = db1 st →
            ∃ docs', snapshot st'
                     = {| lessons := docs'; order_placed := orders_of st |}
                     ∧ same_ids (lessons_of st) docs').
  { intros st' Hdb'. exists (lessons_of st).
    split; [by rewrite (snapshot_db1 _ _ Hdb')|apply same_ids_refl]. }
  unfold put_updateSpaces, try_catch, bind.
  destruct (bulkOperations b e st) as [[ops|err] st0] eqn:Hops.
  - assert (Hst0 : db1 st0 = db1 st ∧ Forall sets_spaces ops).
    { destruct b as [o|items]; [done|].
      apply mapM_bulkOperation_run in Hops as [? Hall]. auto. }
    destruct Hst0 as [Hdb0 Hall].
    unfold lessonsCollection, db_collection.
    destruct (db1 st0) as [db|] eqn:Hdb; [|apply Hsame; cbn; congruence].
    unfold bulkWrite.
    destruct ops as [|op ops]; [apply Hsame; cbn; congruence|].
    destruct (negb _); [apply Hsame; cbn; congruence|].
    unfold bind, network.
    destruct (outage e); [apply Hsame; cbn; congruence|].
    cbn [ret].
    destruct (run_ops Lessons (op :: ops) _ st0) as [r st'] eqn:Hrun.
    apply run_ops_only_spaces in Hrun as [Hrel Horders]; [|done].
    exists (lessons_of st').
    assert (Hl : lessons_of st0 = lessons_of st)
      by (unfold lessons_of; congruence).
    assert (Ho : orders_of st0 = orders_of st)
      by (unfold orders_of; congruence).
    split.
    + rewrite <- Ho, <- Horders.
      by destruct r; cbn [snd res_json ret catch_500];
        rewrite ?snapshot_log.
    + rewrite <- Hl. eapply Forall2_impl; [exact Hrel|].
      intros d d' [Hframe _]. by apply Hframe.
  - assert (Hdb0 : db1 st0 = db1 st).
    { destruct b as [o|items];
        [unfold bulkOperations, throw in Hops; by simplify_eq|].
      by apply mapM_bulkOperation_run in Hops as [? _]. }
    apply Hsame; cbn; congruence.
Qed.

Lemma insert_route_effect (t : endpoint) (c : collection) (label msg : string)
    (k : bson → body → M response) (lesson : body) (e : env) (st : server) :
  (t = PostLessons ∧ c = Lessons) ∨ (t = PostOrderPlaced ∧ c = Orders) →
  (∀ id st1, ∃ r, k id lesson st1 = (Ok r, st1)) →
  effect t (snapshot st)
    (snapshot
       (try_catch
          (let* coll := db_collection c in
           let* insertedId := insertOne coll lesson e in
           k insertedId lesson)
          (catch_500 label msg) st).2).
Proof.
  intros Ht Hk. unfold try_catch, bind, db_collection.
  destruct (db1 st) as [db|] eqn:Hdb; [|apply effect_none].
  destruct (insertOne c lesson e st) as [[id|err] st1] eqn:Hins.
  - destruct (Hk id st1) as [r ->]. cbn [snd].
    destruct lesson as [o|items].
    + destruct (insertOne_Ok _ _ _ _ _ _ Hins)
        as (db' & st0 & Hdb' & Hdb0 & _ & Hfresh & -> & _).
      assert (db' = db) as -> by congruence.
      rewrite snapshot_stored, (snapshot_connected st db Hdb).
      destruct Ht as [[-> ->]|[-> ->]]; cbn [with_docs docs_of] in *.
      * apply effect_insert_lesson.
        -- by rewrite lookup_insert_eq.
        -- intros d0 Hd0. rewrite lookup_insert_eq. by apply Hfresh.
      * apply effect_insert_order.
        -- by rewrite lookup_insert_eq.
        -- intros d0 Hd0. rewrite lookup_insert_eq. by apply Hfresh.
    + exfalso. revert Hins.
      unfold insertOne, bind, total, ObjectId_generate, getInc, network,
        throw, ret.
      by destruct (outage e).
  - apply insertOne_Throw in Hins. cbn [snd catch_500].
    rewrite snapshot_log, (snapshot_db1 _ _ Hins). apply effect_none.
Qed.

(** What a request does to the collections, whatever it is. *)
Lemma handler_effect (t : endpoint) (b : body) (e : env) (st : server) :
  effect t (snapshot st) (snapshot (handler t b e st).2).
Proof.
  assert (Hnone : ∀ st', db1 st' = db1 st →
            effect t (snapshot st) (snapshot st')).
  { intros st' Hdb'. rewrite (snapshot_db1 _ _ Hdb'). apply effect_none. }
  destruct t; cbn [handler].
  - apply Hnone.
    unfold get_lessons, try_catch, bind, lessonsCollection, db_collection,
      find_toArray, bind, network, read, throw, ret.
    destruct (db1 st) eqn:Hdb; [|done].
    destruct (outage e); [done|]. by rewrite Hdb.
  - apply Hnone.
    unfold get_lesson, try_catch, bind, lessonsCollection, db_collection,
      findOne, bind, network, read, throw, ret.
    destruct (db1 st) eqn:Hdb; [|done].
    rewrite ObjectId_new_string.
    destruct (ObjectId_of_string id); [|done].
    destruct (outage e); [done|]. rewrite Hdb.
    by destruct (find _ _).
  - apply (insert_route_effect PostLessons Lessons _ _
             (λ id lesson,
                res_json 201 (Json (<["_id" := toJSON id]> (spread lesson)))));
      [by left|]. intros id st1. by eexists.
  - destruct (put_updateSpaces_snapshot b e st) as (docs' & -> & Hids).
    by apply (effect_update_many (snapshot st)).
  - destruct (put_lesson_snapshot id b e st) as (docs' & -> & Hids).
    by apply (effect_update_one id (snapshot st)).
  - unfold delete_lesson, try_catch, bind, lessonsCollection, db_collection.
    destruct (db1 st) as [db|] eqn:Hdb; [|by apply Hnone].
    rewrite ObjectId_new_string.
    destruct (ObjectId_of_string id) as [oid|err]; [|by apply Hnone].
    destruct (deleteOne Lessons oid e st) as [r st'] eqn:Hdel.
    apply deleteOne_run in Hdel as [Hdb'|(db' & Hdb' & Hst')].
    + destruct r; apply Hnone; cbn; congruence.
    + assert (db' = db) as -> by congruence.
      assert (Hsnap : snapshot st'
                = {| lessons := remove_first oid (lessons db);
                     order_placed := order_placed db |})
        by by apply snapshot_connected.
      rewrite (snapshot_connected st db Hdb).
      replace (snapshot _) with
        {| lessons := remove_first oid (lessons db);
           order_placed := order_placed db |}
        by (by destruct r).
      apply effect_delete, remove_first_sublist.
  - apply (insert_route_effect PostOrderPlaced Orders _ _
             (λ _ _, res_json 201 (message_body "Order placed successfully")));
      [by right|]. intros id st1. by eexists.
  - apply Hnone.
    unfold get_order_placed, try_catch, bind, ordersCollection, db_collection,
      find_toArray, bind, network, read, throw, ret.
    destruct (db1 st) eqn:Hdb; [|done].
    destruct (outage e); [done|]. by rewrite Hdb.
Qed.

Lemma app_effect (req : request) (e : env) (st : server) :
  effect (target req) (snapshot st) (snapshot (app req e st).2).
Proof.
  unfold app. destruct (content req) as [detail|b]; [apply effect_none|].
  apply (handler_effect (target req) b e (logger e (target req) st)).
Qed.

(** ** Reading and writing routes *)

(** X1.  The three GET routes of the API only read: whatever the request
    and however it ends, the database is as it was, and no identifier has
    been generated. *)
Theorem get_routes_change_nothing (req : request) (e : env) (st : server) :
  is_read (target req) = true →
  db1 (app req e st).2 = db1 st ∧ index (app req e st).2 = index st.
Proof.
  destruct req as [t [detail|b]]; [done|].
  unfold app; cbn [target content].
  destruct t; try done; intros _; cbn [handler].
  - unfold get_lessons, try_catch, bind, lessonsCollection, db_collection,
      find_toArray, bind, network, read, throw, ret, logger.
    cbn [db1 log]. destruct (db1 st) eqn:Hdb; [|done].
    destruct (outage e); [done|]. cbn [db1 log]. by rewrite Hdb.
  - unfold get_lesson, try_catch, bind, lessonsCollection, db_collection,
      findOne, bind, network, read, throw, ret, logger.
    cbn [db1 log]. destruct (db1 st) eqn:Hdb; [|done].
    rewrite ObjectId_new_string.
    destruct (ObjectId_of_string id); [|done].
    destruct (outage e); [done|]. cbn [db1 log]. rewrite Hdb.
    by destruct (find _ _).
  - unfold get_order_placed, try_catch, bind, ordersCollection, db_collection,
      find_toArray, bind, network, read, throw, ret, logger.
    cbn [db1 log]. destruct (db1 st) eqn:Hdb; [|done].
    destruct (outage e); [done|]. cbn [db1 log]. by rewrite Hdb.
Qed.

Lemma get_routes_change_nothing_witness :
  db1 (app {| target := GetLesson algebra_hex; content := Body (Object ∅) |}
         noon school).2 = db1 school
  ∧ index (app {| target := GetLesson algebra_hex;
                  content := Body (Object ∅) |} noon school).2
    = index school.
Proof. by apply get_routes_change_nothing. Defined.

Lemma effect_orders_prefix (t : endpoint) (db db' : database) :
  effect t db db' → order_placed db `prefix_of` order_placed db'.
Proof.
  destruct 1; cbn [order_placed]; try done.
  by apply prefix_app_r.
Qed.

Lemma serve_snapshot (P : database → database → Prop) :
  (∀ db, P db db) →
  (∀ db1 db2 db3, P db1 db2 → P db2 db3 → P db1 db3) →
  (∀ t db db', effect t db db' → P db db') →
  ∀ reqs st, P (snapshot st) (snapshot (serve reqs st)).
Proof.
  intros Hrefl Htrans Hstep reqs.
  induction reqs as [|[req e] reqs IH]; intros st; cbn [serve]; [done|].
  eapply Htrans; [|apply IH]. eapply Hstep, app_effect.
Qed.

(** X2.  Orders are only ever added: after any sequence of requests, the
    collection of orders, kept in the order of insertion, still begins with
    the orders that were stored, unchanged.  No route updates or removes an
    order. *)
Theorem orders_only_grow (reqs : list (request * env)) (st : server) :
  orders_of st `prefix_of` orders_of (serve reqs st).
Proof.
  apply (serve_snapshot
           (λ db db', order_placed db `prefix_of` order_placed db')).
  - done.
  - intros db1 db2 db3 ??. by etrans.
  - apply effect_orders_prefix.
Qed.

(** X3.  The two collections are independent: a request changes the orders
    only if it is [POST /order_placed], and such a request leaves the lessons
    as they were. *)
Theorem collections_are_independent (req : request) (e : env) (st : server) :
  (target req ≠ PostOrderPlaced → orders_of (app req e st).2 = orders_of st)
  ∧ (target req = PostOrderPlaced →
     lessons_of (app req e st).2 = lessons_of st).
Proof.
  pose proof (app_effect req e st) as Heff.
  change (orders_of (app req e st).2)
    with (order_placed (snapshot (app req e st).2)).
  change (lessons_of (app req e st).2)
    with (lessons (snapshot (app req e st).2)).
  change (orders_of st) with (order_placed (snapshot st)).
  change (lessons_of st) with (lessons (snapshot st)).
  destruct Heff; split; intros Ht; try done.
Qed.

Lemma collections_are_independent_witness :
  orders_of (app {| target := PostLessons; content := Body (Object geometry) |}
               noon school).2 = orders_of school
  ∧ lessons_of (app {| target := PostOrderPlaced;
                       content := Body (Object geometry) |} noon school).2
    = lessons_of school.
Proof.
  split.
  - by apply (collections_are_independent
                {| target := PostLessons; content := Body (Object geometry) |}).
  - by apply (collections_are_independent
                {| target := PostOrderPlaced;
                   content := Body (Object geometry) |}).
Defined.

(** ** Identifiers *)

Lemma same_ids_fmap (docs docs' : list document) :
  same_ids docs docs' →
  (λ d : document, d !! "_id") <$> docs'
  = (λ d : document, d !! "_id") <$> docs.
Proof. induction 1; cbn [fmap list_fmap]; congruence. Qed.

Lemma well_keyed_snoc (docs : list document) (d : document) :
  well_keyed docs →
  is_Some (d !! "_id") →
  (∀ d0, d0 ∈ docs → d0 !! "_id" ≠ d !! "_id") →
  well_keyed (docs ++ [d]).
Proof.
  intros [Hsome Hnodup] Hd Hfresh. split.
  - apply Forall_app. split; [done|by apply Forall_singleton].
  - rewrite fmap_app. apply NoDup_app. split_and!; [done| |apply NoDup_singleton].
    intros x [d0 [-> Hd0]]%list_elem_of_fmap Hin.
    apply list_elem_of_singleton in Hin. by eapply Hfresh.
Qed.

Lemma well_keyed_same_ids (docs docs' : list document) :
  well_keyed docs → same_ids docs docs' → well_keyed docs'.
Proof.
  intros [Hsome Hnodup] Hids. split.
  - eapply Forall2_Forall_r; [exact Hids|].
    eapply Forall_impl; [exact Hsome|].
    intros d Hd d' Heq. by rewrite Heq.
  - by rewrite (same_ids_fmap _ _ Hids).
Qed.

Lemma well_keyed_sublist (docs docs' : list document) :
  well_keyed docs → sublist docs' docs → well_keyed docs'.
Proof.
  intros [Hsome Hnodup] Hsub. split.
  - apply Forall_forall. intros d Hd.
    apply (proj1 (Forall_forall _ _) Hsome d). by eapply elem_of_sublist.
  - eapply sublist_NoDup; [exact Hnodup|]. by apply fmap_sublist.
Qed.

Lemma effect_well_keyed (t : endpoint) (db db' : database) :
  effect t db db' →
  well_keyed (lessons db) ∧ well_keyed (order_placed db) →
  well_keyed (lessons db') ∧ well_keyed (order_placed db').
Proof.
  destruct 1; cbn [lessons order_placed]; intros [Hl Ho]; split;
    eauto using well_keyed_snoc, well_keyed_same_ids, well_keyed_sublist.
Qed.

(** X4.  Identifiers stay unique.  If every stored lesson and order has an
    [_id] and no two documents of a collection share one, the same holds after
    any sequence of requests: however many documents are created, updated or
    deleted, and whether the requests succeed or fail. *)
Theorem identifiers_stay_unique (reqs : list (request * env)) (st : server) :
  well_keyed (lessons_of st) →
  well_keyed (orders_of st) →
  well_keyed (lessons_of (serve reqs st))
  ∧ well_keyed (orders_of (serve reqs st)).
Proof.
  intros Hl Ho.
  assert (Hstart : well_keyed (lessons (snapshot st))
                   ∧ well_keyed (order_placed (snapshot st))) by done.
  clear Hl Ho. revert reqs st Hstart.
  apply (serve_snapshot
           (λ db db', well_keyed (lessons db) ∧ well_keyed (order_placed db) →
                      well_keyed (lessons db') ∧ well_keyed (order_placed db')));
    [tauto|tauto|apply effect_well_keyed].
Qed.

Lemma school_is_well_keyed :
  well_keyed (lessons_of school) ∧ well_keyed (orders_of school).
Proof.
  change (lessons_of school) with [algebra].
  change (orders_of school) with (@nil document).
  split_and!; split.
  - apply Forall_singleton. rewrite algebra_has_algebra_id. by eexists.
  - apply NoDup_singleton.
  - apply Forall_nil_2.
  - apply NoDup_nil_2.
Qed.

Lemma identifiers_stay_unique_witness :
  well_keyed
    (lessons_of
       (serve [({| target := PostLessons; content := Body (Object geometry) |},
                noon);
               ({| target := DeleteLesson algebra_hex;
                   content := Body (Object ∅) |}, noon)] school))
  ∧ well_keyed
      (orders_of
         (serve [({| target := PostLessons;
                     content := Body (Object geometry) |}, noon);
                 ({| target := DeleteLesson algebra_hex;
                     content := Body (Object ∅) |}, noon)] school)).
Proof.
  apply identifiers_stay_unique; apply school_is_well_keyed.
Defined.

(** ** Requests in sequence *)

Lemma get_lessons_run (db : database) (e : env) (st : server) :
  db1 st = Some db →
  outage e = None →
  (get_lessons e st).1
  = {| status := 200; payload := JsonList (doc_toJSON <$> lessons db) |}.
Proof.
  intros Hdb Hup.
  unfold get_lessons, try_catch, bind, lessonsCollection, db_collection,
    find_toArray, bind, network, read.
  rewrite Hdb, Hup. cbn [ret]. by rewrite ?Hdb.
Qed.

Lemma get_lesson_run (id : string) (oid : ObjectId) (db : database)
    (e : env) (st : server) :
  db1 st = Some db →
  outage e = None →
  ObjectId_of_string id = Ok oid →
  (get_lesson id e st).1
  = match find (has_id oid) (lessons db) with
    | Some doc => {| status := 200; payload := Json (doc_toJSON doc) |}
    | None => failure 404 "Lesson not found"
    end.
Proof.
  intros Hdb Hup Hid.
  unfold get_lesson, try_catch, bind, lessonsCollection, db_collection.
  rewrite Hdb, ObjectId_new_string, Hid.
  unfold findOne, bind, network, read. rewrite Hup. cbn [ret]. rewrite ?Hdb.
  cbn [docs_of]. by destruct (find _ _).
Qed.

Lemma delete_lesson_run (id : string) (oid : ObjectId) (db : database)
    (e : env) (st : server) :
  db1 st = Some db →
  outage e = None →
  ObjectId_of_string id = Ok oid →
  delete_lesson id e st
  = (success 200 "Lesson deleted successfully",
     set_db1 (Some (with_docs Lessons (remove_first oid (lessons db)) db)) st).
Proof.
  intros Hdb Hup Hid.
  unfold delete_lesson, try_catch, bind, lessonsCollection, db_collection.
  rewrite Hdb, ObjectId_new_string, Hid.
  unfold deleteOne, bind, network, read, store. rewrite Hup. cbn [ret].
  by rewrite ?Hdb.
Qed.

Lemma remove_first_filter (oid : ObjectId) (docs : list document) :
  NoDup ((λ d : document, d !! "_id") <$> docs) →
  remove_first oid docs
  = base.filter (λ d : document, d !! "_id" ≠ Some (BOid oid)) docs.
Proof.
  induction docs as [|d docs IH]; [done|].
  rewrite fmap_cons, NoDup_cons. intros [Hd Hnodup].
  cbn [remove_first]. unfold has_id. case_bool_decide as Hid.
  - rewrite filter_cons_False by (by intros ?).
    clear IH Hnodup. induction docs as [|d0 docs IH]; [done|].
    rewrite fmap_cons, not_elem_of_cons in Hd. destruct Hd as [Hd0 Hd].
    rewrite filter_cons_True by congruence. f_equal. by apply IH.
  - rewrite filter_cons_True by done. by rewrite IH.
Qed.

(** X5.  Deleting a lesson and then fetching it by the same identifier
    yields 404.  With the database reachable, a well-formed identifier and
    no two lessons sharing an [_id], [DELETE /lessons/:id] answers 200,
    what remains is exactly the lessons with another identifier, and a
    following [GET /lessons/:id] answers 404 [{error: "Lesson not found"}],
    whether or not the lesson existed. *)
Theorem deleted_lesson_is_gone (id : string) (oid : ObjectId) (db : database)
    (e e' : env) (st : server) :
  db1 st = Some db →
  outage e = None →
  outage e' = None →
  ObjectId_of_string id = Ok oid →
  NoDup ((λ d : document, d !! "_id") <$> lessons db) →
  (delete_lesson id e st).1 = success 200 "Lesson deleted successfully"
  ∧ lessons_of (delete_lesson id e st).2
    = base.filter (λ d : document, d !! "_id" ≠ Some (BOid oid)) (lessons db)
  ∧ (get_lesson id e' (delete_lesson id e st).2).1
    = failure 404 "Lesson not found".
Proof.
  intros Hdb Hup Hup' Hid Hnodup.
  rewrite (delete_lesson_run id oid db e st Hdb Hup Hid). cbn [fst snd].
  split_and!; [done|by apply remove_first_filter|].
  erewrite (get_lesson_run id oid
              (with_docs Lessons (remove_first oid (lessons db)) db)
              e'); [|reflexivity|done|done].
  cbn [with_docs lessons].
  replace (find _ _) with (@None document); [done|].
  symmetry. apply find_has_id_None. intros d.
  rewrite remove_first_filter, list_elem_of_filter by done. by intros [? _].
Qed.

Lemma deleted_lesson_is_gone_witness :
  (delete_lesson algebra_hex noon school).1
  = success 200 "Lesson deleted successfully"
  ∧ lessons_of (delete_lesson algebra_hex noon school).2
    = base.filter (λ d : document, d !! "_id" ≠ Some (BOid algebra_id))
        [algebra]
  ∧ (get_lesson algebra_hex noon (delete_lesson algebra_hex noon school).2).1
    = failure 404 "Lesson not found".
Proof.
  apply (deleted_lesson_is_gone algebra_hex algebra_id
           {| lessons := [algebra]; order_placed := [] |} noon noon school);
    [reflexivity|reflexivity|reflexivity|exact algebra_hex_is_algebra_id|].
  apply NoDup_singleton.
Defined.

(** X6.  A created lesson joins the list.  When [POST /lessons] answers
    201, a following [GET /lessons] returns the lessons that a [GET /lessons]
    before the creation would have returned together with the object that
    the 201 response carries: that one more, and no other change. *)
Theorem created_lesson_joins_the_list (o : object) (e e' : env)
    (st : server) :
  status (post_lessons (Object o) e st).1 = 201 →
  outage e' = None →
  ∃ l created l',
    (get_lessons e' st).1 = {| status := 200; payload := JsonList l |}
    ∧ payload (post_lessons (Object o) e st).1 = Json created
    ∧ (get_lessons e' (post_lessons (Object o) e st).2).1
      = {| status := 200; payload := JsonList l' |}
    ∧ l' ≡ₚ created :: l.
Proof.
  intros Hcreated Hup'. revert Hcreated.
  unfold post_lessons, try_catch, bind, lessonsCollection, db_collection.
  destruct (db1 st) as [db|] eqn:Hdb; [|done].
  destruct (insertOne Lessons (Object o) e st) as [[id|err] st1] eqn:Hins;
    [|done].
  intros _. cbn [res_json ret fst snd payload spread].
  destruct (insertOne_Ok _ _ _ _ _ _ Hins)
    as (db' & st0 & Hdb' & Hdb0 & _ & _ & -> & _).
  assert (db' = db) as -> by congruence.
  exists (doc_toJSON <$> lessons db), (<["_id" := toJSON id]> o),
    (doc_toJSON <$> (lessons db ++ [<["_id" := id]> (BJson <$> o)])%list).
  split_and!; [by apply get_lessons_run|done| |].
  - erewrite get_lessons_run; [|reflexivity|done]. done.
  - rewrite fmap_app, fmap_cons, doc_toJSON_inserted.
    symmetry. apply Permutation_cons_append.
Qed.

Lemma geometry_is_created :
  status (post_lessons (Object geometry) noon school).1 = 201.
Proof. vm_compute. reflexivity. Qed.

Lemma created_lesson_joins_the_list_witness :
  ∃ l created l',
    (get_lessons noon school).1 = {| status := 200; payload := JsonList l |}
    ∧ payload (post_lessons (Object geometry) noon school).1 = Json created
    ∧ (get_lessons noon (post_lessons (Object geometry) noon school).2).1
      = {| status := 200; payload := JsonList l' |}
    ∧ l' ≡ₚ created :: l.
Proof.
  apply created_lesson_joins_the_list;
    [exact geometry_is_created|reflexivity].
Defined.

(** ** Failures *)

Lemma handler_unconnected (t : endpoint) (b : body) (e : env) (st : server) :
  db1 st = None →
  (handler t b e st).1 = failure 500 (catch_message t)
  ∧ db1 (handler t b e st).2 = None.
Proof.
  intros Hdb.
  destruct t; cbn [handler];
    unfold get_lessons, get_lesson, post_lessons, put_updateSpaces,
      put_lesson, delete_lesson, post_order_placed, get_order_placed,
      try_catch, bind, lessonsCollection, ordersCollection, db_collection;
    rewrite ?Hdb; try done.
  destruct (bulkOperations b e st) as [[ops|err] st0] eqn:Hops.
  - assert (Hdb0 : db1 st0 = None).
    { destruct b as [o|items]; [done|].
      apply mapM_bulkOperation_run in Hops as [? _]. congruence. }
    by rewrite Hdb0.
  - assert (Hdb0 : db1 st0 = None).
    { destruct b as [o|items];
        [unfold bulkOperations, throw in Hops; by simplify_eq|].
      apply mapM_bulkOperation_run in Hops as [? _]. congruence. }
    done.
Qed.

Lemma serve_unconnected (reqs : list (request * env)) (st : server) :
  db1 st = None → db1 (serve reqs st) = None.
Proof.
  revert st. induction reqs as [|[req e] reqs IH]; intros st Hdb; [done|].
  cbn [serve]. apply IH. unfold app.
  destruct (content req) as [detail|b]; [done|].
  by apply handler_unconnected.
Qed.

(** X7.  A connection that fails at start-up is not fatal and is never
    retried: [connectDB] leaves the session unset, and from then on, after
    any number of requests, every request that reaches a route is answered
    with 500 and that route's fixed message. *)
Theorem failed_connection_fails_every_request (err : error)
    (reqs : list (request * env)) (t : endpoint) (b : body) (e : env)
    (st : server) :
  db1 st = None →
  db1 (serve reqs (connectDB (Throw err) st).2) = None
  ∧ (app {| target := t; content := Body b |} e
       (serve reqs (connectDB (Throw err) st).2)).1
    = failure 500 (catch_message t).
Proof.
  intros Hdb.
  assert (Hunset : db1 (serve reqs (connectDB (Throw err) st).2) = None)
    by by apply serve_unconnected.
  split; [done|].
  unfold app; cbn [content target]. by apply handler_unconnected.
Qed.

Lemma failed_connection_fails_every_request_witness :
  db1 (serve [({| target := PostLessons; content := Body (Object geometry) |},
               noon)]
         (connectDB (Throw (MongoError "connection refused"))
            (set_db1 None fresh_process)).2) = None
  ∧ (app {| target := GetLessons; content := Body (Object ∅) |} noon
       (serve [({| target := PostLessons;
                   content := Body (Object geometry) |}, noon)]
          (connectDB (Throw (MongoError "connection refused"))
             (set_db1 None fresh_process)).2)).1
    = failure 500 (catch_message GetLessons).
Proof. by apply failed_connection_fails_every_request. Defined.

(** X8.  A failure of the data access (the driver call of the request does
    not come back with a result) is answered, on each of the eight routes,
    with 500 and the fixed message of that route. *)
Theorem data_access_failure_is_500 (t : endpoint) (b : body) (e : env)
    (st : server) (detail : string) :
  outage e = Some detail →
  (app {| target := t; content := Body b |} e st).1
  = failure 500 (catch_message t).
Proof.
  intros Hdown. unfold app; cbn [content target].
  by eapply handler_outage.
Qed.

Lemma data_access_failure_is_500_witness :
  (app {| target := DeleteLesson algebra_hex; content := Body (Object ∅) |}
     (with_outage "connection closed" noon) school).1
  = failure 500 (catch_message (DeleteLesson algebra_hex)).
Proof. by eapply data_access_failure_is_500. Defined.

(** X9.  The status table, route by route: the GET routes answer 200 or
    500, and [GET /lessons/:id] also 404; the POST routes 201 or 500; the
    PUT and DELETE routes 200 or 500.  A 500 of a route carries that
    route's own message and a 404 carries "Lesson not found". *)
Theorem route_status_table (t : endpoint) (b : body) (e : env) (st : server) :
  status (handler t b e st).1 ∈ statuses t
  ∧ (status (handler t b e st).1 = 500 →
     (handler t b e st).1 = failure 500 (catch_message t))
  ∧ (status (handler t b e st).1 = 404 →
     (handler t b e st).1 = failure 404 "Lesson not found").
Proof.
  destruct t; cbn [handler statuses catch_message];
    unfold get_lessons, get_lesson, post_lessons, put_updateSpaces,
      put_lesson, delete_lesson, post_order_placed, get_order_placed;
    match goal with
    | |- status _ ∈ ?l ∧ (_ → _ = failure 500 ?msg) ∧ _ =>
        apply (try_catch_500
                 (λ r, status r ∈ l
                       ∧ (status r = 500 → r = failure 500 msg)
                       ∧ (status r = 404
                          → r = failure 404 "Lesson not found")))
    end;
    try (split_and!; [cbn; in_messages|done|done]);
    repeat (apply returns_bind; intros);
    try (apply returns_res_json; split_and!; [cbn; in_messages|done|done]).
  destruct a1; apply returns_res_json;
    (split_and!; [cbn; in_messages|done|done]).
Qed.

Lemma route_status_table_witness :
  status (handler (GetLesson other_hex) (Object ∅) noon school).1
  ∈ statuses (GetLesson other_hex)
  ∧ (status (handler (GetLesson other_hex) (Object ∅) noon school).1 = 500 →
     (handler (GetLesson other_hex) (Object ∅) noon school).1
     = failure 500 (catch_message (GetLesson other_hex)))
  ∧ (status (handler (GetLesson other_hex) (Object ∅) noon school).1 = 404 →
     (handler (GetLesson other_hex) (Object ∅) noon school).1
     = failure 404 "Lesson not found").
Proof. apply route_status_table. Defined.

(** ** Rejected writes *)

Lemma mapM_throws {A B} (f : A → M B) (x : A) (l : list A) :
  x ∈ l → throws (f x) → throws (mapM f l).
Proof.
  intros Hx Hf. induction l as [|y l IH]; [by apply elem_of_nil in Hx|].
  intros st. cbn [mapM]. unfold bind at 1.
  destruct (f y st) as [[b|err] st0] eqn:Hy; [|by eauto].
  apply elem_of_cons in Hx as [->|Hx].
  - destruct (Hf st) as (err & st' & Hthrow). congruence.
  - destruct (IH Hx st0) as (err & st' & Hthrow).
    unfold bind. rewrite Hthrow. by eauto.
Qed.

Lemma bulkOperation_throws (e : env) (u : json) :
  u = JNull
  ∨ (∃ s err, get_prop u "id" = Some (JStr s)
              ∧ ObjectId_of_string s = Throw err) →
  throws (bulkOperation e u).
Proof.
  intros [->|(s & err & Hprop & Hid)] st; [by eexists _, _|].
  destruct u as [| | | | |kvs]; try done.
  unfold bulkOperation, bind. rewrite Hprop, ObjectId_new_string, Hid.
  by eexists _, _.
Qed.

(** X10.  A bulk update with one bad entry updates nothing.  When any
    element of the list is [null], or gives as [id] a string that is not a
    well-formed identifier, [PUT /lessons/updateSpaces] answers 500
    "Failed to update spaces" and the database is as it was: the list of
    operations is built, and fails, before anything is sent. *)
Theorem bulk_update_with_bad_entry_updates_nothing (items : list json)
    (u : json) (e : env) (st : server) :
  u ∈ items →
  u = JNull
  ∨ (∃ s err, get_prop u "id" = Some (JStr s)
              ∧ ObjectId_of_string s = Throw err) →
  (put_updateSpaces (Array items) e st).1
  = failure 500 "Failed to update spaces"
  ∧ db1 (put_updateSpaces (Array items) e st).2 = db1 st.
Proof.
  intros Hu Hbad.
  destruct (mapM_throws (bulkOperation e) u items Hu
              (bulkOperation_throws e u Hbad) st) as (err & st' & Hthrow).
  unfold put_updateSpaces, try_catch, bind, bulkOperations.
  rewrite Hthrow. split; [done|].
  by apply mapM_bulkOperation_run in Hthrow as [? _].
Qed.

Lemma bulk_update_with_bad_entry_updates_nothing_witness :
  (put_updateSpaces
     (Array [pair_json (algebra_hex, JNum 0); pair_json ("abc", JNum 1)])
     noon school).1
  = failure 500 "Failed to update spaces"
  ∧ db1 (put_updateSpaces
           (Array [pair_json (algebra_hex, JNum 0); pair_json ("abc", JNum 1)])
           noon school).2 = db1 school.
Proof.
  apply (bulk_update_with_bad_entry_updates_nothing _
           (pair_json ("abc", JNum 1))).
  - apply list_elem_of_further, list_elem_of_here.
  - right. exists "abc", (BSONError invalid_id_message). by vm_compute.
Defined.

(** X11.  A lesson that brings its own [_id] is created once.  When the
    body of [POST /lessons] has an [_id] other than [null] and the request
    answers 201, the same body sent again is answered with 500 "Failed to add
    lesson" and nothing is stored. *)
Theorem lesson_with_own_id_is_created_once (o : object) (v : json)
    (e e' : env) (st : server) :
  o !! "_id" = Some v →
  v ≠ JNull →
  status (post_lessons (Object o) e st).1 = 201 →
  (post_lessons (Object o) e' (post_lessons (Object o) e st).2).1
  = failure 500 "Failed to add lesson"
  ∧ db1 (post_lessons (Object o) e' (post_lessons (Object o) e st).2).2
    = db1 (post_lessons (Object o) e st).2.
Proof.
  intros Hown Hv.
  destruct (post_lessons (Object o) e st) as [r1 st'] eqn:Hpost.
  cbn [fst snd]. revert Hpost.
  unfold post_lessons at 1, try_catch, bind, lessonsCollection, db_collection.
  destruct (db1 st) as [db|] eqn:Hdb; [|by intros [= <- <-]].
  destruct (insertOne Lessons (Object o) e st) as [[id|err] st1] eqn:Hins;
    [|by intros [= <- <-]].
  cbn [res_json ret]. intros [= <- <-] _.
  destruct (insertOne_Ok _ _ _ _ _ _ Hins)
    as (db' & st0 & Hdb' & Hdb0 & _ & _ & Hst1 & Hid).
  rewrite Hown in Hid. assert (id = BJson v) as -> by by destruct v.
  unfold post_lessons, try_catch, bind, lessonsCollection, db_collection.
  assert (Hdb1 : db1 st1 = Some (with_docs Lessons
                   (lessons db' ++ [<["_id" := BJson v]> (BJson <$> o)]) db'))
    by by rewrite Hst1.
  rewrite Hdb1.
  destruct (insertOne Lessons (Object o) e' st1) as [[id2|err2] st2] eqn:Hins2.
  - exfalso.
    destruct (insertOne_Ok _ _ _ _ _ _ Hins2)
      as (db2 & _ & Hdb2 & _ & _ & Hfresh & _ & Hid2).
    rewrite Hown in Hid2. assert (id2 = BJson v) as -> by by destruct v.
    assert (db2 = with_docs Lessons
              (lessons db' ++ [<["_id" := BJson v]> (BJson <$> o)]) db')
      as -> by congruence.
    apply (Hfresh (<["_id" := BJson v]> (BJson <$> o))).
    + cbn [docs_of with_docs lessons]. apply elem_of_app. right.
      apply list_elem_of_here.
    + by rewrite lookup_insert_eq.
  - split; [done|]. cbn [snd catch_500 db1 log].
    apply insertOne_Throw in Hins2. congruence.
Qed.

Lemma named_lesson_is_created :
  status (post_lessons (Object named_lesson) noon school).1 = 201.
Proof. vm_compute. reflexivity. Qed.

Lemma lesson_with_own_id_is_created_once_witness :
  (post_lessons (Object named_lesson) noon
     (post_lessons (Object named_lesson) noon school).2).1
  = failure 500 "Failed to add lesson"
  ∧ db1 (post_lessons (Object named_lesson) noon
           (post_lessons (Object named_lesson) noon school).2).2
    = db1 (post_lessons (Object named_lesson) noon school).2.
Proof.
  apply (lesson_with_own_id_is_created_once named_lesson (JStr "abc"));
    [by vm_compute|discriminate|exact named_lesson_is_created].
Defined.

Lemma set_field_head (d d' : document) (p : list string) (v : json)
    (k : string) :
  set_field d p v = Ok d' → head p = Some k →
  ∃ j, d' !! k = Some (BJson j).
Proof.
  destruct p as [|f rest]; simpl; [done|].
  intros Hset [= ->].
  destruct (match rest with [] => _ | _ => _ end) as [new|err];
    simplify_eq/=.
  rewrite lookup_insert_eq. by eexists.
Qed.

Lemma apply_set_keeps_json (mods : modifiers) (d d' : document) (k : string) :
  apply_set mods d = Ok d' →
  (∃ j, d !! k = Some (BJson j)) →
  ∃ j, d' !! k = Some (BJson j).
Proof.
  revert d. induction mods as [|[p v] mods IH]; simpl; intros d Hrun Hk.
  - by simplify_eq.
  - destruct (set_field d p v) as [d1|err] eqn:Hset; simplify_eq/=.
    apply (IH d1 Hrun).
    destruct (decide (head p = Some k)) as [Hhead|Hhead].
    + by eapply set_field_head.
    + by rewrite (set_field_frame _ _ _ _ _ Hset Hhead).
Qed.

Lemma apply_set_addressed (mods : modifiers) (d d' : document) (k : string) :
  apply_set mods d = Ok d' →
  (∃ p v, (p, v) ∈ mods ∧ head p = Some k) →
  ∃ j, d' !! k = Some (BJson j).
Proof.
  revert d. induction mods as [|[p v] mods IH]; simpl;
    intros d Hrun (p' & v' & Hin & Hhead).
  - by apply elem_of_nil in Hin.
  - destruct (set_field d p v) as [d1|err] eqn:Hset; simplify_eq/=.
    apply elem_of_cons in Hin as [[= -> ->]|Hin].
    + eapply apply_set_keeps_json; [done|]. by eapply set_field_head.
    + apply (IH d1 Hrun). by exists p', v'.
Qed.

Lemma update_document_addressed_id (mods : modifiers) (d : document)
    (oid : ObjectId) :
  d !! "_id" = Some (BOid oid) →
  (∃ p v, (p, v) ∈ mods ∧ head p = Some "_id") →
  ∃ err, update_document mods d = Throw err.
Proof.
  intros Hid Hmods. unfold update_document.
  destruct (apply_set mods d) as [d1|err] eqn:Hrun; simpl; [|by eexists].
  destruct (apply_set_addressed _ _ _ _ Hrun Hmods) as [j Hj].
  destruct (decide _) as [Heq|_]; [congruence|by eexists].
Qed.

Lemma update_first_throws (oid : ObjectId) (f : document → result document)
    (docs : list document) (d : document) :
  d ∈ docs →
  d !! "_id" = Some (BOid oid) →
  (∀ d0, d0 !! "_id" = Some (BOid oid) → ∃ err, f d0 = Throw err) →
  ∃ err, update_first oid f docs = Throw err.
Proof.
  intros Hd Hid Hf.
  induction docs as [|d0 docs IH]; [by apply elem_of_nil in Hd|].
  cbn [update_first]. unfold has_id at 1. case_bool_decide as Hd0.
  - destruct (Hf d0 Hd0) as [err ->]. by eexists.
  - apply elem_of_cons in Hd as [->|Hd]; [done|].
    destruct (IH Hd) as [err ->]. by eexists.
Qed.

Lemma parse_set_addresses (o : object) (mods : modifiers) (k : string) :
  parse_set (Object o) = Ok mods →
  addressed (Object o) k →
  ∃ p v, (p, v) ∈ mods ∧ head p = Some k.
Proof.
  unfold parse_set. intros Hparse (key & [v Hkey] & Hfirst).
  repeat case_match; simplify_eq.
  exists (split_path key), v. split.
  - apply list_elem_of_fmap. exists (key, v).
    split; [done|]. by apply elem_of_map_to_list.
  - by rewrite split_path_first.
Qed.

(** X12.  [_id] cannot be rewritten.  When the identifier of
    [PUT /lessons/:id] names a stored lesson and a key of the body addresses
    [_id] (as the body does when a client sends back a lesson it has
    fetched), the request is answered with 500 "Failed to update lesson"
    and the database is as it was. *)
Theorem put_lesson_cannot_set_id (id : string) (oid : ObjectId)
    (db : database) (d : document) (b : body) (e : env) (st : server) :
  db1 st = Some db →
  ObjectId_of_string id = Ok oid →
  d ∈ lessons db →
  d !! "_id" = Some (BOid oid) →
  addressed b "_id" →
  (put_lesson id b e st).1 = failure 500 "Failed to update lesson"
  ∧ db1 (put_lesson id b e st).2 = Some db.
Proof.
  intros Hdb Hid Hd Hd_id Hb.
  assert (Hthrow : ∃ err, updateOne Lessons oid b e st = (Throw err, st)).
  { unfold updateOne. destruct (negb _); [by eexists|].
    unfold bind, network. destruct (outage e); [by eexists|].
    cbn [ret]. unfold lift.
    destruct (parse_set b) as [mods|err] eqn:Hparse; [|by eexists].
    unfold read. rewrite Hdb. cbn [docs_of].
    destruct b as [o|items]; [|done].
    destruct (update_first_throws oid (update_document mods) (lessons db) d
                Hd Hd_id) as [err ->]; [|by eexists].
    intros d0 Hd0. eapply update_document_addressed_id; [done|].
    by eapply parse_set_addresses. }
  destruct Hthrow as [err Hthrow].
  unfold put_lesson, try_catch, bind, lessonsCollection, db_collection.
  by rewrite Hdb, ObjectId_new_string, Hid, Hthrow.
Qed.

Lemma put_lesson_cannot_set_id_witness :
  (put_lesson algebra_hex (Object {[ "_id" := JStr algebra_hex ]}) noon
     school).1
  = failure 500 "Failed to update lesson"
  ∧ db1 (put_lesson algebra_hex (Object {[ "_id" := JStr algebra_hex ]}) noon
           school).2
    = Some {| lessons := [algebra]; order_placed := [] |}.
Proof.
  apply (put_lesson_cannot_set_id algebra_hex algebra_id _ algebra).
  - reflexivity.
  - exact algebra_hex_is_algebra_id.
  - apply list_elem_of_here.
  - exact algebra_has_algebra_id.
  - exists "_id". split; [eexists; vm_compute; reflexivity|reflexivity].
Defined.

(** ** An update and the fetch that follows *)

Lemma get_lesson_200 (id : string) (lesson : object) (e : env) (st : server) :
  (get_lesson id e st).1 = {| status := 200; payload := Json lesson |} →
  ∃ db oid d,
    db1 st = Some db
    ∧ ObjectId_of_string id = Ok oid
    ∧ find (has_id oid) (lessons db) = Some d
    ∧ lesson = doc_toJSON d.
Proof.
  unfold get_lesson, try_catch, bind, lessonsCollection, db_collection.
  destruct (db1 st) as [db|] eqn:Hdb; [|done].
  rewrite ObjectId_new_string.
  destruct (ObjectId_of_string id) as [oid|err]; [|done].
  unfold findOne, bind, network, read.
  destruct (outage e); [done|]. cbn [ret]. rewrite ?Hdb. cbn [docs_of].
  destruct (find (has_id oid) (lessons db)) as [d|] eqn:Hfind; [|done].
  cbn [res_json ret fst]. intros [= <-]. by exists db, oid, d.
Qed.

Lemma parse_set_plain (o : object) :
  plain_fields (Object o) →
  body_serializable (Object o) = true
  ∧ parse_set (Object o) = Ok ((λ kv, ([kv.1], kv.2)) <$> map_to_list o).
Proof.
  intros Hplain.
  pose proof (plain_fields_accepted _ Hplain) as Hacc.
  unfold accepted_as_set in Hacc.
  apply andb_true_iff in Hacc as [Hser Hok]. split; [done|].
  revert Hok. unfold parse_set.
  destruct (negb (forallb _ _)); [done|].
  destruct (negb (conflict_free _)); [done|].
  intros _. f_equal. apply list_fmap_ext.
  intros i [k v] Hkv. cbn [fst snd].
  apply list_elem_of_lookup_2, elem_of_map_to_list in Hkv.
  destruct (Hplain k v Hkv) as [Hname _]. unfold plain_name in Hname.
  rewrite split_path_plain; [done|]. by destruct (has_dot k), (has_nul k).
Qed.

Lemma apply_set_plain (l : list (string * json)) (d : document) :
  apply_set ((λ kv, ([kv.1], kv.2)) <$> l) d
  = Ok (foldl (λ acc kv, <[kv.1 := BJson kv.2]> acc) d l).
Proof.
  revert d. induction l as [|[k v] l IH]; intros d; [done|].
  rewrite fmap_cons. cbn [apply_set set_field foldl fst snd mbind result_bind].
  apply IH.
Qed.

Lemma foldl_insert_lookup (l : list (string * json)) (d : document)
    (k : string) :
  NoDup l.*1 →
  foldl (λ acc kv, <[kv.1 := BJson kv.2]> acc) d l !! k
  = match (list_to_map l : object) !! k with
    | Some v => Some (BJson v)
    | None => d !! k
    end.
Proof.
  revert d. induction l as [|[k0 v0] l IH]; intros d; [done|].
  rewrite fmap_cons, NoDup_cons. intros [Hk0 Hnodup].
  cbn [foldl list_to_map foldr fst snd uncurry]. rewrite IH by done.
  destruct (decide (k = k0)) as [->|Hne].
  - rewrite (not_elem_of_list_to_map_1 _ k0) by done.
    by rewrite !lookup_insert_eq.
  - rewrite !(lookup_insert_ne _ k0 k) by done. done.
Qed.

Lemma merged_toJSON (o : object) (d : document) :
  doc_toJSON (foldl (λ acc kv, <[kv.1 := BJson kv.2]> acc) d (map_to_list o))
  = o ∪ doc_toJSON d.
Proof.
  apply map_eq. intros k. unfold doc_toJSON.
  rewrite lookup_fmap, foldl_insert_lookup by apply NoDup_fst_map_to_list.
  rewrite list_to_map_to_list, lookup_union, lookup_fmap.
  by destruct (o !! k), (d !! k).
Qed.

Lemma update_first_find (oid : ObjectId) (f : document → result document)
    (docs : list document) (d d' : document) :
  find (has_id oid) docs = Some d →
  f d = Ok d' →
  has_id oid d' = true →
  ∃ docs', update_first oid f docs = Ok docs'
           ∧ find (has_id oid) docs' = Some d'.
Proof.
  intros Hfind Hf Hd'. induction docs as [|d0 docs IH]; [done|].
  cbn [find update_first] in *.
  destruct (has_id oid d0) eqn:Hd0.
  - simplify_eq. rewrite Hf. eexists. split; [done|].
    cbn [find]. by rewrite Hd'.
  - destruct (IH Hfind) as (docs' & -> & Hfound).
    eexists. split; [done|]. cbn [find]. by rewrite Hd0.
Qed.

(** X13.  An update is seen by the fetch that follows.  When [GET
    /lessons/:id] returns a lesson, and the database is reachable, a [PUT
    /lessons/:id] whose body is an object of plain fields without [_id]
    answers 200, and a following GET returns the body's fields over the
    lesson's: every field of the body with the body's value, every other
    field as it was. *)
Theorem updated_lesson_is_fetched_merged (id : string) (o lesson : object)
    (e0 e e' : env) (st : server) :
  (get_lesson id e0 st).1 = {| status := 200; payload := Json lesson |} →
  outage e = None →
  outage e' = None →
  plain_fields (Object o) →
  o !! "_id" = None →
  (put_lesson id (Object o) e st).1
  = success 200 "Lesson updated successfully"
  ∧ (get_lesson id e' (put_lesson id (Object o) e st).2).1
    = {| status := 200; payload := Json (o ∪ lesson) |}.
Proof.
  intros (db & oid & d & Hdb & Hid & Hfind & ->)%get_lesson_200
    Hup Hup' Hplain Hown.
  destruct (parse_set_plain o Hplain) as [Hser Hparse].
  pose proof (find_has_id_Some _ _ _ Hfind) as [_ Hd_id].
  set (d' := foldl (λ acc kv, <[kv.1 := BJson kv.2]> acc) d (map_to_list o)).
  assert (Hd'_id : d' !! "_id" = d !! "_id").
  { subst d'. rewrite foldl_insert_lookup by apply NoDup_fst_map_to_list.
    by rewrite list_to_map_to_list, Hown. }
  assert (Hdoc : update_document ((λ kv, ([kv.1], kv.2)) <$> map_to_list o) d
                 = Ok d').
  { unfold update_document. rewrite apply_set_plain. cbn [mbind result_bind].
    fold d'. by rewrite decide_True. }
  destruct (update_first_find oid _ (lessons db) d d' Hfind Hdoc)
    as (docs' & Hfirst & Hfound).
  { unfold has_id. apply bool_decide_eq_true. congruence. }
  assert (Hput : put_lesson id (Object o) e st
                 = (success 200 "Lesson updated successfully",
                    set_db1 (Some (with_docs Lessons docs' db)) st)).
  { unfold put_lesson, try_catch, bind, lessonsCollection, db_collection.
    rewrite Hdb, ObjectId_new_string, Hid.
    unfold updateOne. rewrite Hser. cbn [negb].
    unfold bind, network, lift, read, store. rewrite Hup, Hparse. cbn [ret].
    rewrite ?Hdb. cbn [docs_of]. by rewrite Hfirst, ?Hdb. }
  rewrite Hput. split; [done|]. cbn [snd].
  erewrite get_lesson_run; [|reflexivity|done|done].
  cbn [with_docs lessons]. rewrite Hfound. subst d'.
  by rewrite merged_toJSON.
Qed.

Lemma algebra_is_fetched :
  (get_lesson algebra_hex noon school).1
  = {| status := 200; payload := Json (doc_toJSON algebra) |}.
Proof. vm_compute. reflexivity. Qed.

Lemma geometry_is_plain : plain_fields (Object geometry).
Proof.
  intros k v Hkv. apply elem_of_map_to_list in Hkv.
  assert (Hlist : map_to_list geometry
                  = [("spaces", JNum 5); ("topic", JStr "geometry")])
    by (vm_compute; reflexivity).
  rewrite Hlist in Hkv.
  repeat (apply elem_of_cons in Hkv as [[= -> ->]|Hkv];
          [split; vm_compute; reflexivity|]).
  destruct (proj1 (elem_of_nil _) Hkv).
Qed.

Lemma updated_lesson_is_fetched_merged_witness :
  (put_lesson algebra_hex (Object geometry) noon school).1
  = success 200 "Lesson updated successfully"
  ∧ (get_lesson algebra_hex noon
       (put_lesson algebra_hex (Object geometry) noon school).2).1
    = {| status := 200; payload := Json (geometry ∪ doc_toJSON algebra) |}.
Proof.
  apply (updated_lesson_is_fetched_merged _ _ _ noon).
  - exact algebra_is_fetched.
  - reflexivity.
  - reflexivity.
  - exact geometry_is_plain.
  - vm_compute. reflexivity.
Defined.

(** ** A bulk update that matches nothing *)

Lemma existsb_has_id_absent (oid : ObjectId) (docs : list document) :
  (∀ d, d ∈ docs → d !! "_id" ≠ Some (BOid oid)) →
  existsb (has_id oid) docs = false.
Proof.
  induction docs as [|d docs IH]; intros Hnone; [done|].
  cbn [existsb]. unfold has_id at 1.
  rewrite bool_decide_eq_false_2 by (apply Hnone; by left).
  apply IH. intros d' Hd'. apply Hnone. by right.
Qed.

Lemma spaces_op_serializable (up : ObjectId * json) :
  serializable up.2 = true → body_serializable (update (spaces_op up)) = true.
Proof.
  intros Hser. unfold spaces_op, body_serializable, object_serializable.
  cbn [update]. rewrite map_to_list_singleton. cbn [forallb fst snd].
  rewrite Hser.
  assert (has_nul "spaces" = false) as -> by (vm_compute; reflexivity).
  done.
Qed.

Lemma bulkWrite_batch (c : collection) (ops : list write_op) (e : env) :
  ops ≠ [] →
  forallb (λ op, body_serializable (update op)) ops = true →
  outage e = None →
  bulkWrite c ops e
  = run_ops c ops {| matchedCount := 0; modifiedCount := 0 |}.
Proof.
  intros Hops Hser Hup. destruct ops as [|op ops]; [done|].
  unfold bulkWrite, network. by rewrite Hser, Hup.
Qed.

Lemma run_ops_absent (ups : list (ObjectId * json)) (acc : BulkWriteResult)
    (st : server) (db : database) :
  db1 st = Some db →
  Forall (λ up, ∀ d, d ∈ lessons db → d !! "_id" ≠ Some (BOid up.1)) ups →
  ∃ st', run_ops Lessons (spaces_op <$> ups) acc st = (Ok acc, st')
         ∧ db1 st' = Some db.
Proof.
  intros Hdb Hups. revert st Hdb.
  induction Hups as [|[oid v] ups Hup _ IH]; intros st Hdb.
  - by exists st.
  - rewrite fmap_cons. cbn [run_ops spaces_op filter update fst snd] in *.
    rewrite parse_set_spaces. unfold bind at 1, lift at 1.
    unfold bind at 1, read at 1. rewrite Hdb.
    unfold bind at 1, lift at 1. cbn [docs_of].
    rewrite (update_first_absent oid _ (lessons db) Hup).
    unfold bind at 1, store at 1. rewrite Hdb.
    cbn [fmap option_fmap option_map].
    rewrite (existsb_has_id_absent oid (lessons db) Hup).
    rewrite bool_decide_eq_true_2 by done. cbn [count negb].
    rewrite !Nat.add_0_r.
    replace {| matchedCount := matchedCount acc;
               modifiedCount := modifiedCount acc |} with acc
      by by destruct acc.
    apply IH. cbn [db1 set_db1 with_docs]. by destruct db.
Qed.

(** X14.  A bulk update that matches no lesson succeeds and changes
    nothing.  With the database reachable and a non-empty list of pairs,
    each with a well-formed identifier that no lesson has and a value the
    driver can serialize, [PUT /lessons/updateSpaces] answers 200 with a
    result that counts no match and no modification, and the database is as
    it was: no lesson is created. *)
Theorem bulk_update_of_absent_lessons (pairs : list (string * json))
    (oids : list ObjectId) (db : database) (e : env) (st : server) :
  db1 st = Some db →
  outage e = None →
  pairs ≠ [] →
  Forall2 (λ p oid,
             ObjectId_of_string p.1 = Ok oid
             ∧ serializable p.2 = true
             ∧ ∀ d, d ∈ lessons db → d !! "_id" ≠ Some (BOid oid))
    pairs oids →
  (put_updateSpaces (Array (pair_json <$> pairs)) e st).1
  = {| status := 200;
       payload := BulkReply "Spaces updated successfully"
                    {| matchedCount := 0; modifiedCount := 0 |} |}
  ∧ db1 (put_updateSpaces (Array (pair_json <$> pairs)) e st).2 = Some db.
Proof.
  intros Hdb Hup Hpairs Hall.
  assert (Hids : Forall2 (λ p oid, ObjectId_of_string p.1 = Ok oid)
                   pairs oids).
  { eapply Forall2_impl; [exact Hall|]. by intros p oid [? _]. }
  assert (Hser : forallb (λ op, body_serializable (update op))
                   (spaces_op <$> zip oids pairs.*2) = true).
  { clear Hpairs Hids. induction Hall as [|p oid pairs oids (_ & Hp & _) _ IH];
      [done|].
    rewrite fmap_cons. cbn [zip zip_with fmap list_fmap forallb].
    rewrite IH. by rewrite spaces_op_serializable. }
  assert (Habsent : Forall (λ up, ∀ d, d ∈ lessons db
                                       → d !! "_id" ≠ Some (BOid up.1))
                      (zip oids pairs.*2)).
  { clear Hpairs Hids Hser.
    induction Hall as [|p oid pairs oids (_ & _ & Hp) _ IH]; [done|].
    rewrite fmap_cons. cbn [zip zip_with]. by constructor. }
  assert (Hops : spaces_op <$> zip oids pairs.*2 ≠ []).
  { destruct Hall; [done|]. by rewrite fmap_cons. }
  destruct (run_ops_absent _ {| matchedCount := 0; modifiedCount := 0 |}
              st db Hdb Habsent) as (st' & Hrun & Hdb').
  unfold put_updateSpaces, try_catch, bind, bulkOperations.
  rewrite (mapM_pairs e pairs oids st Hids).
  unfold lessonsCollection, db_collection. rewrite Hdb.
  rewrite (bulkWrite_batch _ _ _ Hops Hser Hup), Hrun.
  by cbn [res_json ret fst snd].
Qed.

Lemma bulk_update_of_absent_lessons_witness :
  (put_updateSpaces (Array (pair_json <$> [(other_hex, JNum 3)])) noon
     school).1
  = {| status := 200;
       payload := BulkReply "Spaces updated successfully"
                    {| matchedCount := 0; modifiedCount := 0 |} |}
  ∧ db1 (put_updateSpaces (Array (pair_json <$> [(other_hex, JNum 3)])) noon
           school).2
    = Some {| lessons := [algebra]; order_placed := [] |}.
Proof.
  apply (bulk_update_of_absent_lessons _ [other_id]);
    [reflexivity|reflexivity|discriminate|].
  constructor; [|constructor].
  split_and!; [exact other_hex_is_other_id|reflexivity|].
  intros d Hd. apply list_elem_of_singleton in Hd as ->.
  apply algebra_is_not_other, list_elem_of_here.
Defined.

(** ** The console *)

Lemma quiet_ret {A} (a : A) : quiet (ret a).
Proof. by intros st r st' [= _ <-]. Qed.

Lemma quiet_throw {A} (err : error) : quiet (@throw A err).
Proof. by intros st r st' [= _ <-]. Qed.

Lemma quiet_lift {A} (r : result A) : quiet (lift r).
Proof. by intros st r' st' [= _ <-]. Qed.

Lemma quiet_bind {A B} (m : M A) (k : A → M B) :
  quiet m → (∀ a, quiet (k a)) → quiet (bind m k).
Proof.
  intros Hm Hk st r st'. unfold bind.
  destruct (m st) as [[a|err] st0] eqn:Hrun.
  - intros Hrest. rewrite (Hk _ _ _ _ Hrest). by eapply Hm.
  - intros [= _ <-]. by eapply Hm.
Qed.

Lemma quiet_generate (time : N) : quiet (total (ObjectId_generate time)).
Proof. by intros st r st' [= _ <-]. Qed.

Lemma quiet_network (e : env) : quiet (network e).
Proof. unfold network. destruct (outage e); by intros st r st' [= _ <-]. Qed.

Lemma quiet_read (c : collection) : quiet (read c).
Proof. intros st r st'. unfold read. by destruct (db1 st); intros [= _ <-]. Qed.

Lemma quiet_store (c : collection) (docs : list document) :
  quiet (store c docs).
Proof. by intros st r st' [= _ <-]. Qed.

Lemma quiet_db_collection (c : collection) : quiet (db_collection c).
Proof.
  intros st r st'. unfold db_collection. by destruct (db1 st); intros [= _ <-].
Qed.

Ltac quiet_step :=
  first [ apply quiet_ret | apply quiet_throw | apply quiet_lift
        | apply quiet_generate | apply quiet_network | apply quiet_read
        | apply quiet_store | apply quiet_db_collection
        | apply quiet_bind; [|intros ?]
        | case_match ].

Lemma quiet_ObjectId_new (x : option json) (e : env) :
  quiet (ObjectId_new x e).
Proof. unfold ObjectId_new. repeat quiet_step. Qed.

Lemma quiet_insertOne (c : collection) (doc : body) (e : env) :
  quiet (insertOne c doc e).
Proof. unfold insertOne. repeat quiet_step. Qed.

Lemma quiet_findOne (c : collection) (oid : ObjectId) (e : env) :
  quiet (findOne c oid e).
Proof. unfold findOne. repeat quiet_step. Qed.

Lemma quiet_find_toArray (c : collection) (e : env) :
  quiet (find_toArray c e).
Proof. unfold find_toArray. repeat quiet_step. Qed.

Lemma quiet_updateOne (c : collection) (oid : ObjectId) (b : body) (e : env) :
  quiet (updateOne c oid b e).
Proof. unfold updateOne. repeat quiet_step. Qed.

Lemma quiet_deleteOne (c : collection) (oid : ObjectId) (e : env) :
  quiet (deleteOne c oid e).
Proof. unfold deleteOne. repeat quiet_step. Qed.

Lemma quiet_run_ops (c : collection) (ops : list write_op)
    (acc : BulkWriteResult) :
  quiet (run_ops c ops acc).
Proof.
  revert acc. induction ops as [|op ops IH]; intros acc; cbn [run_ops];
    repeat quiet_step. apply IH.
Qed.

Lemma quiet_bulkWrite (c : collection) (ops : list write_op) (e : env) :
  quiet (bulkWrite c ops e).
Proof. unfold bulkWrite. repeat quiet_step. apply quiet_run_ops. Qed.

Lemma quiet_bulkOperations (b : body) (e : env) :
  quiet (bulkOperations b e).
Proof.
  destruct b as [o|items]; cbn [bulkOperations]; [apply quiet_throw|].
  induction items as [|u items IH]; cbn [mapM]; [apply quiet_ret|].
  apply quiet_bind; [|intros op; apply quiet_bind; [exact IH|]].
  - unfold bulkOperation.
    destruct u; repeat first [apply quiet_ObjectId_new | quiet_step].
  - intros ops. apply quiet_ret.
Qed.

Lemma try_catch_console (m : M response) (label msg : string) (st : server) :
  quiet m →
  returns (λ r, status r ≠ 500) m →
  (status (try_catch m (catch_500 label msg) st).1 ≠ 500
   ∧ console (try_catch m (catch_500 label msg) st).2 = console st)
  ∨ (∃ err,
       status (try_catch m (catch_500 label msg) st).1 = 500
       ∧ console (try_catch m (catch_500 label msg) st).2
         = (console st ++ [LogError label err])%list).
Proof.
  intros Hquiet Hret. unfold try_catch.
  destruct (m st) as [[r|err] st'] eqn:Hrun.
  - left. split; [by eapply Hret|by eapply Hquiet].
  - right. exists err. split; [done|].
    cbn [catch_500 snd log console]. by rewrite (Hquiet _ _ _ Hrun).
Qed.

Lemma handler_console (t : endpoint) (b : body) (e : env) (st : server) :
  (status (handler t b e st).1 ≠ 500
   ∧ console (handler t b e st).2 = console st)
  ∨ (∃ err,
       status (handler t b e st).1 = 500
       ∧ console (handler t b e st).2
         = (console st ++ [LogError (catch_label t) err])%list).
Proof.
  destruct t; cbn [handler catch_label];
    unfold get_lessons, get_lesson, post_lessons, put_updateSpaces,
      put_lesson, delete_lesson, post_order_placed, get_order_placed;
    apply try_catch_console;
    try (repeat first
           [ apply quiet_ObjectId_new | apply quiet_insertOne
           | apply quiet_findOne | apply quiet_find_toArray
           | apply quiet_updateOne | apply quiet_deleteOne
           | apply quiet_bulkWrite | apply quiet_bulkOperations
           | quiet_step ]; fail);
    repeat (apply returns_bind; intros);
    try (by apply returns_res_json).
  by destruct a1; apply returns_res_json.
Qed.

(** X15.  What a request writes to the console.  A request whose body
    cannot be parsed writes one line, the global handler's, and the logger
    never sees it.  Every other request writes its request line, and after
    it one error line with the label of its route exactly when the answer
    is 500; a 404 writes no error line.  Nothing already on the console is
    changed. *)
Theorem console_accounting (req : request) (e : env) (st : server) :
  match content req with
  | BodyError detail =>
      console (app req e st).2
      = (console st
         ++ [LogError "Global error handler:" (SyntaxError detail)])%list
  | Body _ =>
      (status (app req e st).1 ≠ 500
       ∧ console (app req e st).2
         = (console st
            ++ [LogRequest (clock e) (route_name (target req))])%list)
      ∨ (∃ err,
           status (app req e st).1 = 500
           ∧ console (app req e st).2
             = (console st
                ++ [LogRequest (clock e) (route_name (target req));
                    LogError (catch_label (target req)) err])%list)
  end.
Proof.
  unfold app. destruct (content req) as [detail|b]; [done|].
  destruct (handler_console (target req) b e (logger e (target req) st))
    as [[Hstatus Hconsole]|(err & Hstatus & Hconsole)].
  - left. by rewrite Hconsole.
  - right. exists err. split; [done|]. rewrite Hconsole.
    unfold logger. cbn [log console]. by rewrite <- app_assoc.
Qed.

(** ** From the list to one lesson *)

Lemma find_unique (oid : ObjectId) (docs : list document) (d : document) :
  NoDup ((λ d : document, d !! "_id") <$> docs) →
  d ∈ docs →
  d !! "_id" = Some (BOid oid) →
  find (has_id oid) docs = Some d.
Proof.
  intros Hnodup Hd Hid. induction docs as [|d0 docs IH].
  { by apply elem_of_nil in Hd. }
  rewrite fmap_cons, NoDup_cons in Hnodup. destruct Hnodup as [Hd0 Hnodup].
  cbn [find]. unfold has_id at 1. apply elem_of_cons in Hd as [->|Hd].
  - by rewrite bool_decide_eq_true_2.
  - case_bool_decide as Hid0; [|by apply IH].
    exfalso. apply Hd0. rewrite Hid0, <- Hid. by apply list_elem_of_fmap_2.
Qed.

(** X16.  A listed lesson can be fetched by the identifier the list shows.
    A stored lesson whose [_id] is an ObjectId appears in JSON with [_id] as
    the 24 hexadecimal digits of that identifier; when no two lessons share
    an [_id] and the database is reachable, [GET /lessons/:id] with those
    digits returns that lesson, as [GET /lessons] lists it. *)
Theorem listed_lesson_is_fetchable (d : document) (oid : ObjectId)
    (db : database) (e : env) (st : server) :
  db1 st = Some db →
  outage e = None →
  NoDup ((λ d : document, d !! "_id") <$> lessons db) →
  d ∈ lessons db →
  d !! "_id" = Some (BOid oid) →
  length oid = 12 →
  doc_toJSON d !! "_id" = Some (JStr (toHexString oid))
  ∧ (∃ l, (get_lessons e st).1 = {| status := 200; payload := JsonList l |}
          ∧ doc_toJSON d ∈ l)
  ∧ (get_lesson (toHexString oid) e st).1
    = {| status := 200; payload := Json (doc_toJSON d) |}.
Proof.
  intros Hdb Hup Hnodup Hd Hid Hlen. split_and!.
  - unfold doc_toJSON. by rewrite lookup_fmap, Hid.
  - eexists. split; [by apply get_lessons_run|]. by apply list_elem_of_fmap_2.
  - rewrite (get_lesson_run _ oid db e st Hdb Hup)
      by by apply ObjectId_of_string_toHexString.
    by rewrite (find_unique oid (lessons db) d).
Qed.

Lemma listed_lesson_is_fetchable_witness :
  doc_toJSON algebra !! "_id" = Some (JStr (toHexString algebra_id))
  ∧ (∃ l, (get_lessons noon school).1
          = {| status := 200; payload := JsonList l |}
          ∧ doc_toJSON algebra ∈ l)
  ∧ (get_lesson (toHexString algebra_id) noon school).1
    = {| status := 200; payload := Json (doc_toJSON algebra) |}.
Proof.
  apply (listed_lesson_is_fetchable algebra algebra_id
           {| lessons := [algebra]; order_placed := [] |} noon school).
  - reflexivity.
  - reflexivity.
  - apply NoDup_singleton.
  - apply list_elem_of_here.
  - exact algebra_has_algebra_id.
  - reflexivity.
Defined.

(** X17.  Once [connectDB] has succeeded, the two listing routes return the
    documents of the database, each of them once: [GET /lessons] the
    lessons, [GET /order_placed] the orders. *)
Theorem connected_server_lists_the_database (db : database) (e : env)
    (st : server) :
  outage e = None →
  ∃ l l',
    (get_lessons e (connectDB (Ok db) st).2).1
    = {| status := 200; payload := JsonList l |}
    ∧ l ≡ₚ doc_toJSON <$> lessons db
    ∧ (get_order_placed e (connectDB (Ok db) st).2).1
      = {| status := 200; payload := JsonList l' |}
    ∧ l' ≡ₚ doc_toJSON <$> order_placed db.
Proof.
  intros Hup.
  exists (doc_toJSON <$> lessons db), (doc_toJSON <$> order_placed db).
  split_and!; [by apply get_lessons_run|done| |done].
  unfold get_order_placed, try_catch, bind, ordersCollection, db_collection,
    find_toArray, bind, network, read.
  cbn [connectDB snd db1 set_db1]. by rewrite Hup.
Qed.

Lemma connected_server_lists_the_database_witness :
  ∃ l l',
    (get_lessons noon
       (connectDB (Ok {| lessons := [algebra]; order_placed := [] |})
          (set_db1 None fresh_process)).2).1
    = {| status := 200; payload := JsonList l |}
    ∧ l ≡ₚ doc_toJSON <$> [algebra]
    ∧ (get_order_placed noon
         (connectDB (Ok {| lessons := [algebra]; order_placed := [] |})
            (set_db1 None fresh_process)).2).1
      = {| status := 200; payload := JsonList l' |}
    ∧ l' ≡ₚ doc_toJSON <$> [].
Proof.
  apply (connected_server_lists_the_database
           {| lessons := [algebra]; order_placed := [] |}).
  reflexivity.
Defined.

(** ** Which route creates and which removes *)

(** X18.  Lessons are created by [POST /lessons] only and removed by
    [DELETE /lessons/:id] only.  After a request that is not [POST /lessons],
    the identifiers of the stored lessons are among those stored before, in
    the same order (no update creates a lesson); after a request that is not
    a DELETE, the identifiers stored before are all still there, followed by
    at most a new one. *)
Theorem lessons_change_by_their_routes (req : request) (e : env)
    (st : server) :
  (target req ≠ PostLessons →
   lesson_ids (app req e st).2 `sublist_of` lesson_ids st)
  ∧ ((∀ id, target req ≠ DeleteLesson id) →
     ∃ new, lesson_ids (app req e st).2 = (lesson_ids st ++ new)%list
            ∧ (length new ≤ 1)%nat).
Proof.
  pose proof (app_effect req e st) as Heff. unfold lesson_ids.
  change (lessons_of (app req e st).2)
    with (lessons (snapshot (app req e st).2)).
  change (lessons_of st) with (lessons (snapshot st)).
  destruct Heff as [t db|db d _ _|db d _ _|db docs' Hids|id db docs' Hids
                   |id db docs' Hsub]; cbn [lessons]; split; intros Ht;
    try done.
  - exists []. rewrite app_nil_r. split; [done|cbn; lia].
  - exists [d !! "_id"]. rewrite fmap_app. split; [done|cbn; lia].
  - exists []. rewrite app_nil_r. split; [done|cbn; lia].
  - by rewrite (same_ids_fmap _ _ Hids).
  - exists []. rewrite app_nil_r, (same_ids_fmap _ _ Hids).
    split; [done|cbn; lia].
  - by rewrite (same_ids_fmap _ _ Hids).
  - exists []. rewrite app_nil_r, (same_ids_fmap _ _ Hids).
    split; [done|cbn; lia].
  - by apply fmap_sublist.
  - by destruct (Ht id).
Qed.

Lemma lessons_change_by_their_routes_witness :
  lesson_ids (app {| target := PutLesson algebra_hex;
                     content := Body (Object geometry) |} noon school).2
    `sublist_of` lesson_ids school
  ∧ ∃ new,
      lesson_ids (app {| target := PutLesson algebra_hex;
                         content := Body (Object geometry) |} noon school).2
      = (lesson_ids school ++ new)%list
      ∧ (length new ≤ 1)%nat.
Proof.
  split;
    by apply (lessons_change_by_their_routes
                {| target := PutLesson algebra_hex;
                   content := Body (Object geometry) |}).
Defined.

Lemma remove_first_split (oid : ObjectId) (docs : list document) :
  remove_first oid docs = docs
  ∨ ∃ l1 d l2,
      d !! "_id" = Some (BOid oid)
      ∧ (∀ d0, d0 ∈ l1 → d0 !! "_id" ≠ Some (BOid oid))
      ∧ docs = (l1 ++ d :: l2)%list
      ∧ remove_first oid docs = (l1 ++ l2)%list.
Proof.
  induction docs as [|d docs IH]; [by left|].
  cbn [remove_first]. destruct (has_id oid d) eqn:Hd.
  - apply bool_decide_eq_true in Hd.
    right. exists [], d, docs. split_and!; [done| |done|done].
    intros d0 Hd0. by apply elem_of_nil in Hd0.
  - apply bool_decide_eq_false in Hd.
    destruct IH as [->|(l1 & d1 & l2 & Hd1 & Hl1 & -> & ->)]; [by left|].
    right. exists (d :: l1), d1, l2. split_and!; [done| |done|done].
    intros d0 [->|Hd0]%elem_of_cons; [done|by apply Hl1].
Qed.

(** X19.  [DELETE /lessons/:id] removes at most one lesson, and only one
    that has the identifier: either the lessons are as they were, or the
    identifier is well formed and exactly the first lesson that has it is
    gone, the others staying as they were and in their order. *)
Theorem delete_removes_at_most_one (id : string) (e : env) (st : server) :
  lessons_of (delete_lesson id e st).2 = lessons_of st
  ∨ ∃ oid l1 d l2,
      ObjectId_of_string id = Ok oid
      ∧ d !! "_id" = Some (BOid oid)
      ∧ (∀ d0, d0 ∈ l1 → d0 !! "_id" ≠ Some (BOid oid))
      ∧ lessons_of st = (l1 ++ d :: l2)%list
      ∧ lessons_of (delete_lesson id e st).2 = (l1 ++ l2)%list.
Proof.
  assert (Hsame : ∀ st', db1 st' = db1 st → lessons_of st' = lessons_of st)
    by (intros st' Hdb'; unfold lessons_of; by rewrite Hdb').
  unfold delete_lesson, try_catch, bind, lessonsCollection, db_collection.
  destruct (db1 st) as [db|] eqn:Hdb; [|left; by apply Hsame].
  rewrite ObjectId_new_string.
  destruct (ObjectId_of_string id) as [oid|err]; [|left; by apply Hsame].
  destruct (deleteOne Lessons oid e st) as [r st'] eqn:Hdel.
  apply deleteOne_run in Hdel as [Hdb'|(db' & Hdb' & Hst')].
  { left. destruct r; apply Hsame; cbn; congruence. }
  assert (db' = db) as -> by congruence.
  assert (Hbefore : lessons_of st = lessons db)
    by (unfold lessons_of; by rewrite Hdb).
  assert (Hafter : lessons_of st' = remove_first oid (lessons db))
    by (unfold lessons_of; by rewrite Hst').
  rewrite Hbefore.
  replace (lessons_of _) with (remove_first oid (lessons db))
    by (by destruct r).
  destruct (remove_first_split oid (lessons db))
    as [Hnone|(l1 & d & l2 & Hd & Hl1 & Hdocs & Hrest)]; [by left|].
  right. by exists oid, l1, d, l2.
Qed.

(** ** The two updates *)

Lemma bulkOperations_single (id : string) (v : json) (e : env) (st : server) :
  bulkOperations (Array [pair_json (id, v)]) e st
  = match ObjectId_of_string id with
    | Ok oid => (Ok [spaces_op (oid, v)], st)
    | Throw err => (Throw err, st)
    end.
Proof.
  destruct (ObjectId_of_string id) as [oid|err] eqn:Hid.
  - apply (mapM_pairs e [(id, v)] [oid] st). by constructor.
  - unfold bulkOperations. cbn [mapM]. unfold bind at 1.
    unfold bulkOperation, pair_json, bind. cbn [get_prop assoc fst snd].
    rewrite decide_True by done. by rewrite ObjectId_new_string, Hid.
Qed.

(** X20.  A bulk update of one pair is the single update.  Whatever the
    identifier and the value, [PUT /lessons/updateSpaces] with the list of
    the one pair [{id, spaces}] leaves the database exactly as [PUT
    /lessons/:id] with the body [{spaces}] does, and answers with the same
    status. *)
Theorem single_pair_bulk_update_is_put (id : string) (v : json) (e : env)
    (st : server) :
  db1 (put_updateSpaces (Array [pair_json (id, v)]) e st).2
  = db1 (put_lesson id (Object {[ "spaces" := v ]}) e st).2
  ∧ status (put_updateSpaces (Array [pair_json (id, v)]) e st).1
    = status (put_lesson id (Object {[ "spaces" := v ]}) e st).1.
Proof.
  unfold put_updateSpaces, put_lesson, try_catch, bind, lessonsCollection,
    db_collection.
  rewrite bulkOperations_single.
  destruct (ObjectId_of_string id) as [oid|err] eqn:Hid;
    destruct (db1 st) as [db|] eqn:Hdb;
    rewrite ?ObjectId_new_string, ?Hid; try done.
  unfold bulkWrite, updateOne, spaces_op. cbn [forallb update fst snd].
  rewrite andb_true_r.
  destruct (body_serializable (Object {[ "spaces" := v ]})); [|done].
  cbn [negb run_ops filter update]. unfold bind, network, lift, read, store.
  destruct (outage e); [done|]. cbn [ret].
  rewrite parse_set_spaces, ?Hdb. cbn [docs_of].
  by rewrite update_first_set_spaces, ?Hdb.
Qed.

(** ** One lesson and the list *)

(** X21.  What [GET /lessons/:id] returns is a lesson of the list.  When
    the route answers 200 with a lesson, the path identifier is well formed,
    the lesson carries it under [_id], as 24 hexadecimal digits in lower
    case, and [GET /lessons] on the same database lists that lesson. *)
Theorem fetched_lesson_is_listed (id : string) (lesson : object)
    (e e' : env) (st : server) :
  (get_lesson id e st).1 = {| status := 200; payload := Json lesson |} →
  outage e' = None →
  (∃ oid, ObjectId_of_string id = Ok oid
          ∧ lesson !! "_id" = Some (JStr (toHexString oid)))
  ∧ ∃ l, (get_lessons e' st).1 = {| status := 200; payload := JsonList l |}
         ∧ lesson ∈ l.
Proof.
  intros (db & oid & d & Hdb & Hid & Hfind & ->)%get_lesson_200 Hup'.
  apply find_has_id_Some in Hfind as [Hd Hd_id]. split.
  - exists oid. split; [done|]. unfold doc_toJSON.
    by rewrite lookup_fmap, Hd_id.
  - eexists. split; [by apply get_lessons_run|].
    by apply list_elem_of_fmap_2.
Qed.

Lemma fetched_lesson_is_listed_witness :
  (∃ oid, ObjectId_of_string algebra_hex = Ok oid
          ∧ doc_toJSON algebra !! "_id" = Some (JStr (toHexString oid)))
  ∧ ∃ l, (get_lessons noon school).1
         = {| status := 200; payload := JsonList l |}
         ∧ doc_toJSON algebra ∈ l.
Proof.
  apply (fetched_lesson_is_listed algebra_hex (doc_toJSON algebra) noon noon);
    [exact algebra_is_fetched|reflexivity].
Defined.
